(** * wky-report: the spreadsheet normalisation engine

    A shallow embedding of [backend/utils.py] and of the parts of
    [backend/main.py] that build records from it (the fingerprint and the
    [tx_type] backfill of the upload handler).

    Python text is a list of code points, a pandas cell is [None], [NaN] or
    a string, a Python float is an IEEE binary64 value ([spec_float] with
    precision 53), and code that can raise returns an [outcome].  What the
    interpreter and pandas provide through large tables ([str.lower],
    [float(str)] on digits of every script, [pandas.to_datetime]) is the
    interface [PyRuntime]; the file decoders of the loader are parameters
    of [load_spreadsheet]. *)

From Stdlib Require Import ZArith NArith List String Ascii Bool Lia.
From Stdlib Require Import Floats.SpecFloat.
Import ListNotations.

Set Implicit Arguments.
Open Scope N_scope.
Open Scope list_scope.

(* ================================================================= *)
(** ** Python text *)

Definition char := N.
Definition pystr := list char.

Fixpoint bytes_of_string (s : string) : list N :=
  match s with
  | EmptyString => []
  | String a s' => N_of_ascii a :: bytes_of_string s'
  end.

(** Source literals are written as UTF-8 and decoded to code points. *)
Fixpoint utf8_decode (bs : list N) : pystr :=
  match bs with
  | [] => []
  | b0 :: r0 =>
    if b0 <? 128 then b0 :: utf8_decode r0
    else match r0 with
      | [] => []
      | b1 :: r1 =>
        if b0 <? 224 then ((b0 - 192) * 64 + (b1 - 128)) :: utf8_decode r1
        else match r1 with
          | [] => []
          | b2 :: r2 =>
            if b0 <? 240
            then ((b0 - 224) * 4096 + (b1 - 128) * 64 + (b2 - 128)) :: utf8_decode r2
            else match r2 with
              | [] => []
              | b3 :: r3 =>
                ((b0 - 240) * 262144 + (b1 - 128) * 4096 + (b2 - 128) * 64 + (b3 - 128))
                  :: utf8_decode r3
              end
          end
      end
  end.

Definition u (s : string) : pystr := utf8_decode (bytes_of_string s).

Fixpoint str_eqb (a b : pystr) : bool :=
  match a, b with
  | [], [] => true
  | c :: a', d :: b' => (c =? d) && str_eqb a' b'
  | _, _ => false
  end.

Definition is_empty (s : pystr) : bool :=
  match s with [] => true | _ => false end.

(** [str.isspace] for one code point; [\s] of [re] on text and
    [str.strip()] use the same set. *)
Definition isspace (c : char) : bool :=
  ((9 <=? c) && (c <=? 13)) || ((28 <=? c) && (c <=? 32))
  || (c =? 133) || (c =? 160) || (c =? 5760)
  || ((8192 <=? c) && (c <=? 8202))
  || (c =? 8232) || (c =? 8233) || (c =? 8239) || (c =? 8287) || (c =? 12288).

Fixpoint lstrip (s : pystr) : pystr :=
  match s with
  | c :: s' => if isspace c then lstrip s' else s
  | [] => []
  end.

Definition rstrip (s : pystr) : pystr := rev (lstrip (rev s)).

(** [s.strip()] *)
Definition strip (s : pystr) : pystr := rstrip (lstrip s).

Fixpoint startswith (s p : pystr) : bool :=
  match p, s with
  | [], _ => true
  | c :: p', d :: s' => (c =? d) && startswith s' p'
  | _ :: _, [] => false
  end.

(** [p in s] for two strings *)
Fixpoint str_in (p s : pystr) : bool :=
  startswith s p
  || match s with
     | [] => false
     | _ :: s' => str_in p s'
     end.

(** [s.replace(c, r)] for a one-character [c] *)
Definition replace_char (c : char) (r : pystr) (s : pystr) : pystr :=
  flat_map (fun x => if x =? c then r else [x]) s.

(** [re.sub("[...]", r, s)] for a character class *)
Definition re_sub_class (cls : char -> bool) (r : pystr) (s : pystr) : pystr :=
  flat_map (fun x => if cls x then r else [x]) s.

(** [sep.join(parts)] *)
Fixpoint join (sep : pystr) (parts : list pystr) : pystr :=
  match parts with
  | [] => []
  | [p] => p
  | p :: rest => p ++ sep ++ join sep rest
  end.

Definition is_ascii (c : char) : bool := c <? 128.

Definition ascii_lower_char (c : char) : char :=
  if (65 <=? c) && (c <=? 90) then c + 32 else c.

(** Code points that [str.lower] maps one by one as ASCII does: ASCII itself
    and the Hangul syllables, which have no case. *)
Definition plain_char (c : char) : bool :=
  is_ascii c || ((44032 <=? c) && (c <=? 55203)).

(* ================================================================= *)
(** ** Python values, floats and exceptions *)

(** What a cell of a frame read with [dtype=str], or an entry of a row or
    rule dictionary, holds. *)
Inductive pyval :=
| PyNone
| PyNaN
| PyStr (s : pystr).

(** [str(v)] *)
Definition str (v : pyval) : pystr :=
  match v with
  | PyNone => u "None"
  | PyNaN => u "nan"
  | PyStr s => s
  end.

(** [pd.isna(v)] *)
Definition isna (v : pyval) : bool :=
  match v with
  | PyStr _ => false
  | _ => true
  end.

Definition float := spec_float.
Definition prec : Z := 53.
Definition emax : Z := 1024.

Definition fzero : float := S754_zero false.
Definition fnan : float := S754_nan.
Definition fsub (x y : float) : float := SFsub prec emax x y.
(** [x > 0] and [x < 0] *)
Definition fpos (x : float) : bool := SFltb fzero x.
Definition fneg (x : float) : bool := SFltb x fzero.
(** [float(n)] for an integer *)
Definition float_of_Z (z : Z) : float := binary_normalize prec emax z 0 false.

Inductive exn :=
| ValueError (msg : pystr)
| MissingColumns (cols : list pystr)
| FloatConversion (s : pystr)
| LengthMismatch (given expected : nat)
| CannotAssemble
| NotOneDimensional
| NoStrAccessor
| UnicodeEncodeError.

Inductive outcome (A : Type) :=
| Returned (a : A)
| Raised (e : exn).
Arguments Returned {A} a.
Arguments Raised {A} e.

Definition bind {A B} (c : outcome A) (k : A -> outcome B) : outcome B :=
  match c with
  | Returned a => k a
  | Raised e => Raised e
  end.

Notation "x <- c ;; k" := (bind c (fun x => k))
  (at level 61, c at next level, right associativity).

(** [try: c  except: h] with a handler that ignores the exception *)
Definition try_except {A} (c : outcome A) (h : outcome A) : outcome A :=
  match c with
  | Returned a => Returned a
  | Raised _ => h
  end.

(** A comprehension [[f(x) for x in xs]] whose body can raise *)
Fixpoint for_each {A B} (f : A -> outcome B) (xs : list A) : outcome (list B) :=
  match xs with
  | [] => Returned []
  | x :: xs' => y <- f x ;; ys <- for_each f xs' ;; Returned (y :: ys)
  end.

(* ================================================================= *)
(** ** [float(str)] on ASCII text *)

Definition is_digit (c : char) : bool := (48 <=? c) && (c <=? 57).

(** the blanks [float] skips at both ends of an ASCII string *)
Definition is_c_space (c : char) : bool := ((9 <=? c) && (c <=? 13)) || (c =? 32).

Fixpoint skip_c_space (s : pystr) : pystr :=
  match s with
  | c :: s' => if is_c_space c then skip_c_space s' else s
  | [] => []
  end.

(** An underscore is accepted between two digits only; the digits are then
    read without it. *)
Fixpoint drop_underscores (prev : char) (s : pystr) : option pystr :=
  match s with
  | [] => if prev =? 95 then None else Some []
  | c :: s' =>
    if c =? 95 then
      if is_digit prev then drop_underscores c s' else None
    else if (prev =? 95) && negb (is_digit c) then None
    else match drop_underscores c s' with
         | Some r => Some (c :: r)
         | None => None
         end
  end.

Fixpoint span_digits (s : pystr) : pystr * pystr :=
  match s with
  | c :: s' =>
    if is_digit c then let (d, r) := span_digits s' in (c :: d, r) else ([], s)
  | [] => ([], [])
  end.

Definition digits_value (ds : pystr) : N :=
  fold_left (fun acc c => acc * 10 + (c - 48)) ds 0.

Definition take_sign (s : pystr) : bool * pystr :=
  match s with
  | 45 :: s' => (true, s')
  | 43 :: s' => (false, s')
  | _ => (false, s)
  end.

(** The binary64 value nearest to [m * 10 ^ e], ties to even. *)
Definition decimal_to_float (neg : bool) (m : N) (e : Z) : float :=
  match m with
  | N0 => S754_zero neg
  | Npos p =>
    if (0 <=? e)%Z
    then binary_round prec emax neg (p * Z.to_pos (10 ^ e)) 0
    else let '(q, e', l) :=
           SFdiv_core_binary prec emax (Zpos p) 0 (10 ^ (- e)) 0 in
         binary_round_aux prec emax neg q e' l
  end.

Definition parse_exponent (s : pystr) : option Z :=
  match s with
  | [] => Some 0%Z
  | c :: s' =>
    if (c =? 101) || (c =? 69) then
      let (neg, r) := take_sign s' in
      let (ds, rest) := span_digits r in
      if is_empty ds || negb (is_empty rest) then None
      else Some (if neg then (- Z.of_N (digits_value ds))%Z
                 else Z.of_N (digits_value ds))
    else None
  end.

Definition parse_decimal (neg : bool) (s : pystr) : option float :=
  let (ip, r1) := span_digits s in
  let (fp, r2) := match r1 with
                  | 46 :: r => span_digits r
                  | _ => ([], r1)
                  end in
  if is_empty ip && is_empty fp then None
  else match parse_exponent r2 with
       | None => None
       | Some ex =>
         Some (decimal_to_float neg (digits_value (ip ++ fp))
                 (ex - Z.of_nat (List.length fp)))
       end.

Definition ascii_float (s : pystr) : option float :=
  let s1 := rev (skip_c_space (rev (skip_c_space s))) in
  match drop_underscores 0 s1 with
  | None => None
  | Some s2 =>
    let (neg, body) := take_sign s2 in
    let low := map ascii_lower_char body in
    if str_eqb low (u "inf") || str_eqb low (u "infinity")
    then Some (S754_infinity neg)
    else if str_eqb low (u "nan") then Some S754_nan
    else parse_decimal neg body
  end.

(* ================================================================= *)
(** ** The runtime interface *)

(** A pandas [Timestamp]: a calendar date and the nanoseconds into its
    day. *)
Record timestamp := {
  ts_year : N;
  ts_month : N;
  ts_day : N;
  ts_nanos : N
}.

(** The library functions whose tables are not reproduced here, with the
    facts about them that the examples of the specification rely on. *)
Class PyRuntime := {
  (** [str.lower] *)
  py_lower : pystr -> pystr;
  py_lower_plain :
    forall s, forallb plain_char s = true -> py_lower s = map ascii_lower_char s;
  py_lower_nonempty : forall s, py_lower s = [] -> s = [];
  (** [float(s)]: [None] stands for the [ValueError] *)
  py_float : pystr -> option float;
  py_float_ascii :
    forall s, forallb is_ascii s = true -> py_float s = ascii_float s;
  (** [pandas.to_datetime(column, errors="coerce")]: [None] is [NaT] *)
  to_datetime : list pyval -> list (option timestamp);
  to_datetime_length : forall col, List.length (to_datetime col) = List.length col
}.

(** [float(s)] as a call that can raise *)
Definition float_of_str `{PyRuntime} (s : pystr) : outcome float :=
  match py_float s with
  | Some f => Returned f
  | None => Raised (FloatConversion s)
  end.

(* ================================================================= *)
(** ** Money parsing ([_parse_money]) *)

(** the class [[₩원,\s]] *)
Definition money_noise (c : char) : bool :=
  (c =? 8361) || (c =? 50896) || (c =? 44) || isspace c.

Definition _parse_money `{PyRuntime} (v : pyval) : outcome float :=
  if isna v then Returned fzero
  else
    let s := re_sub_class money_noise [] (str v) in
    if is_empty s then Returned fzero
    else try_except (float_of_str s) (Returned fzero).

(* ================================================================= *)
(** ** Raw tables and labelled frames *)

(** The header-less table the loader returns: [ncols] is [df.shape[1]],
    [body] the rows in order, every cell text or [NaN]. *)
Record RawTable := {
  ncols : nat;
  body : list (list pyval)
}.

(** ["".join(str(x) for x in row)] *)
Definition row_text (row : list pyval) : pystr := List.concat (map str row).

(** [for i in range(min(limit, len(df))): if test(row i): return i] *)
Fixpoint first_row {A} (test : A -> bool) (rows : list A) (limit i : nat)
  : option nat :=
  match limit, rows with
  | S limit', r :: rest =>
    if test r then Some i else first_row test rest limit' (S i)
  | _, _ => None
  end.

Definition label_in (c : pystr) (labels : list pystr) : bool :=
  existsb (str_eqb c) labels.

Fixpoint positions (c : pystr) (labels : list pystr) (i : nat) : list nat :=
  match labels with
  | [] => []
  | l :: rest =>
    if str_eqb c l then i :: positions c rest (S i) else positions c rest (S i)
  end.

Definition column_at (j : nat) (data : list (list pyval)) : list pyval :=
  map (fun r => nth j r PyNaN) data.

(** What [df[c]] is: the column when one column carries the label, a frame
    of [k] columns when the label is repeated. *)
Inductive selection :=
| Series (cells : list pyval)
| SubFrame (k : nat)
| Missing.

Definition getitem (labels : list pystr) (data : list (list pyval)) (c : pystr)
  : selection :=
  match positions c labels 0 with
  | [] => Missing
  | [j] => Series (column_at j data)
  | js => SubFrame (List.length js)
  end.

(** [for v in df[c]]: the cells of a series, the column labels of a frame. *)
Definition iterate (c : pystr) (sel : selection) : list pyval :=
  match sel with
  | Series cells => cells
  | SubFrame k => repeat (PyStr c) k
  | Missing => []
  end.

Inductive TxType := IN | OUT.

(** One row of a unified frame.  A field is [None] when the frame has no
    such column. *)
Record URow := {
  r_date : option timestamp;
  r_description : pyval;
  r_amount : float;
  r_balance : option float;
  r_tx_type : option TxType;
  r_type : option pyval;
  r_branch : option pyval;
  r_in_amount : option float;
  r_out_amount : option float
}.

Record Frame := {
  f_columns : list string;
  f_rows : list URow
}.

(** [lambda x: "IN" if x > 0 else "OUT"] *)
Definition tx_type_of (x : float) : TxType := if fpos x then IN else OUT.

(* ================================================================= *)
(** ** Bank detectors ([parse_woori_excel], [parse_kb_excel]) *)

(** One cell of a numeric column before [astype(float)]:
    [astype(str).str.replace(",", "").str.replace("원", "")
     .replace("-", "0").replace("", "0")] *)
Definition clean_number (v : pyval) : pystr :=
  let s := replace_char 50896 [] (replace_char 44 [] (str v)) in
  let s := if str_eqb s (u "-") then u "0" else s in
  if str_eqb s [] then u "0" else s.

(** The cleaning of [df_data[c]] for a numeric label [c]. *)
Definition numeric_column `{PyRuntime} (labels : list pystr)
    (data : list (list pyval)) (c : pystr) : outcome (list float) :=
  match getitem labels data c with
  | Series cells => for_each (fun v => float_of_str (clean_number v)) cells
  | _ => Raised NoStrAccessor
  end.

(** A text column of [df_data[needed]]; of columns sharing a label the
    first is kept in the row record. *)
Definition text_column (labels : list pystr) (data : list (list pyval))
    (c : pystr) : list pyval :=
  match positions c labels 0 with
  | j :: _ => column_at j data
  | [] => map (fun _ => PyNaN) data
  end.

(** The date column of [df_data[needed]] and what [to_datetime] makes of it
    after [dropna(subset=["거래일시"])]; [keep] marks the rows that stay. *)
Definition date_column `{PyRuntime} (labels : list pystr)
    (data : list (list pyval)) (c : pystr)
  : outcome (list bool * list (option timestamp)) :=
  match getitem labels data c with
  | Series cells =>
    Returned (map (fun v => negb (isna v)) cells,
              to_datetime (filter (fun v => negb (isna v)) cells))
  | _ => Raised CannotAssemble
  end.

Fixpoint keep_rows {A} (keep : list bool) (xs : list A) : list A :=
  match keep, xs with
  | k :: keep', x :: xs' =>
    if k then x :: keep_rows keep' xs' else keep_rows keep' xs'
  | _, _ => []
  end.

Definition woori_signature (row : list pyval) : bool :=
  let text := row_text row in
  str_in (u "거래일시") text && str_in (u "적요") text && str_in (u "입금") text.

Definition woori_needed : list pystr :=
  [u "거래일시"; u "적요"; u "기재내용"; u "지급(원)"; u "입금(원)";
   u "거래후 잔액(원)"; u "취급점"].

Definition woori_columns : list string :=
  ["date"; "type"; "description"; "out_amount"; "in_amount"; "balance";
   "branch"; "amount"; "tx_type"]%string.

Fixpoint woori_rows (dates : list (option timestamp))
    (types descs : list pyval) (outs ins bals : list float)
    (branches : list pyval) : list URow :=
  match dates, types, descs, outs, ins, bals, branches with
  | d :: dates', t :: types', s :: descs', o :: outs', i :: ins', b :: bals',
    br :: branches' =>
    let amount := fsub i o in
    {| r_date := d; r_description := s; r_amount := amount;
       r_balance := Some b; r_tx_type := Some (tx_type_of amount);
       r_type := Some t; r_branch := Some br;
       r_in_amount := Some i; r_out_amount := Some o |}
      :: woori_rows dates' types' descs' outs' ins' bals' branches'
  | _, _, _, _, _, _, _ => []
  end.

Definition parse_woori_excel `{PyRuntime} (df : RawTable)
  : outcome (option Frame) :=
  if (ncols df <? 5)%nat then Returned None
  else match first_row woori_signature (body df) 30 0 with
  | None => Returned None
  | Some header_row =>
    let df_data := skipn (S header_row) (body df) in
    let columns := map (fun x => strip (str x)) (nth header_row (body df) []) in
    if negb (forallb (fun c => label_in c columns) woori_needed)
    then Returned None
    else
      outs <- numeric_column columns df_data (u "지급(원)") ;;
      ins <- numeric_column columns df_data (u "입금(원)") ;;
      bals <- numeric_column columns df_data (u "거래후 잔액(원)") ;;
      kd <- date_column columns df_data (u "거래일시") ;;
      let keep := fst kd in
      Returned (Some {|
        f_columns := woori_columns;
        f_rows := woori_rows (snd kd)
                    (keep_rows keep (text_column columns df_data (u "적요")))
                    (keep_rows keep (text_column columns df_data (u "기재내용")))
                    (keep_rows keep outs) (keep_rows keep ins)
                    (keep_rows keep bals)
                    (keep_rows keep (text_column columns df_data (u "취급점")))
      |})
  end.

Definition kb_signature (row : list pyval) : bool :=
  let text := row_text row in
  str_in (u "거래일시") text
  && (str_in (u "보낸분") text || str_in (u "받는분") text).

Definition kb_needed : list pystr :=
  [u "거래일시"; u "보낸분/받는분"; u "출금액(원)"; u "입금액(원)"; u "잔액(원)"].

Definition kb_columns : list string :=
  ["date"; "description"; "out_amount"; "in_amount"; "balance"; "amount";
   "tx_type"]%string.

Fixpoint kb_rows (dates : list (option timestamp))
    (descs : list pyval) (outs ins bals : list float) : list URow :=
  match dates, descs, outs, ins, bals with
  | d :: dates', s :: descs', o :: outs', i :: ins', b :: bals' =>
    let amount := fsub i o in
    {| r_date := d; r_description := s; r_amount := amount;
       r_balance := Some b; r_tx_type := Some (tx_type_of amount);
       r_type := None; r_branch := None;
       r_in_amount := Some i; r_out_amount := Some o |}
      :: kb_rows dates' descs' outs' ins' bals'
  | _, _, _, _, _ => []
  end.

Definition parse_kb_excel `{PyRuntime} (df : RawTable)
  : outcome (option Frame) :=
  if (ncols df <? 5)%nat then Returned None
  else match first_row kb_signature (body df) 30 0 with
  | None => Returned None
  | Some header_row =>
    let df_data := skipn (S header_row) (body df) in
    let columns := map (fun x => strip (str x)) (nth header_row (body df) []) in
    if negb (forallb (fun c => label_in c columns) kb_needed)
    then Returned None
    else
      outs <- numeric_column columns df_data (u "출금액(원)") ;;
      ins <- numeric_column columns df_data (u "입금액(원)") ;;
      bals <- numeric_column columns df_data (u "잔액(원)") ;;
      kd <- date_column columns df_data (u "거래일시") ;;
      let keep := fst kd in
      Returned (Some {|
        f_columns := kb_columns;
        f_rows := kb_rows (snd kd)
                    (keep_rows keep (text_column columns df_data (u "보낸분/받는분")))
                    (keep_rows keep outs) (keep_rows keep ins)
                    (keep_rows keep bals)
      |})
  end.

(* ================================================================= *)
(** ** Header keywords and their matching ([_HEADER_KEYWORDS], [_has_kw]) *)

(** The patterns of the table use literals, [.?] and [\s*] only. *)
Inductive atom :=
| Lit (c : char)
| OptAny
| WsStar.

Definition pattern := list atom.

Definition lit (s : string) : pattern := map Lit (u s).

(** A literal under [re.I]: the subject character is lowered before the
    comparison, and i, s and k have the extra partners the engine adds. *)
Definition ci_match (p c : char) : bool :=
  let p := ascii_lower_char p in
  (ascii_lower_char c =? p)
  || ((p =? 105) && ((c =? 304) || (c =? 305)))
  || ((p =? 115) && (c =? 383))
  || ((p =? 107) && (c =? 8490)).

(** Does the pattern match at the start of the text? *)
Fixpoint match_here (p : pattern) : pystr -> bool :=
  match p with
  | [] => fun _ => true
  | Lit c :: p' =>
    fun s => match s with
             | d :: s' => ci_match c d && match_here p' s'
             | [] => false
             end
  | OptAny :: p' =>
    fun s => match_here p' s
             || match s with
                | d :: s' => negb (d =? 10) && match_here p' s'
                | [] => false
                end
  | WsStar :: p' =>
    fix star (s : pystr) : bool :=
      match_here p' s
      || match s with
         | d :: s' => isspace d && star s'
         | [] => false
         end
  end.

(** [re.search(p, s, re.I)] as a truth value *)
Fixpoint re_search (p : pattern) (s : pystr) : bool :=
  match_here p s
  || match s with
     | [] => false
     | _ :: s' => re_search p s'
     end.

Definition kw_date : list pattern :=
  [lit "날짜"; lit "거래일"; lit "일자"; lit "승인일자";
   lit "거래" ++ [WsStar] ++ lit "시간"].
Definition kw_desc : list pattern :=
  [lit "내용"; lit "적요"; lit "거래내용"; lit "가맹점명";
   lit "받는" ++ [OptAny] ++ lit "분";
   lit "보내" ++ [OptAny] ++ lit "는" ++ [OptAny] ++ lit "분"].
Definition kw_memo : list pattern := [lit "메모"; lit "비고"].
Definition kw_dep : list pattern := [lit "입금"; lit "받은금액"; lit "credit"].
Definition kw_wd : list pattern := [lit "출금"; lit "보낸금액"; lit "debit"].
Definition kw_amt : list pattern := [lit "금액"; lit "이체금액"; lit "거래금액"].

(** [str(x).replace(" ", " ").strip()] *)
Definition _norm_str (x : pyval) : pystr :=
  strip (replace_char 160 [32] (str x)).

Definition _has_kw (s : pystr) (pats : list pattern) : bool :=
  let s2 := _norm_str (PyStr s) in
  existsb (fun p => re_search p s2) pats.

(* ================================================================= *)
(** ** Header guessing ([_guess_header_row]) *)

Definition hit (b : bool) : nat := if b then 1%nat else 0%nat.

(** The inner loop over the cells of one row: five tests for every cell,
    each adding one. *)
Definition row_hits (row : list pystr) : nat :=
  fold_left
    (fun hits cell =>
       (hits + hit (_has_kw cell kw_date) + hit (_has_kw cell kw_desc)
        + hit (_has_kw cell kw_amt) + hit (_has_kw cell kw_dep)
        + hit (_has_kw cell kw_wd))%nat)
    row 0%nat.

Definition header_like (r : list pyval) : bool :=
  (2 <=? row_hits (map _norm_str r))%nat.

Definition _guess_header_row (rows : list (list pyval)) (scan_rows : nat)
  : option nat :=
  first_row header_like rows scan_rows 0.

(* ================================================================= *)
(** ** The generic fallback ([unify_columns]) *)

(** [df.dropna(how="all", axis=1)] *)
Definition dropna_columns (df : RawTable) : RawTable :=
  let keep :=
    map (fun j => existsb (fun r => negb (isna (nth j r PyNaN))) (body df))
        (seq 0 (ncols df)) in
  {| ncols := List.length (filter (fun b => b) keep);
     body := map (keep_rows keep) (body df) |}.

(** [df.dropna(how="all", axis=0).reset_index(drop=True)] *)
Definition dropna_rows (df : RawTable) : RawTable :=
  {| ncols := ncols df;
     body := filter (existsb (fun v => negb (isna v))) (body df) |}.

(** [next((c for c in cols if _has_kw(c, kws)), None)] *)
Definition next_label (kws : list pattern) (cols : list pystr) : option pystr :=
  find (fun c => _has_kw c kws) cols.

(** the truth value of a label or [None] in a condition *)
Definition truthy (c : option pystr) : bool :=
  match c with
  | Some (_ :: _) => true
  | _ => false
  end.

(** [[_parse_money(a) for a in df[c]]] *)
Definition money_list `{PyRuntime} (labels : list pystr)
    (data : list (list pyval)) (c : pystr) : outcome (list float) :=
  for_each _parse_money (iterate c (getitem labels data c)).

Definition label_text (c : option pystr) : pystr :=
  match c with
  | Some s => s
  | None => []
  end.

(** The amount block: credit minus debit when one of the two is there, the
    amount column otherwise, and an error without any of the three. *)
Definition amount_series `{PyRuntime} (labels : list pystr)
    (data : list (list pyval)) (col_dep col_wd col_amt : option pystr)
  : outcome (list float) :=
  if truthy col_dep || truthy col_wd then
    dep_v <- (if truthy col_dep then money_list labels data (label_text col_dep)
              else Returned (repeat fzero (List.length data))) ;;
    wd_v <- (if truthy col_wd then money_list labels data (label_text col_wd)
             else Returned (repeat fzero (List.length data))) ;;
    Returned (map (fun dw => fsub (fst dw) (snd dw)) (combine dep_v wd_v))
  else if truthy col_amt then money_list labels data (label_text col_amt)
  else Raised (ValueError (u "금액 컬럼 없음")).

(** A row of [out] before the balance is set. *)
Definition out_row : Type := (option timestamp * pyval * float)%type.

(** [pd.DataFrame({"date": to_datetime(df[col_date], errors="coerce"),
                   "description": df[col_desc], "amount": amount_series})] *)
Definition build_out `{PyRuntime} (labels : list pystr)
    (data : list (list pyval)) (col_date col_desc : pystr)
    (amounts : list float) : outcome (list out_row) :=
  dates <- match getitem labels data col_date with
           | Series cells => Returned (to_datetime cells)
           | _ => Raised CannotAssemble
           end ;;
  if negb (List.length amounts =? List.length data)%nat
  then Raised (LengthMismatch (List.length amounts) (List.length data))
  else match getitem labels data col_desc with
       | Series descs => Returned (combine (combine dates descs) amounts)
       | _ => Raised NotOneDimensional
       end.

(** the rows that
    [out[~(out["date"].isna() & (out["description"].astype(str).str.strip() == ""))]]
    keeps *)
Definition kept (r : out_row) : bool :=
  match r with
  | (d, s, _) =>
    negb (match d with None => true | Some _ => false end
          && is_empty (strip (str s)))
  end.

Definition with_balance (r : out_row) (b : float) : URow :=
  match r with
  | (d, s, a) =>
    {| r_date := d; r_description := s; r_amount := a; r_balance := Some b;
       r_tx_type := None; r_type := None; r_branch := None;
       r_in_amount := None; r_out_amount := None |}
  end.

(** [out['balance'] = values] for a list: a frame without rows takes its
    rows from the list, the other columns filled with [NaT] and [NaN];
    otherwise the lengths have to agree. *)
Definition set_balance (out : list out_row) (values : list float)
  : outcome (list URow) :=
  match out, values with
  | [], _ :: _ =>
    Returned (map (with_balance (None, PyNaN, fnan)) values)
  | _, _ =>
    if (List.length values =? List.length out)%nat
    then Returned (map (fun rb => with_balance (fst rb) (snd rb))
                       (combine out values))
    else Raised (LengthMismatch (List.length values) (List.length out))
  end.

Definition balance_labels : list pystr :=
  [u "잔액"; u "거래후 잔액"; u "잔액(원)"].

Definition generic_columns : list string :=
  ["date"; "description"; "amount"; "balance"]%string.

(** The balance block. *)
Definition balance_block `{PyRuntime} (labels : list pystr)
    (data : list (list pyval)) (out : list out_row) : outcome (list URow) :=
  match find (fun c => label_in c labels) balance_labels with
  | Some c =>
    values <- money_list labels data c ;;
    set_balance out values
  | None => Returned (map (fun r => with_balance r fzero) out)
  end.

(** The header step: empty columns and rows are dropped, the header row
    is guessed, its cells become the labels and the rows below it the
    data ([None] when no row qualifies). *)
Definition generic_header (df : RawTable)
  : option (list pystr * list (list pyval)) :=
  let df := dropna_rows (dropna_columns df) in
  match _guess_header_row (body df) 80 with
  | None => None
  | Some idx =>
    Some (map _norm_str (nth idx (body df) []), skipn (S idx) (body df))
  end.

(** The rest of [unify_columns], on the labelled frame. *)
Definition unify_labelled `{PyRuntime} (cols : list pystr)
    (data : list (list pyval)) : outcome Frame :=
  let col_date := next_label kw_date cols in
  let col_desc := next_label kw_desc cols in
  let col_dep := next_label kw_dep cols in
  let col_wd := next_label kw_wd cols in
  let col_amt := next_label kw_amt cols in
  if negb (truthy col_date) || negb (truthy col_desc)
  then Raised (MissingColumns cols)
  else
    amounts <- amount_series cols data col_dep col_wd col_amt ;;
    out <- build_out cols data (label_text col_date) (label_text col_desc)
                     amounts ;;
    rows <- balance_block cols data (filter kept out) ;;
    Returned {| f_columns := generic_columns; f_rows := rows |}.

(** [unify_columns] once both detectors have declined. *)
Definition unify_generic `{PyRuntime} (df : RawTable) : outcome Frame :=
  match generic_header df with
  | None => Raised (ValueError (u "헤더를 찾지 못했습니다."))
  | Some (cols, data) => unify_labelled cols data
  end.

Definition unify_columns `{PyRuntime} (df : RawTable) : outcome Frame :=
  woori <- parse_woori_excel df ;;
  match woori with
  | Some frame => Returned frame
  | None =>
    kb <- parse_kb_excel df ;;
    match kb with
    | Some frame => Returned frame
    | None => unify_generic df
    end
  end.

(* ================================================================= *)
(** ** The upload handler's column backfill ([upload_file], step 2) *)

Definition has_column (df : Frame) (c : string) : bool :=
  existsb (String.eqb c) (f_columns df).

Definition set_field (df : Frame) (c : string) (f : URow -> URow)
  : Frame :=
  {| f_columns := f_columns df ++ [c]; f_rows := map f (f_rows df) |}.

(** [if "balance" not in df.columns: df["balance"] = None], the same for
    [branch], and
    [df["tx_type"] = df["amount"].apply(lambda x: "IN" if float(x) > 0 else "OUT")]
    when the frame has no [tx_type] column. *)
Definition backfill_columns (df : Frame) : Frame :=
  let df :=
    if has_column df "balance" then df
    else set_field df "balance"
           (fun r => {| r_date := r_date r; r_description := r_description r;
                        r_amount := r_amount r; r_balance := None;
                        r_tx_type := r_tx_type r; r_type := r_type r;
                        r_branch := r_branch r; r_in_amount := r_in_amount r;
                        r_out_amount := r_out_amount r |}) in
  let df :=
    if has_column df "branch" then df
    else set_field df "branch"
           (fun r => {| r_date := r_date r; r_description := r_description r;
                        r_amount := r_amount r; r_balance := r_balance r;
                        r_tx_type := r_tx_type r; r_type := r_type r;
                        r_branch := None; r_in_amount := r_in_amount r;
                        r_out_amount := r_out_amount r |}) in
  if has_column df "tx_type" then df
  else set_field df "tx_type"
         (fun r => {| r_date := r_date r; r_description := r_description r;
                      r_amount := r_amount r; r_balance := r_balance r;
                      r_tx_type := Some (tx_type_of (r_amount r));
                      r_type := r_type r; r_branch := r_branch r;
                      r_in_amount := r_in_amount r;
                      r_out_amount := r_out_amount r |}).

(** [df = unify_columns(raw_df)] followed by the backfill. *)
Definition uniform_records `{PyRuntime} (raw_df : RawTable) : outcome Frame :=
  df <- unify_columns raw_df ;;
  Returned (backfill_columns df).

(* ================================================================= *)
(** ** The rule engine ([apply_rules]) *)

(** A rule dictionary; [None] is an absent key or a null value. *)
Record Rule := {
  keyword : pyval;
  target : option pystr;
  category : option pystr;
  category_l1 : option pystr;
  category_l2 : option pystr;
  category_l3 : option pystr;
  is_fixed : option bool
}.

(** The three entries of the row dictionary that the engine reads. *)
Record RuleInput := {
  description : pyval;
  memo : pyval;
  vendor_normalized : pyval
}.

Record Classification := {
  res_category : pystr;
  res_category_l1 : option pystr;
  res_category_l2 : option pystr;
  res_category_l3 : option pystr;
  res_is_fixed : bool
}.

Definition _safe_lower `{PyRuntime} (v : pyval) : pystr :=
  match v with
  | PyNone => []
  | PyNaN => []
  | PyStr s => py_lower s
  end.

(** [a or b] for an optional text [a] and a text [b] *)
Definition or_text (a : option pystr) (b : pystr) : pystr :=
  if truthy a then label_text a else b.

Definition uncategorized : pystr := u "미분류".

Definition default_result : Classification :=
  {| res_category := uncategorized;
     res_category_l1 := None; res_category_l2 := None;
     res_category_l3 := None; res_is_fixed := false |}.

(** The [for r in rules] loop with [desc], [memo] and [vendor] already
    lowered; [result] is the dictionary the loop updates and returns. *)
Fixpoint rules_loop `{PyRuntime} (desc memo vendor : pystr)
    (result : Classification) (rules : list Rule) : Classification :=
  match rules with
  | [] => result
  | r :: rest =>
    let kw := _safe_lower (keyword r) in
    let tgt := py_lower (or_text (target r) (u "any")) in
    if is_empty kw then rules_loop desc memo vendor result rest
    else
      let hit :=
        (str_eqb tgt (u "description") && str_in kw desc)
        || (str_eqb tgt (u "memo") && str_in kw memo)
        || (str_eqb tgt (u "vendor") && str_in kw vendor)
        || (str_eqb tgt (u "any")
            && (str_in kw desc || str_in kw memo || str_in kw vendor)) in
      if hit then
        let c1 := category_l1 r in
        let c2 := category_l2 r in
        let c3 := category_l3 r in
        let cat :=
          or_text (category r)
            (or_text c3 (or_text c2 (or_text c1 uncategorized))) in
        {| res_category := cat;
           res_category_l1 := c1; res_category_l2 := c2;
           res_category_l3 := c3;
           res_is_fixed := match is_fixed r with
                           | Some b => b
                           | None => false
                           end |}
      else rules_loop desc memo vendor result rest
  end.

Definition apply_rules `{PyRuntime} (row : RuleInput) (rules : list Rule)
  : Classification :=
  let desc := _safe_lower (description row) in
  let memo := _safe_lower (memo row) in
  let vendor := _safe_lower (vendor_normalized row) in
  rules_loop desc memo vendor default_result rules.

(* ================================================================= *)
(** ** The loader ([load_spreadsheet]) *)

(** What one decoder call gives: the table, or the text of the exception
    it raised. *)
Inductive decoded (T : Type) :=
| Decoded (t : T)
| Failed (e : pystr).
Arguments Decoded {T} t.
Arguments Failed {T} e.

Inductive engine := openpyxl | xlrd | pyxlsb.
Inductive encoding := utf_8_sig | cp949 | euc_kr.

(** The library calls of the loader, each on the bytes of the file. *)
Record Decoders (T : Type) := {
  read_excel : engine -> list N -> decoded T;
  read_csv : encoding -> list N -> decoded T;
  xlsx2csv : list N -> decoded T;
  read_csv_text : list N -> decoded T
}.

(** [os.path.splitext(name)[1]] *)
Fixpoint basename (s acc : pystr) : pystr :=
  match s with
  | [] => rev acc
  | c :: s' => if c =? 47 then basename s' [] else basename s' (c :: acc)
  end.

Fixpoint until_dot (s acc : pystr) : option (pystr * pystr) :=
  match s with
  | [] => None
  | c :: s' => if c =? 46 then Some (acc, s') else until_dot s' (c :: acc)
  end.

Definition splitext_ext (p : pystr) : pystr :=
  match until_dot (rev (basename p [])) [] with
  | Some (after, before_rev) =>
    if existsb (fun c => negb (c =? 46)) before_rev then 46 :: after else []
  | None => []
  end.

(** One [try: return decode(...)  except Exception as e: errors.append(...)]
    block, guarded by [cond]; [next] is the code after it. *)
Definition attempt {T} (cond : bool) (label : pystr) (dec : decoded T)
    (errors : list pystr) (next : list pystr -> outcome T) : outcome T :=
  if cond then
    match dec with
    | Decoded t => Returned t
    | Failed e => next (errors ++ [label ++ u ": " ++ e])
    end
  else next errors.

Definition ext_in (ext : pystr) (exts : list pystr) : bool :=
  existsb (str_eqb ext) exts.

Definition load_spreadsheet `{PyRuntime} {T} (D : Decoders T)
    (content : list N) (filename : option pystr) : outcome T :=
  let name := py_lower (or_text filename []) in
  let ext := splitext_ext name in
  attempt (ext_in ext [u ".xlsx"; u ".xlsm"; u ".xltx"; u ".xltm"; []])
    (u "openpyxl") (read_excel D openpyxl content) [] (fun errors =>
  attempt (str_eqb ext (u ".xls"))
    (u "xlrd") (read_excel D xlrd content) errors (fun errors =>
  attempt (str_eqb ext (u ".xlsb"))
    (u "pyxlsb") (read_excel D pyxlsb content) errors (fun errors =>
  attempt (str_eqb ext (u ".csv"))
    (u "csv(utf-8-sig)") (read_csv D utf_8_sig content) errors (fun errors =>
  attempt (str_eqb ext (u ".csv"))
    (u "csv(cp949)") (read_csv D cp949 content) errors (fun errors =>
  attempt (str_eqb ext (u ".csv"))
    (u "csv(euc-kr)") (read_csv D euc_kr content) errors (fun errors =>
  attempt true (u "xlsx2csv") (xlsx2csv D content) errors (fun errors =>
  attempt true (u "csv-final") (read_csv_text D content) errors (fun errors =>
  Raised (ValueError (u "스프레드시트 파싱 실패 → " ++ join (u " | ") errors))
  )))))))).

(* ================================================================= *)
(** ** SHA-256 and UTF-8 ([hashlib.sha256], [str.encode]) *)

Definition mask32 : N := 4294967295.
Definition add32 (x y : N) : N := N.land (x + y) mask32.
Definition rotr (n x : N) : N :=
  N.lor (N.shiftr x n) (N.land (N.shiftl x (32 - n)) mask32).
Definition ch (x y z : N) : N :=
  N.lxor (N.land x y) (N.land (N.lxor x mask32) z).
Definition maj (x y z : N) : N :=
  N.lxor (N.lxor (N.land x y) (N.land x z)) (N.land y z).
Definition big_sigma0 (x : N) : N :=
  N.lxor (N.lxor (rotr 2 x) (rotr 13 x)) (rotr 22 x).
Definition big_sigma1 (x : N) : N :=
  N.lxor (N.lxor (rotr 6 x) (rotr 11 x)) (rotr 25 x).
Definition small_sigma0 (x : N) : N :=
  N.lxor (N.lxor (rotr 7 x) (rotr 18 x)) (N.shiftr x 3).
Definition small_sigma1 (x : N) : N :=
  N.lxor (N.lxor (rotr 17 x) (rotr 19 x)) (N.shiftr x 10).

Definition first_primes : list N :=
  [2; 3; 5; 7; 11; 13; 17; 19; 23; 29; 31; 37; 41; 43; 47; 53;
   59; 61; 67; 71; 73; 79; 83; 89; 97; 101; 103; 107; 109; 113; 127; 131;
   137; 139; 149; 151; 157; 163; 167; 173; 179; 181; 191; 193; 197; 199;
   211; 223; 227; 229; 233; 239; 241; 251; 257; 263; 269; 271; 277; 281;
   283; 293; 307; 311].

(** the integer cube root, bit by bit from bit 40 down *)
Definition cube_root (n : N) : N :=
  fold_left
    (fun r b =>
       let r' := r + N.shiftl 1 b in
       if r' * r' * r' <=? n then r' else r)
    (map N.of_nat (rev (seq 0 41))) 0.

(** the fractional bits of the cube roots of the first 64 primes *)
Definition sha_k : list N :=
  Eval vm_compute in
    map (fun p => N.land (cube_root (p * N.shiftl 1 96)) mask32) first_primes.

(** the fractional bits of the square roots of the first 8 primes *)
Definition sha_h0 : list N :=
  Eval vm_compute in
    map (fun p => N.land (N.sqrt (p * N.shiftl 1 64)) mask32)
        (firstn 8 first_primes).

Definition be_bytes (width : nat) (x : N) : list N :=
  map (fun i => N.land (N.shiftr x (8 * N.of_nat i)) 255) (rev (seq 0 width)).

Definition sha_pad (msg : list N) : list N :=
  let len := List.length msg in
  let zeros := ((64 - (len + 9) mod 64) mod 64)%nat in
  msg ++ [128] ++ repeat 0 zeros ++ be_bytes 8 (8 * N.of_nat len).

Fixpoint words_of (fuel : nat) (bs : list N) : list N :=
  match fuel, bs with
  | S fuel', b0 :: b1 :: b2 :: b3 :: rest =>
    (b0 * 16777216 + b1 * 65536 + b2 * 256 + b3) :: words_of fuel' rest
  | _, _ => []
  end.

(** the message schedule, newest word first *)
Definition schedule (block : list N) : list N :=
  rev (Nat.iter 48
         (fun w =>
            add32 (add32 (small_sigma1 (nth 1 w 0)) (nth 6 w 0))
                  (add32 (small_sigma0 (nth 14 w 0)) (nth 15 w 0)) :: w)
         (rev block)).

Definition sha_round (st : list N) (kw : N * N) : list N :=
  match st with
  | [a; b; c; d; e; f; g; h] =>
    let t1 := add32 (add32 (add32 h (big_sigma1 e)) (ch e f g))
                    (add32 (fst kw) (snd kw)) in
    let t2 := add32 (big_sigma0 a) (maj a b c) in
    [add32 t1 t2; a; b; c; add32 d t1; e; f; g]
  | _ => st
  end.

Definition compress (h : list N) (block : list N) : list N :=
  map (fun xy => add32 (fst xy) (snd xy))
      (combine h (fold_left sha_round (combine sha_k (schedule block)) h)).

Fixpoint blocks (fuel : nat) (ws : list N) : list (list N) :=
  match fuel, ws with
  | _, [] => []
  | O, _ => []
  | S fuel', _ => firstn 16 ws :: blocks fuel' (skipn 16 ws)
  end.

Definition sha256 (msg : list N) : list N :=
  let bs := sha_pad msg in
  let ws := words_of (List.length bs) bs in
  fold_left compress (blocks (List.length ws) ws) sha_h0.

Definition hex_digit (x : N) : char := if x <? 10 then 48 + x else 87 + x.

(** [hashlib.sha256(data).hexdigest()] *)
Definition sha256_hexdigest (msg : list N) : pystr :=
  flat_map
    (fun w => map (fun i => hex_digit (N.land (N.shiftr w (4 * N.of_nat i)) 15))
                  (rev (seq 0 8)))
    (sha256 msg).

Definition utf8_char (c : char) : option (list N) :=
  if c <? 128 then Some [c]
  else if c <? 2048 then Some [192 + c / 64; 128 + c mod 64]
  else if (55296 <=? c) && (c <=? 57343) then None
  else if c <? 65536 then
    Some [224 + c / 4096; 128 + (c / 64) mod 64; 128 + c mod 64]
  else Some [240 + c / 262144; 128 + (c / 4096) mod 64;
             128 + (c / 64) mod 64; 128 + c mod 64].

(** [s.encode("utf-8")]; a lone surrogate cannot be encoded. *)
Fixpoint encode_utf8 (s : pystr) : outcome (list N) :=
  match s with
  | [] => Returned []
  | c :: s' =>
    match utf8_char c with
    | None => Raised UnicodeEncodeError
    | Some bs => rest <- encode_utf8 s' ;; Returned (bs ++ rest)
    end
  end.

(* ================================================================= *)
(** ** Fingerprints ([make_fingerprint]) *)

(** [datetime.date] *)
Record date := {
  year : N;
  month : N;
  day : N
}.

Fixpoint chars_of_uint (d : Decimal.uint) : pystr :=
  match d with
  | Decimal.Nil => []
  | Decimal.D0 d' => 48 :: chars_of_uint d'
  | Decimal.D1 d' => 49 :: chars_of_uint d'
  | Decimal.D2 d' => 50 :: chars_of_uint d'
  | Decimal.D3 d' => 51 :: chars_of_uint d'
  | Decimal.D4 d' => 52 :: chars_of_uint d'
  | Decimal.D5 d' => 53 :: chars_of_uint d'
  | Decimal.D6 d' => 54 :: chars_of_uint d'
  | Decimal.D7 d' => 55 :: chars_of_uint d'
  | Decimal.D8 d' => 56 :: chars_of_uint d'
  | Decimal.D9 d' => 57 :: chars_of_uint d'
  end.

(** [str(n)] for a natural number *)
Definition decimal (n : N) : pystr := chars_of_uint (N.to_uint n).

(** ["%0<width>d" % n] *)
Definition zero_pad (width : nat) (n : N) : pystr :=
  let ds := decimal n in
  repeat 48 (width - List.length ds) ++ ds.

(** [d.isoformat()] *)
Definition isoformat (d : date) : pystr :=
  zero_pad 4 (year d) ++ u "-" ++ zero_pad 2 (month d) ++ u "-"
  ++ zero_pad 2 (day d).

(** [m * 2^e * 10^k] rounded to the nearest integer, ties to even *)
Definition scaled_round (m : positive) (e : Z) (k : nat) : N :=
  let num := Npos m * 10 ^ N.of_nat k in
  match e with
  | Zneg p =>
    let den := 2 ^ Npos p in
    let q := num / den in
    let r := num mod den in
    match 2 * r ?= den with
    | Lt => q
    | Gt => q + 1
    | Eq => if N.even q then q else q + 1
    end
  | _ => num * 2 ^ Z.to_N e
  end.

Definition fixed_digits (k : nat) (n : N) : pystr :=
  let unit := 10 ^ N.of_nat k in
  decimal (n / unit)
  ++ match k with
     | O => []
     | _ => 46 :: zero_pad k (n mod unit)
     end.

(** [f"{x:.<k>f}"] *)
Definition format_fixed (k : nat) (x : float) : pystr :=
  let sign (s : bool) : pystr := if s then [45] else [] in
  match x with
  | S754_nan => u "nan"
  | S754_infinity s => sign s ++ u "inf"
  | S754_zero s => sign s ++ fixed_digits k 0
  | S754_finite s m e => sign s ++ fixed_digits k (scaled_round m e k)
  end.

(** the text that is hashed *)
Definition fingerprint_text `{PyRuntime} (tx_date : date) (amount : float)
    (description branch : option pystr) (balance : option float) : pystr :=
  let d := py_lower (strip (or_text description [])) in
  let b := py_lower (strip (or_text branch [])) in
  let bal := match balance with
             | None => []
             | Some x => format_fixed 0 x
             end in
  isoformat tx_date ++ u "|" ++ format_fixed 2 amount ++ u "|" ++ d ++ u "|"
  ++ b ++ u "|" ++ bal.

Definition make_fingerprint `{PyRuntime} (tx_date : date) (amount : float)
    (description branch : option pystr) (balance : option float)
  : outcome pystr :=
  bytes <- encode_utf8
             (fingerprint_text tx_date amount description branch balance) ;;
  Returned (sha256_hexdigest bytes).

(* ================================================================= *)
(** ** A reference runtime *)

(** The runtime restricted to what the examples need: lowering of ASCII
    letters, [float] on ASCII text and dates written [YYYY-MM-DD]. *)
Definition on_day (y m d : N) : option timestamp :=
  Some {| ts_year := y; ts_month := m; ts_day := d; ts_nanos := 0 |}.

Definition iso_date (v : pyval) : option timestamp :=
  match v with
  | PyStr [y1; y2; y3; y4; 45; m1; m2; 45; d1; d2] =>
    if forallb is_digit [y1; y2; y3; y4; m1; m2; d1; d2] then
      let m := digits_value [m1; m2] in
      let d := digits_value [d1; d2] in
      if (1 <=? m) && (m <=? 12) && (1 <=? d) && (d <=? 31)
      then on_day (digits_value [y1; y2; y3; y4]) m d
      else None
    else None
  | _ => None
  end.

Definition map_lower_nonempty (s : pystr)
  : map ascii_lower_char s = [] -> s = [] :=
  match s with
  | [] => fun _ => eq_refl
  | c :: s' =>
    fun E =>
      match E in (_ = l)
            return (match l with [] => c :: s' = [] | _ :: _ => True end)
      with
      | eq_refl => I
      end
  end.

Definition reference_runtime : PyRuntime := {|
  py_lower := map ascii_lower_char;
  py_lower_plain := fun s _ => eq_refl;
  py_lower_nonempty := map_lower_nonempty;
  py_float := ascii_float;
  py_float_ascii := fun s _ => eq_refl;
  to_datetime := map iso_date;
  to_datetime_length := fun col => length_map iso_date col
|}.

(* ================================================================= *)
(** ** Vendor names ([NORMALIZE_MAP], [normalize_vendor]) *)

(** [\w] on the code points whose class is spelled out here: ASCII letters,
    digits and the underscore, and the Hangul syllables. *)
Definition plain_word (c : char) : bool :=
  is_digit c || ((65 <=? c) && (c <=? 90)) || ((97 <=? c) && (c <=? 122))
  || (c =? 95) || ((44032 <=? c) && (c <=? 55203)).

(** [\w] of [re] on text: what [str.isalnum] accepts, and the underscore. *)
Class PyWord := {
  py_isword : char -> bool;
  py_isword_plain : forall c, plain_char c = true -> py_isword c = plain_word c
}.

Definition reference_word : PyWord :=
  {| py_isword := plain_word; py_isword_plain := fun c _ => eq_refl |}.

(** What the vendor patterns are made of: a literal, [\s*], [\s?], an
    optional literal such as [\-?], and [\b]. *)
Inductive vatom :=
| Chr (c : char)
| Spaces
| Space01
| Opt (c : char)
| Boundary.

Definition chars (s : string) : list vatom := map Chr (u s).

Definition word_at `{PyWord} (c : option char) : bool :=
  match c with
  | Some d => py_isword d
  | None => false
  end.

(** Does the sequence match at this place?  [prev] is the character before
    the place, which [\b] looks at. *)
Fixpoint vmatch_here `{PyWord} (p : list vatom) : option char -> pystr -> bool :=
  match p with
  | [] => fun _ _ => true
  | Chr c :: p' =>
    fun _ s => match s with
               | d :: s' => (d =? c) && vmatch_here p' (Some d) s'
               | [] => false
               end
  | Opt c :: p' =>
    fun prev s =>
      match s with
      | d :: s' => (d =? c) && vmatch_here p' (Some d) s'
      | [] => false
      end
      || vmatch_here p' prev s
  | Space01 :: p' =>
    fun prev s =>
      match s with
      | d :: s' => isspace d && vmatch_here p' (Some d) s'
      | [] => false
      end
      || vmatch_here p' prev s
  | Spaces :: p' =>
    fix spaces (prev : option char) (s : pystr) : bool :=
      vmatch_here p' prev s
      || match s with
         | d :: s' => isspace d && spaces (Some d) s'
         | [] => false
         end
  | Boundary :: p' =>
    fun prev s =>
      xorb (word_at prev) (word_at (hd_error s)) && vmatch_here p' prev s
  end.

Fixpoint vsearch_from `{PyWord} (p : list vatom) (prev : option char)
    (s : pystr) : bool :=
  vmatch_here p prev s
  || match s with
     | d :: s' => vsearch_from p (Some d) s'
     | [] => false
     end.

(** [re.search(a1|a2|..., s)] as a truth value *)
Definition vsearch `{PyWord} (alternatives : list (list vatom)) (s : pystr)
  : bool :=
  existsb (fun p => vsearch_from p None s) alternatives.

Definition NORMALIZE_MAP : list (list (list vatom) * pystr) :=
  [([chars "starbucks"; chars "스타벅스"], u "스타벅스");
   ([chars "gs25"; chars "gs" ++ [Spaces] ++ chars "25"; chars "지에스25"],
    u "GS25");
   ([chars "cu" ++ [Space01] ++ chars "편의점"; chars "cu" ++ [Boundary]],
    u "CU");
   ([chars "emart24"; chars "이마트24"], u "이마트24");
   ([chars "seven" ++ [Spaces] ++ chars "eleven"; chars "세븐일레븐";
     chars "7" ++ [Opt 45] ++ chars "11"],
    u "세븐일레븐")].

(** [for pat, rep in items: if re.search(pat, s): return rep] *)
Fixpoint first_replacement `{PyWord} (items : list (list (list vatom) * pystr))
    (s : pystr) : option pystr :=
  match items with
  | [] => None
  | (pat, rep) :: rest =>
    if vsearch pat s then Some rep else first_replacement rest s
  end.

Definition normalize_vendor `{PyRuntime} `{PyWord} (text : pyval) : pystr :=
  match text with
  | PyNone => []
  | _ =>
    let s_raw := strip (str text) in
    let s := py_lower s_raw in
    match first_replacement NORMALIZE_MAP s with
    | Some rep => rep
    | None => s_raw
    end
  end.

(* ================================================================= *)
(** ** The upload handler ([upload_file]) *)

(** [Timestamp.date()] *)
Definition to_date (t : timestamp) : date :=
  {| year := ts_year t; month := ts_month t; day := ts_day t |}.

(** What is inserted for one row, the fingerprint apart. *)
Record Prepared := {
  p_date : date;
  p_description : pystr;
  p_vendor : pystr;
  p_amount : float;
  p_balance : option float;
  p_tx_type : TxType;
  p_branch : option pystr
}.

(** the truth value of a float: false for both zeros *)
Definition float_truthy (x : float) : bool :=
  match x with
  | S754_zero _ => false
  | _ => true
  end.

(** The branch of a row: the hint when one is given, else the cell; [None]
    when that is [None] or blank. *)
Definition row_branch (branch_hint : option pystr) (r : URow) : option pystr :=
  let br_val :=
    if truthy branch_hint then PyStr (label_text branch_hint)
    else match r_branch r with
         | Some v => v
         | None => PyNone
         end in
  match br_val with
  | PyNone => None
  | _ => if is_empty (strip (str br_val)) then None
         else Some (strip (str br_val))
  end.

(** The variables of the loop body for a row [r] whose date is [d]; the
    description has been through [astype(str).fillna("").str.strip()],
    where [astype(str)] is [str] of each cell. *)
Definition prepare_row `{PyRuntime} `{PyWord} (branch_hint : option pystr)
    (d : date) (r : URow) : Prepared :=
  let desc := strip (strip (str (r_description r))) in
  let amount := if float_truthy (r_amount r) then r_amount r else fzero in
  let balance :=
    match r_balance r with
    | None => None
    | Some S754_nan => None
    | Some b => Some b
    end in
  let tx_type :=
    match r_tx_type r with
    | Some t => t
    | None => tx_type_of amount
    end in
  {| p_date := d; p_description := desc;
     p_vendor := normalize_vendor (PyStr desc);
     p_amount := amount; p_balance := balance; p_tx_type := tx_type;
     p_branch := row_branch branch_hint r |}.

(** [df["date"] = pd.to_datetime(df["date"], errors="coerce").dt.date;
     df = df.dropna(subset=["date"])] and the rows of [df.iterrows()] *)
Fixpoint prepare_rows `{PyRuntime} `{PyWord} (branch_hint : option pystr)
    (rows : list URow) : list Prepared :=
  match rows with
  | [] => []
  | r :: rest =>
    match r_date r with
    | Some t => prepare_row branch_hint (to_date t) r
                  :: prepare_rows branch_hint rest
    | None => prepare_rows branch_hint rest
    end
  end.

(** A row of [bank_transactions] with its tag. *)
Record StoredTx := {
  s_tx : Prepared;
  s_fingerprint : pystr;
  s_category : pystr;
  s_is_fixed : bool
}.

(** The table and the two counters of the loop. *)
Record UploadState := {
  table : list StoredTx;
  inserted : nat;
  skipped : nat
}.

Definition has_fingerprint (db : list StoredTx) (fp : pystr) : bool :=
  existsb (fun t => str_eqb (s_fingerprint t) fp) db.

(** One turn of the loop: [insert ... on conflict (fingerprint) do nothing
    returning id], then the rules and the tag for a row that was
    inserted. *)
Definition store_row `{PyRuntime} `{PyWord} (rules : list Rule)
    (st : UploadState) (p : Prepared) : outcome UploadState :=
  fp <- make_fingerprint (p_date p) (p_amount p) (Some (p_description p))
                         (p_branch p) (p_balance p) ;;
  if has_fingerprint (table st) fp then
    Returned {| table := table st; inserted := inserted st;
                skipped := S (skipped st) |}
  else
    let rr := apply_rules {| description := PyStr (p_description p);
                             memo := PyStr [];
                             vendor_normalized := PyStr (p_vendor p) |}
                          rules in
    Returned {| table := table st
                         ++ [{| s_tx := p; s_fingerprint := fp;
                                s_category := or_text (Some (res_category rr))
                                                      uncategorized;
                                s_is_fixed := res_is_fixed rr |}];
                inserted := S (inserted st); skipped := skipped st |}.

Fixpoint store_rows `{PyRuntime} `{PyWord} (rules : list Rule)
    (st : UploadState) (rows : list Prepared) : outcome UploadState :=
  match rows with
  | [] => Returned st
  | p :: rest => st' <- store_row rules st p ;; store_rows rules st' rest
  end.

(** What the handler answers. *)
Inductive upload_response :=
| Uploaded (row_count : nat) (st : UploadState)
| TooLarge
| ParseFailed (e : exn).

(** [upload_file] for a request that carries a file, from the bytes of the
    file on: the size check, loading and unifying under [try], the
    backfill, and the loop over the rows within one transaction, which an
    exception rolls back.  [rules] is what [load_rules] returns.  The table
    is modelled by its rows and the uniqueness of [fingerprint] that
    [on conflict (fingerprint)] refers to; the row of [upload_batches] is
    left out, and a tag is kept with the name of its category. *)
Definition upload_file `{PyRuntime} `{PyWord} (D : Decoders RawTable)
    (max_upload_mb : Z) (rules : list Rule) (branch_hint : option pystr)
    (db : list StoredTx) (content : list N) (filename : option pystr)
  : outcome upload_response :=
  let filename := or_text filename (u "upload.xlsx") in
  if (max_upload_mb * 1024 * 1024 <? Z.of_nat (List.length content))%Z
  then Returned TooLarge
  else
    match raw_df <- load_spreadsheet D content (Some filename) ;;
          unify_columns raw_df with
    | Raised e => Returned (ParseFailed e)
    | Returned df =>
      let rows := prepare_rows branch_hint (f_rows (backfill_columns df)) in
      st <- store_rows rules {| table := db; inserted := 0; skipped := 0 |}
                       rows ;;
      Returned (Uploaded (List.length rows) st)
    end.

(* ================================================================= *)
(** ** The window of a report ([reports]) *)

Definition is_leap (y : Z) : bool :=
  ((y mod 4 =? 0) && negb (y mod 100 =? 0) || (y mod 400 =? 0))%Z.

Definition days_in_month (y m : Z) : Z :=
  if (m =? 2)%Z then (if is_leap y then 29 else 28)%Z
  else if ((m =? 4) || (m =? 6) || (m =? 9) || (m =? 11))%Z then 30%Z
  else 31%Z.

(** What [datetime.date(y, m, d)] raises on integers. *)
Inductive date_error :=
| DateOverflowError
| DateValueError.

(** [datetime.date(y, m, d)]: the arguments are read as C [int]s, then
    checked. *)
Definition new_date (y m d : Z) : date_error + date :=
  let c_int (z : Z) := ((-2147483648 <=? z) && (z <=? 2147483647))%Z in
  if negb (c_int y && c_int m && c_int d) then inl DateOverflowError
  else if ((y <? 1) || (9999 <? y))%Z then inl DateValueError
  else if ((m <? 1) || (12 <? m))%Z then inl DateValueError
  else if ((d <? 1) || (days_in_month y m <? d))%Z then inl DateValueError
  else inr {| year := Z.to_N y; month := Z.to_N m; day := Z.to_N d |}.

Inductive window_response :=
| Window (start_date end_date : date)
| InvalidRange.

(** The month check of [reports] and the two dates that its queries
    receive, from the three integers of the request on. *)
Definition report_window (year start_month end_month : Z)
  : date_error + window_response :=
  if ((start_month <? 1) || (12 <? end_month) || (end_month <? start_month))%Z
  then inr InvalidRange
  else
    match new_date year start_month 1 with
    | inl e => inl e
    | inr start_date =>
      match (if (end_month =? 12)%Z then new_date (year + 1) 1 1
             else new_date year (end_month + 1) 1) with
      | inl e => inl e
      | inr end_date => inr (Window start_date end_date)
      end
    end.

(** The order of dates. *)
Definition date_ltb (a b : date) : bool :=
  (year a <? year b)
  || ((year a =? year b)
      && ((month a <? month b)
          || ((month a =? month b) && (day a <? day b)))).

Definition date_leb (a b : date) : bool := negb (date_ltb b a).

(** [t.tx_date >= start_date and t.tx_date < end_date] *)
Definition in_window (start_date end_date tx_date : date) : bool :=
  date_leb start_date tx_date && date_ltb tx_date end_date.

(* ================================================================= *)
(** * What the properties are stated with *)

(** ** Money parsing: notions and examples *)

(** What the specification says of the money parser: the four kinds of
    character are removed, the rest is read as a number, and nothing,
    an empty rest or an unreadable rest give zero. *)
Definition money_rest (s : pystr) : pystr :=
  filter (fun c => negb ((c =? 8361) || (c =? 50896) || (c =? 44) || isspace c)) s.

Definition money `{PyRuntime} (v : pyval) : float :=
  match v with
  | PyNone => fzero
  | PyNaN => fzero
  | PyStr s =>
    match money_rest s with
    | [] => fzero
    | rest => match py_float rest with
              | Some x => x
              | None => fzero
              end
    end
  end.

(** ** The rule engine: notions and examples *)

(** The rule has a keyword: a text that is not empty. *)
Definition has_keyword (r : Rule) : bool :=
  match keyword r with
  | PyStr (_ :: _) => true
  | _ => false
  end.

(** The target of a rule, lowered; a rule without target looks anywhere. *)
Definition rule_target `{PyRuntime} (r : Rule) : pystr :=
  py_lower (match target r with
            | Some (c :: t) => c :: t
            | _ => u "any"
            end).

(** The lowered texts of the row that a target selects. *)
Definition selected `{PyRuntime} (row : RuleInput) (tgt : pystr) : list pystr :=
  if str_eqb tgt (u "description") then [_safe_lower (description row)]
  else if str_eqb tgt (u "memo") then [_safe_lower (memo row)]
  else if str_eqb tgt (u "vendor") then [_safe_lower (vendor_normalized row)]
  else if str_eqb tgt (u "any") then
    [_safe_lower (description row); _safe_lower (memo row);
     _safe_lower (vendor_normalized row)]
  else [].

(** The rule matches the row: its keyword, lowered, occurs in one of the
    selected texts. *)
Definition rule_hits `{PyRuntime} (row : RuleInput) (r : Rule) : bool :=
  has_keyword r
  && existsb (str_in (_safe_lower (keyword r))) (selected row (rule_target r)).

(** The first text of the list that is there and not empty. *)
Fixpoint first_text (xs : list (option pystr)) (default : pystr) : pystr :=
  match xs with
  | [] => default
  | Some (c :: s) :: _ => c :: s
  | _ :: rest => first_text rest default
  end.

Definition result_of (r : Rule) : Classification :=
  {| res_category :=
       first_text [category r; category_l3 r; category_l2 r; category_l1 r]
                  uncategorized;
     res_category_l1 := category_l1 r;
     res_category_l2 := category_l2 r;
     res_category_l3 := category_l3 r;
     res_is_fixed := match is_fixed r with Some b => b | None => false end |}.

(** The category as the claim words it: null is the only thing skipped. *)
Definition category_skipping_null (r : Rule) : pystr :=
  match category r, category_l3 r, category_l2 r, category_l1 r with
  | Some c, _, _, _ => c
  | None, Some c, _, _ => c
  | None, None, Some c, _ => c
  | None, None, None, Some c => c
  | None, None, None, None => uncategorized
  end.

Definition starbucks_rule : Rule :=
  {| keyword := PyStr (u "스타벅스"); target := Some (u "vendor");
     category := Some (u "카페"); category_l1 := None; category_l2 := None;
     category_l3 := None; is_fixed := None |}.

Definition vendor_row (v : pystr) : RuleInput :=
  {| description := PyStr v; memo := PyStr []; vendor_normalized := PyStr v |}.

Definition level_rule : Rule :=
  {| keyword := PyStr (u "a"); target := None; category := None;
     category_l1 := None; category_l2 := Some (u "x");
     category_l3 := Some []; is_fixed := None |}.

(** ** Header guessing: notions and examples *)

Definition five_categories : list (list pattern) :=
  [kw_date; kw_desc; kw_amt; kw_dep; kw_wd].

(** The number of categories a cell has a keyword of. *)
Definition cell_hits (cell : pystr) : nat :=
  List.length (filter (_has_kw cell) five_categories).

(** The score of a row: the hits of its cells, added up. *)
Definition total_hits (row : list pyval) : nat :=
  list_sum (map (fun v => cell_hits (_norm_str v)) row).

(** The number of categories that some cell of the row has a keyword of. *)
Definition distinct_categories (row : list pyval) : nat :=
  List.length
    (filter (fun kws => existsb (fun v => _has_kw (_norm_str v) kws) row)
            five_categories).

Definition header_cells : list pyval :=
  [PyStr (u "거래일"); PyStr (u "적요"); PyStr (u "입금"); PyStr (u "출금")].

Definition two_dates : list pyval := [PyStr (u "거래일"); PyStr (u "날짜")].

Definition title_row : list pyval := [PyStr (u "거래내역 조회"); PyNaN].

(** ** Frames built by the detectors: notions and examples *)

Definition count_true (keep : list bool) : nat :=
  List.length (filter (fun b => b) keep).

(** The invariant of a uniform record: the type is IN exactly when the
    amount is above zero, and an amount below zero has the type OUT. *)
Definition tx_ok (r : URow) : Prop :=
  (r_tx_type r = Some IN <-> fpos (r_amount r) = true)
  /\ (fneg (r_amount r) = true -> r_tx_type r = Some OUT).

(** The labels of the row taken as header. *)
Definition labels_at (raw : RawTable) (header_row : nat) : list pystr :=
  map (fun x => strip (str x)) (nth header_row (body raw) []).

(** ** Example tables *)

Definition texts (xs : list string) : list pyval :=
  map (fun s => PyStr (u s)) xs.

Definition woori_header : list pyval :=
  texts ["거래일시"; "적요"; "기재내용"; "지급(원)"; "입금(원)";
         "거래후 잔액(원)"; "취급점"]%string.

Definition kb_header : list pyval :=
  texts ["거래일시"; "보낸분/받는분"; "출금액(원)"; "입금액(원)";
         "잔액(원)"]%string.

Definition woori_table (rows : list (list pyval)) : RawTable :=
  {| ncols := 7; body := woori_header :: rows |}.

Definition kb_table (rows : list (list pyval)) : RawTable :=
  {| ncols := 5; body := kb_header :: rows |}.

(** a statement of the first bank with a withdrawal and a deposit *)
Definition woori_statement : RawTable :=
  woori_table
    [texts ["2024-01-05"; "이체"; "월세"; "500,000"; "0"; "1,500,000원";
            "본점"]%string;
     texts ["2024-01-06"; "입금"; "월급"; "-"; "3,000,000"; "4,500,000";
            "본점"]%string].

(** the same layout with a word where the withdrawal should be *)
Definition woori_text_amount : RawTable :=
  woori_table
    [texts ["2024-01-05"; "이체"; "월세"; "abc"; "0"; "1,500,000";
            "본점"]%string].

Definition kb_text_amount : RawTable :=
  kb_table [texts ["2024-01-05"; "홍길동"; "abc"; "0"; "1,500,000"]%string].


(** the two-row file of the specification *)
Definition salary_and_coffee : RawTable :=
  {| ncols := 4;
     body := [texts ["날짜"; "내용"; "입금"; "출금"]%string;
              [PyStr (u "2024-01-05"); PyStr (u "월급"); PyStr (u "3000000");
               PyNaN];
              [PyStr (u "2024-01-06"); PyStr (u "스타벅스"); PyNaN;
               PyStr (u "4500")]] |}.

(** ** Dates in the frames of the detectors: notions and examples *)


(** ** The loader: notions and examples *)

(** The extension the loader dispatches on. *)
Definition file_ext `{PyRuntime} (filename : option pystr) : pystr :=
  splitext_ext (py_lower (or_text filename [])).

(** The decoders tried for an extension, in order, each with the label its
    failure is reported under. *)
Definition candidate_chain {T} (D : Decoders T) (ext : pystr) (content : list N)
  : list (pystr * decoded T) :=
  (if ext_in ext [u ".xlsx"; u ".xlsm"; u ".xltx"; u ".xltm"; []]
   then [(u "openpyxl", read_excel D openpyxl content)] else [])
  ++ (if str_eqb ext (u ".xls")
      then [(u "xlrd", read_excel D xlrd content)] else [])
  ++ (if str_eqb ext (u ".xlsb")
      then [(u "pyxlsb", read_excel D pyxlsb content)] else [])
  ++ (if str_eqb ext (u ".csv")
      then [(u "csv(utf-8-sig)", read_csv D utf_8_sig content);
            (u "csv(cp949)", read_csv D cp949 content);
            (u "csv(euc-kr)", read_csv D euc_kr content)]
      else [])
  ++ [(u "xlsx2csv", xlsx2csv D content);
      (u "csv-final", read_csv_text D content)].

Definition failed {T} (entry : pystr * decoded T) : Prop :=
  exists e, snd entry = Failed e.

(** The table of the first decoder of the chain that succeeds. *)
Fixpoint first_success {T} (chain : list (pystr * decoded T)) : option T :=
  match chain with
  | [] => None
  | (_, Decoded t) :: _ => Some t
  | (_, Failed _) :: rest => first_success rest
  end.

(** The line a failed decoder adds to the message. *)
Definition failure_line {T} (entry : pystr * decoded T) : pystr :=
  fst entry ++ u ": " ++ match snd entry with
                         | Failed e => e
                         | Decoded _ => []
                         end.

Definition load_failure (lines : list pystr) : exn :=
  ValueError (u "스프레드시트 파싱 실패 → " ++ join (u " | ") lines).

Fixpoint run_chain {T} (chain : list (pystr * decoded T)) (errors : list pystr)
  : outcome T :=
  match chain with
  | [] => Raised (load_failure errors)
  | (_, Decoded t) :: _ => Returned t
  | (label, Failed e) :: rest => run_chain rest (errors ++ [label ++ u ": " ++ e])
  end.

(** ** Amounts in the generic fallback: notions and examples *)

(** The label names one column of the frame. *)
Definition unique_label (labels : list pystr) (c : pystr) : Prop :=
  exists j, positions c labels 0 = [j].

(** The cell of a row under a label (under the first column that has it). *)
Definition cell_under (labels : list pystr) (c : option pystr)
    (row : list pyval) : pyval :=
  nth (hd 0%nat (positions (label_text c) labels 0)) row PyNaN.

(** The labels the amount block reads. *)
Definition amount_labels (cols : list pystr) : list pystr :=
  let col_dep := next_label kw_dep cols in
  let col_wd := next_label kw_wd cols in
  let col_amt := next_label kw_amt cols in
  if truthy col_dep || truthy col_wd then
    (if truthy col_dep then [label_text col_dep] else [])
    ++ (if truthy col_wd then [label_text col_wd] else [])
  else if truthy col_amt then [label_text col_amt] else [].

(** The amount the specification gives a row: credit minus debit, a side
    without column counting as zero, or else the amount column. *)
Definition row_amount `{PyRuntime} (cols : list pystr) (row : list pyval)
  : float :=
  let col_dep := next_label kw_dep cols in
  let col_wd := next_label kw_wd cols in
  let col_amt := next_label kw_amt cols in
  if truthy col_dep || truthy col_wd then
    fsub (if truthy col_dep then money (cell_under cols col_dep row) else fzero)
         (if truthy col_wd then money (cell_under cols col_wd row) else fzero)
  else money (cell_under cols col_amt row).

(** The date, description and amount of a row of the result. *)
Definition triple (r : URow) : out_row :=
  (r_date r, r_description r, r_amount r).

Definition salary_cols : list pystr :=
  [u "날짜"; u "내용"; u "입금"; u "출금"].

Definition salary_data : list (list pyval) :=
  [[PyStr (u "2024-01-05"); PyStr (u "월급"); PyStr (u "3000000"); PyNaN];
   [PyStr (u "2024-01-06"); PyStr (u "스타벅스"); PyNaN; PyStr (u "4500")]].

(** a sheet whose header has two date labels and nothing else *)
Definition dates_only : RawTable :=
  {| ncols := 2;
     body := [texts ["날짜"; "거래일"]%string;
              texts ["2024-01-05"; "2024-01-05"]%string] |}.

(** a sheet that has the credit label on two columns *)
Definition repeated_credit : RawTable :=
  {| ncols := 4;
     body := [texts ["날짜"; "내용"; "입금"; "입금"]%string;
              texts ["2024-01-05"; "월급"; "3000000"; "1"]%string;
              texts ["2024-01-06"; "이자"; "10"; "2"]%string] |}.

(** ** The balance of the generic fallback: notions and examples *)

(** a sheet with a balance column and a line that is neither dated nor
    described *)
Definition sheet_with_subtotal : RawTable :=
  {| ncols := 4;
     body := [texts ["날짜"; "내용"; "금액"; "잔액"]%string;
              texts ["2024-01-05"; "월급"; "3000000"; "3000000"]%string;
              texts ["소계"; " "; "3000000"; "3000000"]%string] |}.

Definition subtotal_cols : list pystr :=
  [u "날짜"; u "내용"; u "금액"; u "잔액"].

Definition subtotal_data : list (list pyval) :=
  [texts ["2024-01-05"; "월급"; "3000000"; "3000000"]%string;
   texts ["소계"; " "; "3000000"; "3000000"]%string].

(** the same sheet with the balance label on two columns and one more row *)
Definition repeated_balance : RawTable :=
  {| ncols := 5;
     body := [texts ["날짜"; "내용"; "금액"; "잔액"; "잔액"]%string;
              texts ["2024-01-05"; "월급"; "3000000"; "3000000"; "1"]%string;
              texts ["소계"; " "; "3000000"; "3000000"; "2"]%string;
              texts ["2024-01-06"; "이자"; "10"; "3000010"; "3"]%string] |}.

(** a sheet whose only row is such a line *)
Definition only_subtotal : RawTable :=
  {| ncols := 4;
     body := [texts ["날짜"; "내용"; "금액"; "잔액"]%string;
              texts ["소계"; " "; "3000000"; "3000000"]%string] |}.

(** ** Fingerprints: notions and examples *)

(** The five fields a fingerprint is made of. *)
Record Tx := {
  tx_date : date;
  tx_amount : float;
  tx_description : option pystr;
  tx_branch : option pystr;
  tx_balance : option float
}.






(** ** Vendor names: notions and examples *)

(** The names the table maps to. *)
Definition canonical_names : list pystr := map snd NORMALIZE_MAP.

(** A description as a card statement prints it. *)
Definition starbucks_gangnam : pyval := PyStr (u "  STARBUCKS gs25 Gangnam ").

(** ** Uploads: notions and examples *)

(** The fingerprint the loop computes for a prepared row. *)
Definition row_fingerprint `{PyRuntime} (p : Prepared) : outcome pystr :=
  make_fingerprint (p_date p) (p_amount p) (Some (p_description p))
                   (p_branch p) (p_balance p).



(** Decoders under which [openpyxl] reads the table [t] and nothing else
    reads anything. *)
Definition reads_as (t : RawTable) : Decoders RawTable :=
  {| read_excel := fun e _ => match e with
                              | openpyxl => Decoded t
                              | _ => Failed (u "unsupported")
                              end;
     read_csv := fun _ _ => Failed (u "unsupported");
     xlsx2csv := fun _ => Failed (u "unsupported");
     read_csv_text := fun _ => Failed (u "unsupported") |}.



(** ** Fingerprints: further notions *)

(** a digit of [hexdigest]: [0-9a-f] *)
Definition hex_char (c : char) : bool :=
  is_digit c || ((97 <=? c) && (c <=? 102)).

(** a code point that UTF-8 has no encoding for *)
Definition is_surrogate (c : char) : bool := (55296 <=? c) && (c <=? 57343).

(** ** Money parsing: an example *)

Definition won_amount : pystr := u "₩ 1,234,567 원".

(** ** Detectors and loader: further notions *)

(** The row is stored with the type its amount gives it. *)
Definition typed_by_amount (r : URow) : Prop :=
  r_tx_type r = Some (tx_type_of (r_amount r)).

(** The decoders [D] with other [read_excel] calls. *)
Definition with_excel {T} (D : Decoders T)
    (excel : engine -> list N -> decoded T) : Decoders T :=
  {| read_excel := excel; read_csv := read_csv D; xlsx2csv := xlsx2csv D;
     read_csv_text := read_csv_text D |}.

(** Decoders of which only the last one reads the file. *)
Definition only_sniffing (t : RawTable) : Decoders RawTable :=
  {| read_excel := fun _ _ => Failed (u "not a workbook");
     read_csv := fun _ _ => Failed (u "codec");
     xlsx2csv := fun _ => Failed (u "not a zip file");
     read_csv_text := fun _ => Decoded t |}.

(* ================================================================= *)
(** * Properties *)

(** ** Text *)

Lemma str_eqb_eq (a b : pystr) : str_eqb a b = true <-> a = b.
Proof.
  revert b; induction a as [|c a IH]; intros [|d b]; simpl;
    try (split; [discriminate | discriminate]); try tauto.
  rewrite andb_true_iff, N.eqb_eq, IH. split.
  - intros [-> ->]; reflexivity.
  - intros E; injection E; auto.
Qed.

Lemma str_eqb_refl (a : pystr) : str_eqb a a = true.
Proof. apply str_eqb_eq; reflexivity. Qed.

Lemma str_eqb_neq (a b : pystr) : str_eqb a b = false <-> a <> b.
Proof.
  rewrite <- str_eqb_eq. destruct (str_eqb a b); split; congruence.
Qed.

Lemma is_empty_nil (s : pystr) : is_empty s = true <-> s = [].
Proof. destruct s; simpl; split; congruence. Qed.

Lemma py_lower_nil `{PyRuntime} : py_lower [] = [].
Proof. apply (py_lower_plain []); reflexivity. Qed.

Lemma re_sub_class_delete (cls : char -> bool) (s : pystr) :
  re_sub_class cls [] s = filter (fun c => negb (cls c)) s.
Proof.
  unfold re_sub_class.
  induction s as [|c s IH]; simpl; [reflexivity|].
  rewrite IH. destruct (cls c); reflexivity.
Qed.

(** ** Money parsing *)

Lemma parse_money_returns `{PyRuntime} (v : pyval) :
  _parse_money v = Returned (money v).
Proof.
  destruct v as [| |s]; try reflexivity.
  unfold _parse_money, money; simpl isna; cbv iota.
  change (str (PyStr s)) with s.
  rewrite re_sub_class_delete.
  change (filter (fun c => negb (money_noise c)) s) with (money_rest s).
  destruct (money_rest s) as [|c rest] eqn:E; [reflexivity|].
  simpl is_empty; cbv iota. unfold float_of_str.
  destruct (py_float (c :: rest)); reflexivity.
Qed.

Lemma money_ascii `{PyRuntime} (s : pystr) :
  forallb is_ascii (money_rest s) = true ->
  money (PyStr s) = match money_rest s with
                    | [] => fzero
                    | rest => match ascii_float rest with
                              | Some x => x
                              | None => fzero
                              end
                    end.
Proof.
  intros A. unfold money. destruct (money_rest s) as [|c rest]; [reflexivity|].
  rewrite (py_float_ascii _ A). reflexivity.
Qed.

(** C3.  [_parse_money] never raises: on every value it returns, and what
    it returns is the number read from the text once the won sign, the
    word for won, commas and white space are removed, or 0.0 for [None],
    [NaN], an empty rest and a rest that [float] does not accept; the four
    examples of the specification come out as stated. *)
Theorem parse_money_total `{PyRuntime} :
  (forall v, _parse_money v = Returned (money v))
  /\ _parse_money (PyStr (u "1,234,500원")) = Returned (float_of_Z 1234500)
  /\ _parse_money (PyStr (u "-")) = Returned fzero
  /\ _parse_money (PyStr []) = Returned fzero
  /\ _parse_money (PyStr (u "₩ 1,000")) = Returned (float_of_Z 1000).
Proof.
  split; [exact parse_money_returns|].
  repeat split; rewrite parse_money_returns; f_equal;
    rewrite money_ascii by reflexivity; reflexivity.
Qed.

(** ** The rule engine *)

Lemma safe_lower_empty `{PyRuntime} (r : Rule) :
  is_empty (_safe_lower (keyword r)) = negb (has_keyword r).
Proof.
  unfold has_keyword. destruct (keyword r) as [| |[|c s]]; simpl; try reflexivity.
  - rewrite py_lower_nil. reflexivity.
  - destruct (py_lower (c :: s)) eqn:E; [|reflexivity].
    apply py_lower_nonempty in E. discriminate.
Qed.

Lemma or_text_first (a : option pystr) (b : pystr) :
  or_text a b = first_text [a] b.
Proof. destruct a as [[|c s]|]; reflexivity. Qed.

Lemma category_chain (r : Rule) :
  or_text (category r)
    (or_text (category_l3 r)
       (or_text (category_l2 r) (or_text (category_l1 r) uncategorized)))
  = first_text [category r; category_l3 r; category_l2 r; category_l1 r]
               uncategorized.
Proof.
  destruct (category r) as [[|? ?]|], (category_l3 r) as [[|? ?]|],
    (category_l2 r) as [[|? ?]|], (category_l1 r) as [[|? ?]|]; reflexivity.
Qed.

Lemma target_default `{PyRuntime} (r : Rule) :
  py_lower (or_text (target r) (u "any")) = rule_target r.
Proof. unfold rule_target. destruct (target r) as [[|c t]|]; reflexivity. Qed.

Ltac two_targets E1 E2 :=
  apply str_eqb_eq in E1; apply str_eqb_eq in E2;
  rewrite E1 in E2; discriminate E2.

Lemma hit_by_target (tgt : pystr) (a b c : bool) :
  (str_eqb tgt (u "description") && a) || (str_eqb tgt (u "memo") && b)
  || (str_eqb tgt (u "vendor") && c)
  || (str_eqb tgt (u "any") && (a || b || c))
  = if str_eqb tgt (u "description") then a
    else if str_eqb tgt (u "memo") then b
    else if str_eqb tgt (u "vendor") then c
    else if str_eqb tgt (u "any") then a || b || c
    else false.
Proof.
  destruct (str_eqb tgt (u "description")) eqn:D,
           (str_eqb tgt (u "memo")) eqn:M,
           (str_eqb tgt (u "vendor")) eqn:V,
           (str_eqb tgt (u "any")) eqn:A;
    try (two_targets D M); try (two_targets D V); try (two_targets D A);
    try (two_targets M V); try (two_targets M A); try (two_targets V A);
    destruct a, b, c; reflexivity.
Qed.

Lemma rules_loop_step `{PyRuntime} (row : RuleInput) (r : Rule)
    (rest : list Rule) (result : Classification) :
  rules_loop (_safe_lower (description row)) (_safe_lower (memo row))
             (_safe_lower (vendor_normalized row)) result (r :: rest)
  = if rule_hits row r then result_of r
    else rules_loop (_safe_lower (description row)) (_safe_lower (memo row))
                    (_safe_lower (vendor_normalized row)) result rest.
Proof.
  cbn [rules_loop]. rewrite safe_lower_empty, target_default, category_chain.
  unfold rule_hits. destruct (has_keyword r); simpl negb; cbv iota; [|reflexivity].
  rewrite hit_by_target. rewrite andb_true_l. unfold selected.
  destruct (str_eqb (rule_target r) (u "description"));
    [simpl existsb; rewrite orb_false_r; reflexivity|].
  destruct (str_eqb (rule_target r) (u "memo"));
    [simpl existsb; rewrite orb_false_r; reflexivity|].
  destruct (str_eqb (rule_target r) (u "vendor"));
    [simpl existsb; rewrite orb_false_r; reflexivity|].
  destruct (str_eqb (rule_target r) (u "any")); [|reflexivity].
  simpl existsb. rewrite orb_false_r, orb_assoc. reflexivity.
Qed.

(** C1, as amended.  [apply_rules] returns the result of the first rule,
    in the order given, that has a non-empty keyword occurring (both
    lowered) in the text its target selects: the description, the memo,
    the normalised vendor, or any of the three for the target any; the
    category is the first of flat category, level 3, level 2, level 1 that
    is neither null nor empty, else the default; the levels and the fixed
    flag are those of the rule; without a matching rule the default result
    is returned.  The Starbucks rule of the specification classifies the
    vendor of that name and leaves the vendor "cu" unclassified. *)
Theorem apply_rules_first_match `{PyRuntime} :
  (forall row rules,
     apply_rules row rules
     = match find (rule_hits row) rules with
       | Some r => result_of r
       | None => default_result
       end)
  /\ apply_rules (vendor_row (u "스타벅스")) [starbucks_rule]
     = {| res_category := u "카페"; res_category_l1 := None;
          res_category_l2 := None; res_category_l3 := None;
          res_is_fixed := false |}
  /\ apply_rules (vendor_row (u "cu")) [starbucks_rule] = default_result.
Proof.
  assert (G : forall row rules,
             apply_rules row rules
             = match find (rule_hits row) rules with
               | Some r => result_of r
               | None => default_result
               end).
  { intros row rules. unfold apply_rules.
    induction rules as [|r rest IH]; [reflexivity|].
    rewrite rules_loop_step. simpl find.
    destruct (rule_hits row r); [reflexivity | exact IH]. }
  split; [exact G|].
  split; rewrite G; unfold find, rule_hits, rule_target, selected, vendor_row,
    starbucks_rule, _safe_lower, has_keyword; simpl keyword; simpl target;
    simpl vendor_normalized; simpl description; simpl memo; cbv iota;
    rewrite !py_lower_plain by reflexivity; vm_compute; reflexivity.
Qed.

(** C1, counterexample.  A rule whose level 3 is the empty text and whose
    level 2 is "x" matches the description "a": level 3 is the deepest
    level that is not null, yet the category returned is "x". *)
Lemma apply_rules_skips_empty_level :
  find (@rule_hits reference_runtime (vendor_row (u "a"))) [level_rule]
    = Some level_rule
  /\ category_skipping_null level_rule = []
  /\ res_category (@apply_rules reference_runtime (vendor_row (u "a")) [level_rule])
     = u "x".
Proof. vm_compute. repeat split; reflexivity. Qed.

(** ** Header guessing *)

Lemma first_row_spec {A} (test : A -> bool) (d : A) (rows : list A) :
  forall limit k i,
    first_row test rows limit k = Some i <->
    exists n, i = (k + n)%nat /\ (n < limit)%nat /\ (n < List.length rows)%nat
              /\ test (nth n rows d) = true
              /\ forall j, (j < n)%nat -> test (nth j rows d) = false.
Proof.
  induction rows as [|r rest IH]; intros limit k i.
  - destruct limit; simpl; (split; [discriminate|]);
      intros (n & _ & _ & L & _); simpl in L; lia.
  - destruct limit as [|limit].
    + simpl. split; [discriminate|]. intros (n & _ & L & _); lia.
    + simpl first_row. destruct (test r) eqn:T.
      * split.
        -- intros E; injection E as <-. exists 0%nat.
           split; [lia|]. split; [lia|]. split; [simpl; lia|].
           split; [exact T|]. intros j L; lia.
        -- intros (n & -> & _ & _ & Tn & Before).
           destruct n as [|n]; [f_equal; lia|].
           specialize (Before 0%nat ltac:(lia)). simpl in Before. congruence.
      * rewrite IH. split.
        -- intros (n & -> & L1 & L2 & Tn & Before). exists (S n).
           split; [lia|]. split; [lia|]. split; [simpl; lia|].
           split; [exact Tn|].
           intros [|j] L; [exact T | apply Before; lia].
        -- intros (n & -> & L1 & L2 & Tn & Before).
           destruct n as [|n]; [simpl in Tn; congruence|].
           exists n. simpl in L2, Tn.
           split; [lia|]. split; [lia|]. split; [lia|]. split; [exact Tn|].
           intros j L. apply (Before (S j)). lia.
Qed.

Lemma first_row_none {A} (test : A -> bool) (d : A) (rows : list A) :
  forall limit k,
    first_row test rows limit k = None <->
    forall j, (j < limit)%nat -> (j < List.length rows)%nat ->
              test (nth j rows d) = false.
Proof.
  induction rows as [|r rest IH]; intros limit k.
  - destruct limit; simpl; split; auto; intros _ j _ L; lia.
  - destruct limit as [|limit].
    + simpl. split; auto. intros _ j L; lia.
    + simpl first_row. destruct (test r) eqn:T.
      * split; [discriminate|]. intros All.
        specialize (All 0%nat ltac:(lia) ltac:(simpl; lia)).
        simpl in All. congruence.
      * rewrite IH. split.
        -- intros All [|j] L1 L2; [exact T|]. simpl. apply All; simpl in L2; lia.
        -- intros All j L1 L2. apply (All (S j)); simpl; lia.
Qed.

Lemma cell_hits_sum (cell : pystr) :
  (hit (_has_kw cell kw_date) + hit (_has_kw cell kw_desc)
   + hit (_has_kw cell kw_amt) + hit (_has_kw cell kw_dep)
   + hit (_has_kw cell kw_wd))%nat = cell_hits cell.
Proof.
  unfold cell_hits, five_categories. cbn [filter].
  destruct (_has_kw cell kw_date), (_has_kw cell kw_desc),
    (_has_kw cell kw_amt), (_has_kw cell kw_dep), (_has_kw cell kw_wd);
    reflexivity.
Qed.

Lemma row_hits_total (row : list pyval) :
  row_hits (map _norm_str row) = total_hits row.
Proof.
  unfold row_hits, total_hits.
  enough (G : forall acc,
             fold_left
               (fun hits cell =>
                  (hits + hit (_has_kw cell kw_date) + hit (_has_kw cell kw_desc)
                   + hit (_has_kw cell kw_amt) + hit (_has_kw cell kw_dep)
                   + hit (_has_kw cell kw_wd))%nat)
               (map _norm_str row) acc
             = (acc + list_sum (map (fun v => cell_hits (_norm_str v)) row))%nat)
    by apply (G 0%nat).
  induction row as [|v row IH]; intros acc; cbn [map fold_left].
  - simpl. lia.
  - rewrite IH.
    change (list_sum (cell_hits (_norm_str v)
                      :: map (fun v => cell_hits (_norm_str v)) row))
      with (cell_hits (_norm_str v)
            + list_sum (map (fun v => cell_hits (_norm_str v)) row))%nat.
    rewrite <- cell_hits_sum. lia.
Qed.

Lemma header_like_total (r : list pyval) :
  header_like r = true <-> (2 <= total_hits r)%nat.
Proof. unfold header_like. rewrite row_hits_total. apply Nat.leb_le. Qed.

Lemma header_like_not (r : list pyval) :
  header_like r = false <-> (total_hits r < 2)%nat.
Proof. unfold header_like. rewrite row_hits_total. apply Nat.leb_gt. Qed.

(** C4, as amended.  [_guess_header_row] looks at the first 80 rows at
    most and returns the first of them whose score is 2 or more, where the
    score adds, over the cells of the row, the number of the five keyword
    categories (date, description, amount, credit, debit) the cell matches
    under case-insensitive search; earlier rows all score below 2 and no
    later row is looked at, however high its score; without such a row
    the answer is [None].  The row of the specification scores 4 and is
    chosen at index 3 below three rows that score less; so is a row of two
    date cells, which scores 2 in one category, even above that row. *)
Theorem guess_header_first_found :
  (forall rows i,
     _guess_header_row rows 80 = Some i <->
     (i < 80)%nat /\ (i < List.length rows)%nat
     /\ (2 <= total_hits (nth i rows []))%nat
     /\ forall j, (j < i)%nat -> (total_hits (nth j rows []) < 2)%nat)
  /\ (forall rows,
        _guess_header_row rows 80 = None <->
        forall j, (j < 80)%nat -> (j < List.length rows)%nat ->
                  (total_hits (nth j rows []) < 2)%nat)
  /\ total_hits header_cells = 4%nat
  /\ _guess_header_row [title_row; []; title_row; header_cells] 80 = Some 3%nat
  /\ _guess_header_row [title_row; two_dates; header_cells] 80 = Some 1%nat.
Proof.
  split; [|split].
  - intros rows i. unfold _guess_header_row.
    rewrite (first_row_spec header_like [] rows 80 0 i). split.
    + intros (n & -> & L1 & L2 & T & Before). simpl.
      split; [exact L1|]. split; [exact L2|].
      split; [apply header_like_total; exact T|].
      intros j L. apply header_like_not, Before, L.
    + intros (L1 & L2 & T & Before). exists i.
      split; [reflexivity|]. split; [exact L1|]. split; [exact L2|].
      split; [apply header_like_total; exact T|].
      intros j L. apply header_like_not, Before, L.
  - intros rows. unfold _guess_header_row.
    rewrite (first_row_none header_like [] rows 80 0). split.
    + intros All j L1 L2. apply header_like_not, All; assumption.
    + intros All j L1 L2. apply header_like_not, All; assumption.
  - vm_compute. repeat split; reflexivity.
Qed.

(** C4, counterexample.  A row of two date cells has hits in one category
    only, and it is the header chosen. *)
Lemma guess_header_single_category :
  distinct_categories two_dates = 1%nat
  /\ _guess_header_row [two_dates] 80 = Some 0%nat.
Proof. vm_compute. split; reflexivity. Qed.

(** ** Frames built by the detectors *)

Ltac bind_inv H :=
  match type of H with
  | bind ?c _ = Returned _ =>
    let E := fresh "E" in
    destruct c eqn:E; cbn [bind] in H; [|discriminate H]
  end.

Lemma for_each_length {A B} (f : A -> outcome B) (xs : list A) :
  forall ys, for_each f xs = Returned ys -> List.length ys = List.length xs.
Proof.
  induction xs as [|x xs IH]; simpl; intros ys E.
  - injection E as <-. reflexivity.
  - destruct (f x); simpl in E; [|discriminate].
    destruct (for_each f xs); simpl in E; [|discriminate].
    injection E as <-. simpl. f_equal. apply IH. reflexivity.
Qed.

Lemma for_each_total {A B} (f : A -> outcome B) (g : A -> B) (xs : list A) :
  (forall x, f x = Returned (g x)) -> for_each f xs = Returned (map g xs).
Proof.
  intros F. induction xs as [|x xs IH]; simpl; [reflexivity|].
  rewrite F, IH. reflexivity.
Qed.

Lemma column_at_length (j : nat) (data : list (list pyval)) :
  List.length (column_at j data) = List.length data.
Proof. apply length_map. Qed.

Lemma text_column_length (labels : list pystr) (data : list (list pyval))
    (c : pystr) :
  List.length (text_column labels data c) = List.length data.
Proof.
  unfold text_column. destruct (positions c labels 0); apply length_map.
Qed.

Lemma getitem_series (labels : list pystr) (data : list (list pyval))
    (c : pystr) (cells : list pyval) :
  getitem labels data c = Series cells ->
  exists j, positions c labels 0 = [j] /\ cells = column_at j data.
Proof.
  unfold getitem. destruct (positions c labels 0) as [|j [|k js]];
    try discriminate.
  intros E; injection E as <-. exists j. split; reflexivity.
Qed.

Lemma numeric_column_length `{PyRuntime} (labels : list pystr)
    (data : list (list pyval)) (c : pystr) (xs : list float) :
  numeric_column labels data c = Returned xs ->
  List.length xs = List.length data.
Proof.
  unfold numeric_column. destruct (getitem labels data c) eqn:G;
    try discriminate.
  intros E. apply for_each_length in E. rewrite E.
  apply getitem_series in G. destruct G as (j & _ & ->).
  apply column_at_length.
Qed.

Lemma keep_rows_length {A} (keep : list bool) :
  forall xs : list A,
    List.length xs = List.length keep ->
    List.length (keep_rows keep xs) = count_true keep.
Proof.
  unfold count_true.
  induction keep as [|k keep IH]; intros [|x xs] L; simpl in *;
    try reflexivity; try discriminate.
  destruct k; simpl; [f_equal|]; apply IH; lia.
Qed.

Lemma count_true_notna (cells : list pyval) :
  count_true (map (fun v => negb (isna v)) cells)
  = List.length (filter (fun v => negb (isna v)) cells).
Proof.
  unfold count_true. induction cells as [|v cells IH]; simpl; [reflexivity|].
  destruct (negb (isna v)); simpl; [f_equal|]; exact IH.
Qed.

Lemma date_column_shape `{PyRuntime} (labels : list pystr)
    (data : list (list pyval)) (c : pystr) kd :
  date_column labels data c = Returned kd ->
  exists j,
    positions c labels 0 = [j]
    /\ snd kd = to_datetime (filter (fun v => negb (isna v)) (column_at j data))
    /\ List.length (fst kd) = List.length data
    /\ count_true (fst kd) = List.length (snd kd).
Proof.
  unfold date_column. destruct (getitem labels data c) eqn:G; try discriminate.
  intros E; injection E as <-. apply getitem_series in G.
  destruct G as (j & P & ->). exists j. simpl.
  split; [exact P|]. split; [reflexivity|].
  split; [rewrite length_map; apply column_at_length|].
  rewrite to_datetime_length. apply count_true_notna.
Qed.

Lemma fneg_not_fpos (x : float) : fneg x = true -> fpos x = false.
Proof.
  destruct x as [s|s| |s m e]; try destruct s; cbv; congruence.
Qed.

Lemma tx_type_of_ok (x : float) :
  (Some (tx_type_of x) = Some IN <-> fpos x = true)
  /\ (fneg x = true -> Some (tx_type_of x) = Some OUT).
Proof.
  unfold tx_type_of. split.
  - destruct (fpos x); split; congruence.
  - intros N. rewrite (fneg_not_fpos x N). reflexivity.
Qed.

Lemma woori_rows_ok (dates : list (option timestamp)) :
  forall types descs outs ins bals branches,
    Forall tx_ok (woori_rows dates types descs outs ins bals branches).
Proof.
  induction dates as [|d dates IH];
    intros [|t types] [|s descs] [|o outs] [|i ins] [|b bals] [|br branches];
    simpl; try constructor.
  - apply tx_type_of_ok.
  - apply IH.
Qed.

Lemma kb_rows_ok (dates : list (option timestamp)) :
  forall descs outs ins bals, Forall tx_ok (kb_rows dates descs outs ins bals).
Proof.
  induction dates as [|d dates IH];
    intros [|s descs] [|o outs] [|i ins] [|b bals];
    simpl; try constructor.
  - apply tx_type_of_ok.
  - apply IH.
Qed.

Lemma woori_rows_dates (dates : list (option timestamp)) :
  forall types descs outs ins bals branches,
    List.length types = List.length dates ->
    List.length descs = List.length dates ->
    List.length outs = List.length dates ->
    List.length ins = List.length dates ->
    List.length bals = List.length dates ->
    List.length branches = List.length dates ->
    map r_date (woori_rows dates types descs outs ins bals branches) = dates.
Proof.
  induction dates as [|d dates IH];
    intros [|t types] [|s descs] [|o outs] [|i ins] [|b bals] [|br branches];
    simpl; intros; try reflexivity; try discriminate.
  f_equal. apply IH; lia.
Qed.

Lemma kb_rows_dates (dates : list (option timestamp)) :
  forall descs outs ins bals,
    List.length descs = List.length dates ->
    List.length outs = List.length dates ->
    List.length ins = List.length dates ->
    List.length bals = List.length dates ->
    map r_date (kb_rows dates descs outs ins bals) = dates.
Proof.
  induction dates as [|d dates IH];
    intros [|s descs] [|o outs] [|i ins] [|b bals];
    simpl; intros; try reflexivity; try discriminate.
  f_equal. apply IH; lia.
Qed.

Lemma parse_woori_shape `{PyRuntime} (raw : RawTable) (df : Frame) :
  parse_woori_excel raw = Returned (Some df) ->
  f_columns df = woori_columns
  /\ Forall tx_ok (f_rows df)
  /\ exists header_row j,
       first_row woori_signature (body raw) 30 0 = Some header_row
       /\ positions (u "거래일시") (labels_at raw header_row) 0 = [j]
       /\ map r_date (f_rows df)
          = to_datetime
              (filter (fun v => negb (isna v))
                      (column_at j (skipn (S header_row) (body raw)))).
Proof.
  unfold parse_woori_excel. destruct (ncols raw <? 5)%nat; [discriminate|].
  destruct (first_row woori_signature (body raw) 30 0) as [h|] eqn:F;
    [|discriminate].
  fold (labels_at raw h).
  destruct (negb (forallb (fun c => label_in c (labels_at raw h)) woori_needed));
    [discriminate|].
  intros E. bind_inv E. bind_inv E. bind_inv E. bind_inv E.
  injection E as <-. simpl f_columns; simpl f_rows.
  split; [reflexivity|]. split; [apply woori_rows_ok|].
  apply date_column_shape in E3. destruct E3 as (j & P & D & L & C).
  exists h, j. split; [reflexivity|]. split; [exact P|].
  rewrite <- D. apply woori_rows_dates; rewrite <- C;
    apply keep_rows_length; rewrite L;
    first [apply text_column_length
          | eapply numeric_column_length; eassumption].
Qed.

Lemma parse_kb_shape `{PyRuntime} (raw : RawTable) (df : Frame) :
  parse_kb_excel raw = Returned (Some df) ->
  f_columns df = kb_columns
  /\ Forall tx_ok (f_rows df)
  /\ exists header_row j,
       first_row kb_signature (body raw) 30 0 = Some header_row
       /\ positions (u "거래일시") (labels_at raw header_row) 0 = [j]
       /\ map r_date (f_rows df)
          = to_datetime
              (filter (fun v => negb (isna v))
                      (column_at j (skipn (S header_row) (body raw)))).
Proof.
  unfold parse_kb_excel. destruct (ncols raw <? 5)%nat; [discriminate|].
  destruct (first_row kb_signature (body raw) 30 0) as [h|] eqn:F;
    [|discriminate].
  fold (labels_at raw h).
  destruct (negb (forallb (fun c => label_in c (labels_at raw h)) kb_needed));
    [discriminate|].
  intros E. bind_inv E. bind_inv E. bind_inv E. bind_inv E.
  injection E as <-. simpl f_columns; simpl f_rows.
  split; [reflexivity|]. split; [apply kb_rows_ok|].
  apply date_column_shape in E3. destruct E3 as (j & P & D & L & C).
  exists h, j. split; [reflexivity|]. split; [exact P|].
  rewrite <- D. apply kb_rows_dates; rewrite <- C;
    apply keep_rows_length; rewrite L;
    first [apply text_column_length
          | eapply numeric_column_length; eassumption].
Qed.

(** ** The sign invariant *)

Lemma unify_generic_columns `{PyRuntime} (raw : RawTable) (df : Frame) :
  unify_generic raw = Returned df -> f_columns df = generic_columns.
Proof.
  unfold unify_generic.
  destruct (generic_header raw) as [[cols data]|]; [|discriminate].
  unfold unify_labelled.
  destruct (negb _ || negb _); [discriminate|].
  intros E. bind_inv E. bind_inv E. bind_inv E.
  injection E as <-. reflexivity.
Qed.

Lemma backfill_keeps (df : Frame) :
  has_column df "tx_type" = true ->
  Forall tx_ok (f_rows df) -> Forall tx_ok (f_rows (backfill_columns df)).
Proof.
  intros T Ok. unfold backfill_columns.
  assert (Keep : forall (d : Frame) c f,
             (forall r, r_tx_type (f r) = r_tx_type r
                        /\ r_amount (f r) = r_amount r) ->
             Forall tx_ok (f_rows d) -> Forall tx_ok (f_rows (set_field d c f))).
  { intros d c f Same D. simpl. apply Forall_map.
    eapply Forall_impl; [|exact D]. intros r. unfold tx_ok.
    destruct (Same r) as [-> ->]. auto. }
  assert (Has : forall (d : Frame) c f,
             has_column d "tx_type" = true ->
             has_column (set_field d c f) "tx_type" = true).
  { intros d c f. unfold has_column. simpl. rewrite existsb_app.
    intros ->. reflexivity. }
  destruct (has_column df "balance"), (has_column df "branch") eqn:B.
  - rewrite T. exact Ok.
  - rewrite Has by exact T. apply Keep; [|exact Ok]. intros r; split; reflexivity.
  - match goal with
    | |- context [has_column (set_field df ?c ?f) "branch"] =>
      destruct (has_column (set_field df c f) "branch")
    end.
    + rewrite Has by exact T. apply Keep; [|exact Ok].
      intros r; split; reflexivity.
    + rewrite Has by (apply Has; exact T).
      apply Keep; [intros r; split; reflexivity|].
      apply Keep; [intros r; split; reflexivity | exact Ok].
  - match goal with
    | |- context [has_column (set_field df ?c ?f) "branch"] =>
      destruct (has_column (set_field df c f) "branch")
    end.
    + rewrite Has by exact T. apply Keep; [|exact Ok].
      intros r; split; reflexivity.
    + rewrite Has by (apply Has; exact T).
      apply Keep; [intros r; split; reflexivity|].
      apply Keep; [intros r; split; reflexivity | exact Ok].
Qed.

Lemma backfill_generic (df : Frame) :
  f_columns df = generic_columns ->
  Forall tx_ok (f_rows (backfill_columns df)).
Proof.
  intros C. unfold backfill_columns.
  assert (B1 : has_column df "balance" = true)
    by (unfold has_column; rewrite C; reflexivity).
  assert (B2 : has_column df "branch" = false)
    by (unfold has_column; rewrite C; reflexivity).
  rewrite B1, B2.
  match goal with
  | |- context [has_column (set_field df ?c ?f) "tx_type"] =>
    assert (B3 : has_column (set_field df c f) "tx_type" = false)
      by (unfold has_column; cbn [f_columns set_field]; rewrite C; reflexivity);
    rewrite B3
  end.
  cbn [f_rows set_field]. apply Forall_forall. intros r I.
  apply in_map_iff in I. destruct I as (r1 & <- & I).
  apply in_map_iff in I. destruct I as (r0 & <- & _).
  unfold tx_ok. simpl. apply tx_type_of_ok.
Qed.

(** The detector of the first bank on a statement of two rows: a
    withdrawal of 500,000 and a deposit of 3,000,000. *)
Lemma woori_statement_rows :
  option_map
    (fun df => map (fun r => (r_date r, r_amount r, r_tx_type r, r_balance r))
                   (f_rows df))
    (match @parse_woori_excel reference_runtime woori_statement with
     | Returned found => found
     | Raised _ => None
     end)
  = Some [(on_day 2024 1 5, float_of_Z (-500000), Some OUT,
           Some (float_of_Z 1500000));
          (on_day 2024 1 6, float_of_Z 3000000, Some IN,
           Some (float_of_Z 4500000))].
Proof. vm_compute. reflexivity. Qed.

(** C2.  Whichever way a uniform record is produced, by the detector of
    the first bank, by that of the second, or by [unify_columns] followed
    by the backfill of the upload handler, its [tx_type] is IN exactly when
    its amount is above zero, and an amount below zero has [tx_type] OUT. *)
Theorem tx_type_matches_sign `{PyRuntime} (raw : RawTable) (df : Frame) :
  parse_woori_excel raw = Returned (Some df)
  \/ parse_kb_excel raw = Returned (Some df)
  \/ uniform_records raw = Returned df ->
  Forall tx_ok (f_rows df).
Proof.
  intros [W | [K | U]].
  - apply (@parse_woori_shape _ raw df W).
  - apply (@parse_kb_shape _ raw df K).
  - unfold uniform_records in U. bind_inv U. injection U as <-.
    unfold unify_columns in E. bind_inv E.
    destruct a0 as [frame|].
    + injection E as <-.
      destruct (@parse_woori_shape _ raw frame E0) as (C & Ok & _).
      apply backfill_keeps; [|exact Ok].
      unfold has_column. rewrite C. reflexivity.
    + bind_inv E. destruct a0 as [frame|].
      * injection E as <-.
        destruct (@parse_kb_shape _ raw frame E1) as (C & Ok & _).
        apply backfill_keeps; [|exact Ok].
        unfold has_column. rewrite C. reflexivity.
      * apply backfill_generic. eapply unify_generic_columns. exact E.
Qed.

(** The file of the specification gives two records, +3000000 of type IN
    and -4500 of type OUT, and they satisfy the invariant. *)
Lemma tx_type_matches_sign_witness :
  exists df,
    @uniform_records reference_runtime salary_and_coffee = Returned df
    /\ map (fun r => (r_amount r, r_tx_type r)) (f_rows df)
       = [(float_of_Z 3000000, Some IN); (float_of_Z (-4500), Some OUT)]
    /\ Forall tx_ok (f_rows df).
Proof.
  eexists. split; [vm_compute; reflexivity|].
  split; [vm_compute; reflexivity|].
  eapply (@tx_type_matches_sign reference_runtime salary_and_coffee).
  right; right. vm_compute. reflexivity.
Defined.

(** ** What the detectors do with cells they cannot read *)

Lemma float_of_str_ascii `{PyRuntime} (s : pystr) :
  forallb is_ascii s = true ->
  float_of_str s = match ascii_float s with
                   | Some f => Returned f
                   | None => Raised (FloatConversion s)
                   end.
Proof. intros A. unfold float_of_str. rewrite (py_float_ascii _ A). reflexivity. Qed.

Lemma numeric_column_raises `{PyRuntime} (labels : list pystr)
    (data : list (list pyval)) (c : pystr) (j : nat) (v : pyval)
    (rest : list pyval) :
  positions c labels 0 = [j] ->
  column_at j data = v :: rest ->
  forallb is_ascii (clean_number v) = true ->
  ascii_float (clean_number v) = None ->
  numeric_column labels data c = Raised (FloatConversion (clean_number v)).
Proof.
  intros P C A F. unfold numeric_column, getitem. rewrite P, C.
  cbn [for_each]. rewrite (float_of_str_ascii _ A), F. reflexivity.
Qed.

(** A detector declines, without raising, a table that has no signature
    row among its first 30 or whose header lacks a required label. *)
Lemma detectors_decline `{PyRuntime} (raw : RawTable) :
  (first_row woori_signature (body raw) 30 0 = None ->
   parse_woori_excel raw = Returned None)
  /\ (first_row kb_signature (body raw) 30 0 = None ->
      parse_kb_excel raw = Returned None)
  /\ (forall h,
        first_row woori_signature (body raw) 30 0 = Some h ->
        forallb (fun c => label_in c (labels_at raw h)) woori_needed = false ->
        parse_woori_excel raw = Returned None)
  /\ (forall h,
        first_row kb_signature (body raw) 30 0 = Some h ->
        forallb (fun c => label_in c (labels_at raw h)) kb_needed = false ->
        parse_kb_excel raw = Returned None).
Proof.
  split; [|split; [|split]].
  - intros N. unfold parse_woori_excel. rewrite N.
    destruct (ncols raw <? 5)%nat; reflexivity.
  - intros N. unfold parse_kb_excel. rewrite N.
    destruct (ncols raw <? 5)%nat; reflexivity.
  - intros h F M. unfold parse_woori_excel. rewrite F.
    fold (labels_at raw h). rewrite M.
    destruct (ncols raw <? 5)%nat; reflexivity.
  - intros h F M. unfold parse_kb_excel. rewrite F.
    fold (labels_at raw h). rewrite M.
    destruct (ncols raw <? 5)%nat; reflexivity.
Qed.

(** C5.  A cell of a numeric column that [float] cannot read makes a
    detector raise: on a statement of either bank with the word "abc" as
    withdrawal, under a header that has the signature and every required
    label, the detector ends with the [ValueError] of the conversion; it
    neither returns a table nor declines. *)
Theorem detectors_raise_on_text_amount `{PyRuntime} :
  parse_woori_excel woori_text_amount = Raised (FloatConversion (u "abc"))
  /\ parse_kb_excel kb_text_amount = Raised (FloatConversion (u "abc")).
Proof.
  split.
  - unfold parse_woori_excel.
    change (ncols woori_text_amount <? 5)%nat with false.
    change (first_row woori_signature (body woori_text_amount) 30 0)
      with (Some 0%nat).
    cbv iota.
    match goal with
    | |- context [negb ?b] =>
      replace b with true by (vm_compute; reflexivity)
    end.
    cbn [negb]. cbv iota.
    rewrite numeric_column_raises
      with (j := 3%nat) (v := PyStr (u "abc")) (rest := []);
      [reflexivity | vm_compute; reflexivity | vm_compute; reflexivity
      | vm_compute; reflexivity | vm_compute; reflexivity].
  - unfold parse_kb_excel.
    change (ncols kb_text_amount <? 5)%nat with false.
    change (first_row kb_signature (body kb_text_amount) 30 0)
      with (Some 0%nat).
    cbv iota.
    match goal with
    | |- context [negb ?b] =>
      replace b with true by (vm_compute; reflexivity)
    end.
    cbn [negb]. cbv iota.
    rewrite numeric_column_raises
      with (j := 2%nat) (v := PyStr (u "abc")) (rest := []);
      [reflexivity | vm_compute; reflexivity | vm_compute; reflexivity
      | vm_compute; reflexivity | vm_compute; reflexivity].
Qed.

(** ** Dates in the frames of the detectors *)




(** ** The loader *)

Lemma run_chain_spec {T} (chain : list (pystr * decoded T)) :
  forall errors,
    run_chain chain errors
    = match first_success chain with
      | Some t => Returned t
      | None => Raised (load_failure (errors ++ map failure_line chain))
      end.
Proof.
  induction chain as [|[label [t|e]] rest IH]; intros errors; simpl.
  - rewrite app_nil_r. reflexivity.
  - reflexivity.
  - rewrite IH. rewrite <- app_assoc. reflexivity.
Qed.

Lemma first_success_none {T} (chain : list (pystr * decoded T)) :
  first_success chain = None <-> Forall failed chain.
Proof.
  induction chain as [|[label [t|e]] rest IH]; simpl.
  - split; auto.
  - split; [discriminate|]. intros F. inversion F as [|? ? [e E] _].
    discriminate E.
  - rewrite IH. split.
    + intros F. constructor; [exists e; reflexivity | exact F].
    + intros F. inversion F. assumption.
Qed.

Lemma load_runs_chain `{PyRuntime} {T} (D : Decoders T) (content : list N)
    (filename : option pystr) :
  load_spreadsheet D content filename
  = run_chain (candidate_chain D (file_ext filename) content) [].
Proof.
  unfold load_spreadsheet, candidate_chain. fold (file_ext filename).
  generalize (file_ext filename) as ext. intros ext. unfold attempt.
  destruct (ext_in ext [u ".xlsx"; u ".xlsm"; u ".xltx"; u ".xltm"; []]),
    (str_eqb ext (u ".xls")), (str_eqb ext (u ".xlsb")),
    (str_eqb ext (u ".csv"));
    cbn [app run_chain];
    repeat match goal with
           | |- context [match ?d with Decoded _ => _ | Failed _ => _ end] =>
             destruct d; cbn [app run_chain]; try reflexivity
           end.
Qed.

(** C8.  [load_spreadsheet] returns the table of the first decoder of its
    chain that succeeds, and then nothing is raised; it raises only when
    every decoder of the chain has failed, and what it raises is one
    [ValueError] whose message joins, one line for each decoder of the
    chain in order, the label of the decoder and the text of its failure. *)
Theorem load_spreadsheet_first_success `{PyRuntime} {T} (D : Decoders T)
    (content : list N) (filename : option pystr) :
  let chain := candidate_chain D (file_ext filename) content in
  load_spreadsheet D content filename
  = match first_success chain with
    | Some t => Returned t
    | None => Raised (load_failure (map failure_line chain))
    end
  /\ ((exists e, load_spreadsheet D content filename = Raised e)
      <-> Forall failed chain)
  /\ (forall t, load_spreadsheet D content filename = Returned t
                <-> first_success chain = Some t).
Proof.
  intros chain. rewrite load_runs_chain, run_chain_spec. fold chain.
  cbn [app]. split; [reflexivity|]. split.
  - rewrite <- first_success_none.
    destruct (first_success chain) as [t|]; split.
    + intros [e E]. discriminate E.
    + discriminate.
    + reflexivity.
    + intros _. eexists. reflexivity.
  - intros t. destruct (first_success chain); split; congruence.
Qed.

(** ** Amounts in the generic fallback *)

Lemma money_list_unique `{PyRuntime} (labels : list pystr)
    (data : list (list pyval)) (c : option pystr) :
  unique_label labels (label_text c) ->
  money_list labels data (label_text c)
  = Returned (map (fun row => money (cell_under labels c row)) data).
Proof.
  intros [j P]. unfold money_list, getitem, cell_under. rewrite P.
  cbn [iterate hd]. unfold column_at.
  rewrite (for_each_total _ money) by apply parse_money_returns.
  rewrite map_map. reflexivity.
Qed.

Lemma money_list_length `{PyRuntime} (labels : list pystr)
    (data : list (list pyval)) (c : pystr) :
  exists values,
    money_list labels data c = Returned values
    /\ List.length values = List.length (iterate c (getitem labels data c)).
Proof.
  unfold money_list. eexists. split.
  - apply for_each_total. apply parse_money_returns.
  - apply length_map.
Qed.

Lemma combine_map_same {A B C} (f : A -> B) (g : A -> C) (l : list A) :
  combine (map f l) (map g l) = map (fun x => (f x, g x)) l.
Proof. induction l; simpl; [reflexivity | f_equal; assumption]. Qed.

Lemma repeat_map {A B} (b : B) (l : list A) :
  repeat b (List.length l) = map (fun _ => b) l.
Proof. induction l; simpl; [reflexivity | f_equal; assumption]. Qed.

Lemma amount_series_rows `{PyRuntime} (cols : list pystr)
    (data : list (list pyval)) :
  Forall (unique_label cols) (amount_labels cols) ->
  truthy (next_label kw_dep cols) || truthy (next_label kw_wd cols)
  || truthy (next_label kw_amt cols) = true ->
  amount_series cols data (next_label kw_dep cols) (next_label kw_wd cols)
                (next_label kw_amt cols)
  = Returned (map (row_amount cols) data).
Proof.
  unfold amount_labels, amount_series, row_amount.
  destruct (truthy (next_label kw_dep cols)) eqn:D,
           (truthy (next_label kw_wd cols)) eqn:W;
    cbn [orb app]; intros U Some_column.
  - inversion U as [|? ? U1 U']; subst. inversion U' as [|? ? U2 _]; subst.
    rewrite !money_list_unique by assumption. cbn [bind].
    rewrite combine_map_same, map_map. reflexivity.
  - inversion U as [|? ? U1 _]; subst.
    rewrite money_list_unique by assumption. cbn [bind].
    rewrite repeat_map, combine_map_same, map_map. reflexivity.
  - inversion U as [|? ? U1 _]; subst.
    rewrite money_list_unique by assumption. cbn [bind].
    rewrite repeat_map, combine_map_same, map_map. reflexivity.
  - rewrite Some_column in *. inversion U as [|? ? U1 _]; subst.
    rewrite money_list_unique by assumption. reflexivity.
Qed.

Lemma amount_series_missing `{PyRuntime} (cols : list pystr)
    (data : list (list pyval)) :
  truthy (next_label kw_dep cols) || truthy (next_label kw_wd cols)
  || truthy (next_label kw_amt cols) = false ->
  amount_series cols data (next_label kw_dep cols) (next_label kw_wd cols)
                (next_label kw_amt cols)
  = Raised (ValueError (u "금액 컬럼 없음")).
Proof.
  unfold amount_series. intros N. apply orb_false_iff in N.
  destruct N as [-> ->]. reflexivity.
Qed.

Lemma triple_with_balance (out : list out_row) :
  forall values,
    List.length values = List.length out ->
    map triple (map (fun rb => with_balance (fst rb) (snd rb))
                    (combine out values)) = out.
Proof.
  induction out as [|[[d s] a] out IH]; intros [|v values] L; simpl in *;
    try reflexivity; try discriminate.
  f_equal. apply IH. lia.
Qed.

Lemma triple_default_balance (out : list out_row) :
  map triple (map (fun r => with_balance r fzero) out) = out.
Proof.
  induction out as [|[[d s] a] out IH]; simpl; [reflexivity|].
  f_equal. exact IH.
Qed.

Lemma build_out_rows `{PyRuntime} (cols : list pystr)
    (data : list (list pyval)) (col_date col_desc : pystr)
    (amounts : list float) (out : list out_row) :
  build_out cols data col_date col_desc amounts = Returned out ->
  exists jd js,
    positions col_date cols 0 = [jd] /\ positions col_desc cols 0 = [js]
    /\ out = combine (combine (to_datetime (column_at jd data))
                              (column_at js data)) amounts.
Proof.
  unfold build_out. destruct (getitem cols data col_date) eqn:Gd;
    try discriminate. cbn [bind].
  destruct (negb _); [discriminate|].
  destruct (getitem cols data col_desc) eqn:Gs; try discriminate.
  intros E; injection E as <-.
  apply getitem_series in Gd, Gs.
  destruct Gd as (jd & Pd & ->), Gs as (js & Ps & ->).
  exists jd, js. auto.
Qed.

Lemma balance_block_rows `{PyRuntime} (cols : list pystr)
    (data : list (list pyval)) (out : list out_row) (rows : list URow) :
  balance_block cols data out = Returned rows ->
  out <> [] \/ find (fun c => label_in c cols) balance_labels = None ->
  map triple rows = out.
Proof.
  unfold balance_block.
  destruct (find (fun c => label_in c cols) balance_labels) as [c|].
  - intros E [Nonempty | Absent]; [|discriminate]. bind_inv E.
    unfold set_balance in E.
    destruct out as [|r out]; [congruence|].
    destruct (List.length a =? List.length (r :: out))%nat eqn:L;
      [|destruct a; discriminate].
    apply Nat.eqb_eq in L.
    assert (R : rows = map (fun rb => with_balance (fst rb) (snd rb))
                           (combine (r :: out) a))
      by (destruct a; injection E as <-; reflexivity).
    rewrite R. apply triple_with_balance. exact L.
  - intros E _. injection E as <-. apply triple_default_balance.
Qed.

Lemma unify_columns_generic `{PyRuntime} (raw : RawTable) (cols : list pystr)
    (data : list (list pyval)) :
  parse_woori_excel raw = Returned None ->
  parse_kb_excel raw = Returned None ->
  generic_header raw = Some (cols, data) ->
  unify_columns raw = unify_labelled cols data.
Proof.
  intros W K G. unfold unify_columns, unify_generic.
  rewrite W. cbn [bind]. rewrite K. cbn [bind]. rewrite G. reflexivity.
Qed.

(** C7, as amended.  In the generic fallback, with the header chosen and a
    date and a description column found: when no label is a credit, debit
    or amount label, [unify_columns] fails with the "no amount column"
    error; when the labels the amount block reads each name one column,
    the amount of a row is parsed(credit) minus parsed(debit), a side
    without column counting as zero, if a credit or a debit column exists,
    and parsed(amount) otherwise, and the rows returned carry, in order,
    the date, description and amount of the rows that pass the filter
    (provided some row passes it or no balance label is present). *)
Theorem generic_amounts `{PyRuntime} (raw : RawTable) (cols : list pystr)
    (data : list (list pyval)) :
  parse_woori_excel raw = Returned None ->
  parse_kb_excel raw = Returned None ->
  generic_header raw = Some (cols, data) ->
  truthy (next_label kw_date cols) = true ->
  truthy (next_label kw_desc cols) = true ->
  (truthy (next_label kw_dep cols) || truthy (next_label kw_wd cols)
   || truthy (next_label kw_amt cols) = false ->
   unify_columns raw = Raised (ValueError (u "금액 컬럼 없음")))
  /\ (Forall (unique_label cols) (amount_labels cols) ->
      truthy (next_label kw_dep cols) || truthy (next_label kw_wd cols)
      || truthy (next_label kw_amt cols) = true ->
      amount_series cols data (next_label kw_dep cols) (next_label kw_wd cols)
                    (next_label kw_amt cols)
      = Returned (map (row_amount cols) data)
      /\ forall df,
           unify_columns raw = Returned df ->
           exists jd js,
             positions (label_text (next_label kw_date cols)) cols 0 = [jd]
             /\ positions (label_text (next_label kw_desc cols)) cols 0 = [js]
             /\ let out :=
                  filter kept
                    (combine (combine (to_datetime (column_at jd data))
                                      (column_at js data))
                             (map (row_amount cols) data)) in
                (out <> []
                 \/ find (fun c => label_in c cols) balance_labels = None ->
                 map triple (f_rows df) = out)).
Proof.
  intros W K G Hdate Hdesc.
  rewrite (unify_columns_generic raw W K G). unfold unify_labelled.
  rewrite Hdate, Hdesc. cbn [negb orb]. cbv iota. split.
  - intros N. rewrite (amount_series_missing cols data N). reflexivity.
  - intros U S. rewrite (amount_series_rows data U S).
    split; [reflexivity|]. cbn [bind]. intros df E.
    bind_inv E. bind_inv E. injection E as <-.
    apply build_out_rows in E0. destruct E0 as (jd & js & Pd & Ps & ->).
    exists jd, js. split; [exact Pd|]. split; [exact Ps|].
    cbv zeta. intros Cond. cbn [f_rows].
    apply (balance_block_rows _ _ E1 Cond).
Qed.

(** On the file of the specification the amounts are 3000000 - 0 and
    0 - 4500. *)
Lemma generic_amounts_witness :
  @amount_series reference_runtime salary_cols salary_data
    (next_label kw_dep salary_cols) (next_label kw_wd salary_cols)
    (next_label kw_amt salary_cols)
  = Returned (map (@row_amount reference_runtime salary_cols) salary_data)
  /\ map (@row_amount reference_runtime salary_cols) salary_data
     = [float_of_Z 3000000; float_of_Z (-4500)].
Proof.
  split; [|vm_compute; reflexivity].
  refine (proj1 (proj2 (@generic_amounts reference_runtime salary_and_coffee
                          salary_cols salary_data _ _ _ _ _) _ _));
    try (vm_compute; reflexivity).
  replace (amount_labels salary_cols) with [u "입금"; u "출금"]
    by (vm_compute; reflexivity).
  repeat constructor; eexists; vm_compute; reflexivity.
Defined.

(** C7, counterexample.  A credit column exists, two in fact, under one
    label; [df[label]] is then a frame, whose iteration gives its labels,
    and both rows get the amount 0.0 although the credit of the first
    parses to 3000000. *)
Lemma repeated_credit_label_amounts :
  exists df,
    @unify_columns reference_runtime repeated_credit = Returned df
    /\ map (fun r => (r_description r, r_amount r)) (f_rows df)
       = [(PyStr (u "월급"), fzero); (PyStr (u "이자"), fzero)]
    /\ @money reference_runtime (PyStr (u "3000000")) = float_of_Z 3000000.
Proof. eexists. repeat split; vm_compute; reflexivity. Qed.

(** Without a description column the fallback fails on the required
    columns before it looks for an amount. *)
Lemma missing_description_comes_first :
  @unify_columns reference_runtime dates_only
  = Raised (MissingColumns [u "날짜"; u "거래일"]).
Proof. vm_compute. reflexivity. Qed.

(** ** The balance of the generic fallback *)

Lemma build_out_length `{PyRuntime} (cols : list pystr)
    (data : list (list pyval)) (col_date col_desc : pystr)
    (amounts : list float) (out : list out_row) :
  build_out cols data col_date col_desc amounts = Returned out ->
  List.length out = List.length data.
Proof.
  intros E. pose proof E as E'. apply build_out_rows in E'.
  destruct E' as (jd & js & _ & _ & ->).
  unfold build_out in E. destruct (getitem cols data col_date);
    try discriminate. cbn [bind] in E.
  destruct (List.length amounts =? List.length data)%nat eqn:L;
    [|discriminate]. apply Nat.eqb_eq in L.
  unfold out_row.
  rewrite !length_combine, to_datetime_length, !column_at_length. lia.
Qed.

Lemma find_balance_none (cols : list pystr) :
  find (fun c => label_in c cols) balance_labels = None
  <-> Forall (fun c => label_in c cols = false) balance_labels.
Proof.
  unfold balance_labels. cbn [find].
  destruct (label_in (u "잔액") cols) eqn:A; [split; [discriminate|]|].
  { intros F. inversion F. congruence. }
  destruct (label_in (u "거래후 잔액") cols) eqn:B; [split; [discriminate|]|].
  { intros F. inversion F as [|? ? _ F']. inversion F'. congruence. }
  destruct (label_in (u "잔액(원)") cols) eqn:C; [split; [discriminate|]|].
  { intros F. inversion F as [|? ? _ F']. inversion F' as [|? ? _ F''].
    inversion F''. congruence. }
  split; [|reflexivity]. intros _. repeat constructor; assumption.
Qed.

(** C10, as amended.  In the generic fallback, after the frame of dates,
    descriptions and amounts has been built: when a balance label is
    present and names one column, and the filter drops at least one row
    but not all of them, [unify_columns] fails with the length error of
    the assignment (as many values as data rows, for fewer rows), which is
    none of the three errors of the fallback; the balance is set to zero
    on every row exactly when none of the three balance labels is
    present. *)
Theorem balance_assignment_length `{PyRuntime} (raw : RawTable)
    (cols : list pystr) (data : list (list pyval)) (amounts : list float)
    (out : list out_row) :
  parse_woori_excel raw = Returned None ->
  parse_kb_excel raw = Returned None ->
  generic_header raw = Some (cols, data) ->
  truthy (next_label kw_date cols) = true ->
  truthy (next_label kw_desc cols) = true ->
  amount_series cols data (next_label kw_dep cols) (next_label kw_wd cols)
                (next_label kw_amt cols) = Returned amounts ->
  build_out cols data (label_text (next_label kw_date cols))
            (label_text (next_label kw_desc cols)) amounts = Returned out ->
  (forall c,
     find (fun c => label_in c cols) balance_labels = Some c ->
     unique_label cols c ->
     filter kept out <> [] ->
     (List.length (filter kept out) < List.length out)%nat ->
     unify_columns raw
     = Raised (LengthMismatch (List.length data)
                              (List.length (filter kept out))))
  /\ (find (fun c => label_in c cols) balance_labels = None
      <-> Forall (fun c => label_in c cols = false) balance_labels)
  /\ (find (fun c => label_in c cols) balance_labels = None ->
      unify_columns raw
      = Returned {| f_columns := generic_columns;
                    f_rows := map (fun r => with_balance r fzero)
                                  (filter kept out) |}).
Proof.
  intros W K G Hdate Hdesc A B.
  rewrite (unify_columns_generic raw W K G). unfold unify_labelled.
  rewrite Hdate, Hdesc. cbn [negb orb]. cbv iota.
  rewrite A. cbn [bind]. rewrite B. cbn [bind].
  pose proof (build_out_length _ _ _ _ _ B) as L.
  split; [|split; [apply find_balance_none|]].
  - intros c F [j P] Nonempty Fewer. unfold balance_block. rewrite F.
    unfold money_list, getitem. rewrite P. cbn [iterate].
    rewrite (for_each_total _ money) by apply parse_money_returns.
    cbn [bind]. unfold set_balance.
    rewrite length_map, column_at_length.
    destruct (filter kept out) as [|r rest] eqn:Kept; [congruence|].
    replace (List.length data =? List.length (r :: rest))%nat with false
      by (symmetry; apply Nat.eqb_neq; lia).
    destruct (map money (column_at j data)); reflexivity.
  - intros N. unfold balance_block. rewrite N. reflexivity.
Qed.

(** One of two rows is dropped and the two balances do not fit the one
    row that is left. *)
Lemma balance_assignment_length_witness :
  @unify_columns reference_runtime sheet_with_subtotal
  = Raised (LengthMismatch 2 1).
Proof.
  refine (proj1 (@balance_assignment_length reference_runtime
                   sheet_with_subtotal subtotal_cols subtotal_data
                   [float_of_Z 3000000; float_of_Z 3000000]
                   [(on_day 2024 1 5, PyStr (u "월급"), float_of_Z 3000000);
                    (None, PyStr (u " "), float_of_Z 3000000)]
                   _ _ _ _ _ _ _) (u "잔액") _ _ _ _);
    first [ vm_compute; reflexivity
          | exists 3%nat; vm_compute; reflexivity
          | vm_compute; discriminate
          | vm_compute; lia ].
Defined.

(** C10, counterexample.  A balance label is present and the filter drops
    one of three rows, yet nothing is raised: the label is on two
    columns, [df[label]] is a frame whose iteration gives two labels, and
    the two zeros they parse to fit the two rows that are left. *)
Lemma repeated_balance_label_returns :
  label_in (u "잔액") [u "날짜"; u "내용"; u "금액"; u "잔액"; u "잔액"] = true
  /\ exists df,
       @unify_columns reference_runtime repeated_balance = Returned df
       /\ map (fun r => (r_description r, r_balance r)) (f_rows df)
          = [(PyStr (u "월급"), Some fzero); (PyStr (u "이자"), Some fzero)].
Proof. split; [reflexivity|]. eexists. split; vm_compute; reflexivity. Qed.

(** When the filter drops every row, the assignment gives the empty frame
    the rows of the list: nothing is raised and the row comes back without
    date, description and amount. *)
Lemma all_rows_dropped_returns :
  exists df,
    @unify_columns reference_runtime only_subtotal = Returned df
    /\ map (fun r => (triple r, r_balance r)) (f_rows df)
       = [((None, PyNaN, fnan), Some (float_of_Z 3000000))].
Proof. eexists. split; vm_compute; reflexivity. Qed.

(** ** Fingerprints *)








(** In a sheet with two title lines and an empty line above the header,
    the header is row 3 and the rows above it score below 2. *)
Lemma guess_header_first_found_witness :
  (3 < 80)%nat
  /\ (3 < List.length [title_row; []; title_row; header_cells])%nat
  /\ (2 <= total_hits (nth 3 [title_row; []; title_row; header_cells] []))%nat
  /\ forall j, (j < 3)%nat ->
       (total_hits (nth j [title_row; []; title_row; header_cells] []) < 2)%nat.
Proof.
  apply (proj1 (proj1 guess_header_first_found
                  [title_row; []; title_row; header_cells] 3%nat)).
  vm_compute. reflexivity.
Defined.

(** ** Vendor names *)

Lemma lstrip_idem (s : pystr) : lstrip (lstrip s) = lstrip s.
Proof.
  induction s as [|c s IH]; [reflexivity|].
  simpl. destruct (isspace c) eqn:E; [exact IH|].
  simpl. rewrite E. reflexivity.
Qed.

Lemma lstrip_snoc (s : pystr) (c : char) :
  isspace c = false -> lstrip (s ++ [c]) = lstrip s ++ [c].
Proof.
  intros E. induction s as [|d s IH]; simpl.
  - rewrite E. reflexivity.
  - destruct (isspace d); [exact IH | reflexivity].
Qed.

Lemma rstrip_cons (c : char) (s : pystr) :
  isspace c = false -> rstrip (c :: s) = c :: rstrip s.
Proof.
  intros E. unfold rstrip. simpl rev.
  rewrite lstrip_snoc by exact E. rewrite rev_app_distr. reflexivity.
Qed.

Lemma rstrip_idem (s : pystr) : rstrip (rstrip s) = rstrip s.
Proof. unfold rstrip. rewrite rev_involutive, lstrip_idem. reflexivity. Qed.

Lemma lstrip_strip (s : pystr) : lstrip (strip s) = strip s.
Proof.
  unfold strip. destruct (lstrip s) as [|c t] eqn:E; [reflexivity|].
  assert (S : isspace c = false).
  { clear - E. induction s as [|d s IH]; [discriminate|].
    simpl in E. destruct (isspace d) eqn:D; [exact (IH E)|].
    injection E as -> _. exact D. }
  rewrite rstrip_cons by exact S. simpl. rewrite S. reflexivity.
Qed.

Lemma strip_idem (s : pystr) : strip (strip s) = strip s.
Proof.
  unfold strip at 1. rewrite lstrip_strip. unfold strip.
  apply rstrip_idem.
Qed.

(** On text made of ASCII and Hangul syllables the search does not depend
    on the rest of [\w]. *)
Lemma vmatch_here_plain `{W : PyWord} (p : list vatom) :
  forall prev s,
    match prev with Some d => plain_char d = true | None => True end ->
    forallb plain_char s = true ->
    @vmatch_here W p prev s = @vmatch_here reference_word p prev s.
Proof.
  induction p as [|a p IH]; intros prev s P S; [reflexivity|].
  destruct a.
  - destruct s as [|d s]; [reflexivity|]. simpl in S.
    apply andb_prop in S. destruct S as [D S].
    simpl. rewrite (IH (Some d) s D S). reflexivity.
  - simpl. clear IH0 || idtac.
    revert prev P. induction s as [|d s IHs]; intros prev P.
    + simpl. rewrite (IH prev [] P S). reflexivity.
    + simpl in S. apply andb_prop in S. destruct S as [D S'].
      specialize (IHs S' (Some d) D). simpl in IHs |- *.
      rewrite (IH prev (d :: s) P); [|simpl; rewrite D, S'; reflexivity].
      destruct s; rewrite IHs; reflexivity.
  - simpl. rewrite (IH prev s P S).
    destruct s as [|d s]; [reflexivity|]. simpl in S.
    apply andb_prop in S. destruct S as [D S].
    rewrite (IH (Some d) s D S). reflexivity.
  - simpl. rewrite (IH prev s P S).
    destruct s as [|d s]; [reflexivity|]. simpl in S.
    apply andb_prop in S. destruct S as [D S].
    rewrite (IH (Some d) s D S). reflexivity.
  - simpl. rewrite (IH prev s P S). f_equal. f_equal.
    + destruct prev as [d|]; [|reflexivity]. simpl.
      apply py_isword_plain. exact P.
    + destruct s as [|d s]; [reflexivity|]. simpl in S |- *.
      apply andb_prop in S. apply py_isword_plain. apply S.
Qed.

Lemma vsearch_from_plain `{W : PyWord} (p : list vatom) :
  forall prev s,
    match prev with Some d => plain_char d = true | None => True end ->
    forallb plain_char s = true ->
    @vsearch_from W p prev s = @vsearch_from reference_word p prev s.
Proof.
  intros prev s. revert prev.
  induction s as [|d s IH]; intros prev P S.
  - simpl. rewrite (vmatch_here_plain p prev [] P S). reflexivity.
  - simpl. rewrite (vmatch_here_plain p prev (d :: s) P S).
    simpl in S. apply andb_prop in S. destruct S as [D S].
    rewrite (IH (Some d) D S). reflexivity.
Qed.

Lemma vsearch_plain `{W : PyWord} (pat : list (list vatom)) (s : pystr) :
  forallb plain_char s = true ->
  @vsearch W pat s = @vsearch reference_word pat s.
Proof.
  intros S. unfold vsearch.
  induction pat as [|p pat IHp]; [reflexivity|].
  simpl. rewrite IHp, (vsearch_from_plain p None s I S). reflexivity.
Qed.

Lemma first_replacement_plain `{W : PyWord}
    (items : list (list (list vatom) * pystr)) (s : pystr) :
  forallb plain_char s = true ->
  @first_replacement W items s = @first_replacement reference_word items s.
Proof.
  intros S. induction items as [|[pat rep] items IH]; [reflexivity|].
  simpl. rewrite IH, (vsearch_plain pat s S). reflexivity.
Qed.

Lemma first_replacement_in `{PyWord}
    (items : list (list (list vatom) * pystr)) (s rep : pystr) :
  first_replacement items s = Some rep -> In rep (map snd items).
Proof.
  induction items as [|[pat r] items IH]; [discriminate|].
  simpl. destruct (vsearch pat s).
  - intros E. injection E as ->. left. reflexivity.
  - intros E. right. exact (IH E).
Qed.

(** A pattern of literals is found where the text has it as a substring. *)
Lemma vmatch_here_chars `{PyWord} (w : pystr) :
  forall prev s, vmatch_here (map Chr w) prev s = startswith s w.
Proof.
  induction w as [|c w IH]; intros prev s; [destruct s; reflexivity|].
  destruct s as [|d s]; [reflexivity|].
  simpl. rewrite IH. rewrite N.eqb_sym. reflexivity.
Qed.

Lemma vsearch_from_chars `{PyWord} (w : pystr) :
  forall prev s, vsearch_from (map Chr w) prev s = str_in w s.
Proof.
  intros prev s. revert prev.
  induction s as [|d s IH]; intros prev; simpl;
    rewrite vmatch_here_chars; [reflexivity|].
  rewrite IH. reflexivity.
Qed.

Lemma canonical_name_fixed `{PyRuntime} `{PyWord} (rep : pystr) :
  In rep canonical_names -> normalize_vendor (PyStr rep) = rep.
Proof.
  intros I.
  assert (P : forallb plain_char (strip rep) = true
              /\ @first_replacement reference_word NORMALIZE_MAP
                   (map ascii_lower_char (strip rep)) = Some rep).
  { unfold canonical_names in I. simpl in I.
    destruct I as [<-|[<-|[<-|[<-|[<-|[]]]]]]; vm_compute; split; reflexivity. }
  destruct P as [P F].
  unfold normalize_vendor. simpl str. cbv zeta.
  rewrite (py_lower_plain _ P).
  rewrite first_replacement_plain, F; [reflexivity|].
  rewrite forallb_forall in P |- *. intros c C.
  apply in_map_iff in C. destruct C as (d & <- & D).
  specialize (P d D). unfold plain_char, is_ascii, ascii_lower_char in *.
  destruct ((65 <=? d) && (d <=? 90)) eqn:U; [|exact P].
  apply andb_prop in U. destruct U as [U1 U2].
  apply N.leb_le in U1, U2.
  replace (d + 32 <? 128) with true; [reflexivity|].
  symmetry. apply N.ltb_lt. lia.
Qed.

(** X1.  [normalize_vendor] is idempotent: a vendor name that was
    normalised is left as it is when it is normalised again, whether it is
    one of the names of the table or a text that no pattern matched. *)
Theorem normalize_vendor_idempotent `{PyRuntime} `{PyWord} (text : pyval) :
  normalize_vendor (PyStr (normalize_vendor text)) = normalize_vendor text.
Proof.
  assert (E : forall s,
             normalize_vendor (PyStr (strip s)) = normalize_vendor (PyStr s)).
  { intros s. unfold normalize_vendor. simpl str. cbv zeta.
    rewrite strip_idem. reflexivity. }
  assert (G : forall s,
             normalize_vendor (PyStr (normalize_vendor (PyStr s)))
             = normalize_vendor (PyStr s)).
  { intros s.
    assert (R : normalize_vendor (PyStr s)
                = match first_replacement NORMALIZE_MAP (py_lower (strip s)) with
                  | Some rep => rep
                  | None => strip s
                  end) by reflexivity.
    destruct (first_replacement NORMALIZE_MAP (py_lower (strip s)))
      as [rep|] eqn:F; rewrite R.
    - apply canonical_name_fixed. exact (first_replacement_in _ _ F).
    - rewrite E. exact R. }
  destruct text as [| |s].
  - change (normalize_vendor PyNone) with (strip []).
    rewrite E. unfold normalize_vendor. simpl str. cbv zeta.
    change (strip []) with (@nil char). rewrite py_lower_nil.
    rewrite first_replacement_plain by reflexivity. reflexivity.
  - apply (G (u "nan")).
  - apply G.
Qed.

(** X2.  The first entry of the table wins: a text that is not [None] and
    that, stripped and lowered, contains "starbucks" or "스타벅스" is
    normalised to "스타벅스", whatever other vendor it names as well. *)
Theorem normalize_vendor_first_entry `{PyRuntime} `{PyWord} (text : pyval) :
  text <> PyNone ->
  str_in (u "starbucks") (py_lower (strip (str text))) = true
  \/ str_in (u "스타벅스") (py_lower (strip (str text))) = true ->
  normalize_vendor text = u "스타벅스".
Proof.
  intros N C.
  assert (F : first_replacement NORMALIZE_MAP (py_lower (strip (str text)))
              = Some (u "스타벅스")).
  { unfold NORMALIZE_MAP. cbn [first_replacement].
    replace (vsearch [chars "starbucks"; chars "스타벅스"]
                     (py_lower (strip (str text)))) with true; [reflexivity|].
    unfold vsearch, chars. cbn [existsb]. rewrite !vsearch_from_chars.
    destruct C as [-> | ->]; [reflexivity|].
    rewrite orb_true_r. reflexivity. }
  unfold normalize_vendor. destruct text as [| |s]; [contradiction| |];
    cbv zeta; rewrite F; reflexivity.
Qed.

Lemma normalize_vendor_first_entry_witness :
  @normalize_vendor reference_runtime reference_word starbucks_gangnam
  = u "스타벅스".
Proof.
  apply (@normalize_vendor_first_entry reference_runtime reference_word
           starbucks_gangnam).
  - discriminate.
  - left. vm_compute. reflexivity.
Defined.

(** ** The rule engine, further *)

Lemma first_text_nonempty (xs : list (option pystr)) (default : pystr) :
  default <> [] -> first_text xs default <> [].
Proof.
  intros D. induction xs as [|[[|c s]|] xs IH]; simpl; try assumption.
  discriminate.
Qed.

(** X3.  The category [apply_rules] returns is never the empty text,
    whatever the rules hold: a rule whose category and levels are all null
    or empty gives the default category. *)
Theorem apply_rules_category_nonempty `{PyRuntime} (row : RuleInput)
    (rules : list Rule) :
  res_category (apply_rules row rules) <> [].
Proof.
  unfold apply_rules.
  assert (D : res_category default_result <> []) by (vm_compute; discriminate).
  revert D. generalize default_result.
  induction rules as [|r rest IH]; intros result D; [exact D|].
  rewrite rules_loop_step. destruct (rule_hits row r); [|exact (IH result D)].
  apply first_text_nonempty. vm_compute. discriminate.
Qed.

Lemma memo_rule_misses `{PyRuntime} (row : RuleInput) (r : Rule) :
  _safe_lower (memo row) = [] ->
  str_eqb (rule_target r) (u "memo") = true ->
  rule_hits row r = false.
Proof.
  intros M T. unfold rule_hits, selected.
  apply str_eqb_eq in T. rewrite T.
  change (str_eqb (u "memo") (u "description")) with false.
  change (str_eqb (u "memo") (u "memo")) with true. cbv iota.
  rewrite M. unfold has_keyword.
  destruct (keyword r) as [| |[|c s]]; try reflexivity.
  simpl _safe_lower. simpl existsb.
  destruct (py_lower (c :: s)) eqn:E; [|reflexivity].
  apply py_lower_nonempty in E. discriminate.
Qed.

(** X4.  The handler of uploads classifies every row with an empty memo;
    with such a row the rules whose target is the memo never match, so the
    result is that of the list without them. *)
Theorem apply_rules_blank_memo `{PyRuntime} (desc vendor : pyval)
    (rules : list Rule) :
  let row := {| description := desc; memo := PyStr [];
                vendor_normalized := vendor |} in
  apply_rules row rules
  = apply_rules row
      (filter (fun r => negb (str_eqb (rule_target r) (u "memo"))) rules).
Proof.
  intros row. unfold apply_rules. generalize default_result.
  induction rules as [|r rest IH]; intros result; [reflexivity|].
  rewrite rules_loop_step. cbn [filter].
  destruct (str_eqb (rule_target r) (u "memo")) eqn:T; cbn [negb].
  - rewrite (memo_rule_misses row r); [apply IH | apply py_lower_nil | exact T].
  - rewrite rules_loop_step. destruct (rule_hits row r); [reflexivity|apply IH].
Qed.

(** ** Uploads *)

Lemma store_row_cases `{PyRuntime} `{PyWord} (rules : list Rule)
    (st st' : UploadState) (p : Prepared) :
  store_row rules st p = Returned st' ->
  exists fp,
    row_fingerprint p = Returned fp
    /\ ((has_fingerprint (table st) fp = true
         /\ st' = {| table := table st; inserted := inserted st;
                     skipped := S (skipped st) |})
        \/ (has_fingerprint (table st) fp = false
            /\ exists t,
                 s_tx t = p /\ s_fingerprint t = fp
                 /\ st' = {| table := table st ++ [t];
                             inserted := S (inserted st);
                             skipped := skipped st |})).
Proof.
  unfold store_row, row_fingerprint.
  destruct (make_fingerprint _ _ _ _ _) as [fp|e]; [|discriminate].
  cbn [bind]. intros E. exists fp. split; [reflexivity|].
  destruct (has_fingerprint (table st) fp).
  - left. injection E as <-. split; reflexivity.
  - right. split; [reflexivity|]. injection E as <-.
    eexists. split; [|split]; [| |reflexivity]; reflexivity.
Qed.

Lemma has_fingerprint_app (db new : list StoredTx) (fp : pystr) :
  has_fingerprint (db ++ new) fp
  = has_fingerprint db fp || has_fingerprint new fp.
Proof. apply existsb_app. Qed.

Lemma has_fingerprint_in (db : list StoredTx) (fp : pystr) :
  has_fingerprint db fp = true <-> In fp (map s_fingerprint db).
Proof.
  unfold has_fingerprint. rewrite existsb_exists, in_map_iff. split.
  - intros (t & I & E). apply str_eqb_eq in E. exists t. split; assumption.
  - intros (t & E & I). exists t. split; [exact I|].
    apply str_eqb_eq. exact E.
Qed.

(** What the loop does to the table and the counters. *)
Lemma store_rows_spec `{PyRuntime} `{PyWord} (rules : list Rule)
    (rows : list Prepared) :
  forall st st',
    store_rows rules st rows = Returned st' ->
    exists new,
      table st' = table st ++ new
      /\ inserted st' = (inserted st + List.length new)%nat
      /\ (inserted st' + skipped st'
          = inserted st + skipped st + List.length rows)%nat
      /\ Forall (fun t => In (s_tx t) rows) new
      /\ (NoDup (map s_fingerprint (table st)) ->
          NoDup (map s_fingerprint (table st')))
      /\ Forall (fun p => exists fp, row_fingerprint p = Returned fp
                                     /\ has_fingerprint (table st') fp = true)
                rows.
Proof.
  induction rows as [|p rows IH]; intros st st' E.
  - injection E as <-. exists []. rewrite app_nil_r.
    repeat split; try lia; try constructor; auto.
  - cbn [store_rows] in E.
    destruct (store_row rules st p) as [st1|e] eqn:S1; [|discriminate].
    cbn [bind] in E. apply store_row_cases in S1.
    destruct S1 as (fp & FP & S1).
    destruct (IH st1 st' E) as (new & T & I & C & A & U & K).
    destruct S1 as [[Hit ->]|(Miss & t & Tx & Tf & ->)]; simpl in *.
    + exists new. split; [exact T|]. split; [exact I|]. split; [lia|].
      split; [|split; [exact U|]].
      * eapply Forall_impl; [|exact A]. intros a Ha. right. exact Ha.
      * constructor; [|exact K]. exists fp. split; [exact FP|].
        rewrite T, has_fingerprint_app, Hit. reflexivity.
    + exists (t :: new). rewrite <- app_assoc in T. simpl in T.
      split; [exact T|]. split; [simpl; lia|]. split; [lia|].
      split; [|split].
      * constructor; [left; symmetry; exact Tx|].
        eapply Forall_impl; [|exact A]. intros a Ha. right. exact Ha.
      * intros N. apply U. rewrite map_app. simpl.
        apply NoDup_app_remove_l with (l := []) || idtac.
        rewrite <- (rev_involutive (map s_fingerprint (table st) ++ [s_fingerprint t])).
        apply NoDup_rev. rewrite rev_app_distr. simpl.
        constructor; [|apply NoDup_rev; exact N].
        rewrite <- in_rev. rewrite Tf. intros J.
        apply has_fingerprint_in in J. congruence.
      * constructor; [|exact K]. exists fp. split; [exact FP|].
        rewrite T, has_fingerprint_app. apply orb_true_iff. right.
        simpl. rewrite Tf, str_eqb_refl. reflexivity.
Qed.

(** Nothing is inserted for rows whose fingerprints the table holds. *)
Lemma store_rows_known `{PyRuntime} `{PyWord} (rules : list Rule)
    (db : list StoredTx) (rows : list Prepared) :
  Forall (fun p => exists fp, row_fingerprint p = Returned fp
                              /\ has_fingerprint db fp = true) rows ->
  forall i k,
    store_rows rules {| table := db; inserted := i; skipped := k |} rows
    = Returned {| table := db; inserted := i;
                  skipped := (k + List.length rows)%nat |}.
Proof.
  induction 1 as [|p rows (fp & FP & Hit) _ IH]; intros i k.
  - simpl. rewrite Nat.add_0_r. reflexivity.
  - cbn [store_rows]. unfold store_row. unfold row_fingerprint in FP.
    rewrite FP. cbn [bind table inserted skipped]. rewrite Hit.
    cbn [bind]. rewrite IH. simpl. do 2 f_equal. lia.
Qed.

Lemma upload_file_returned `{PyRuntime} `{PyWord} (D : Decoders RawTable)
    (max_upload_mb : Z) (rules : list Rule) (branch_hint : option pystr)
    (db : list StoredTx) (content : list N) (filename : option pystr)
    (n : nat) (st : UploadState) :
  upload_file D max_upload_mb rules branch_hint db content filename
  = Returned (Uploaded n st) ->
  exists raw_df df,
    (max_upload_mb * 1024 * 1024 <? Z.of_nat (List.length content))%Z = false
    /\ load_spreadsheet D content (Some (or_text filename (u "upload.xlsx")))
       = Returned raw_df
    /\ unify_columns raw_df = Returned df
    /\ n = List.length (prepare_rows branch_hint (f_rows (backfill_columns df)))
    /\ store_rows rules {| table := db; inserted := 0; skipped := 0 |}
         (prepare_rows branch_hint (f_rows (backfill_columns df)))
       = Returned st.
Proof.
  unfold upload_file. cbv zeta.
  destruct (_ <? _)%Z; [discriminate|].
  destruct (load_spreadsheet D content _) as [raw_df|e]; [|discriminate].
  cbn [bind]. destruct (unify_columns raw_df) as [df|e] eqn:Un; [|discriminate].
  destruct (store_rows _ _ _) as [st1|e] eqn:S1; [|discriminate].
  cbn [bind]. intros E. injection E as <- <-.
  exists raw_df, df.
  split; [reflexivity|]. split; [reflexivity|]. split; [exact Un|].
  split; [reflexivity | exact S1].
Qed.

(** X5.  When an upload is answered with its counts, every row of the
    frame was either inserted or skipped as a duplicate: the two counters
    add up to the row count, the rows the table had are still there in
    their order, and the rows added are as many as were counted. *)
Theorem upload_counts `{PyRuntime} `{PyWord} (D : Decoders RawTable)
    (max_upload_mb : Z) (rules : list Rule) (branch_hint : option pystr)
    (db : list StoredTx) (content : list N) (filename : option pystr)
    (n : nat) (st : UploadState) :
  upload_file D max_upload_mb rules branch_hint db content filename
  = Returned (Uploaded n st) ->
  (inserted st + skipped st = n)%nat
  /\ exists new, table st = db ++ new /\ List.length new = inserted st.
Proof.
  intros E. apply upload_file_returned in E.
  destruct E as (raw_df & df & _ & _ & _ & -> & S1).
  apply store_rows_spec in S1.
  destruct S1 as (new & T & I & C & _). simpl in *.
  split; [exact C|]. exists new. split; [exact T | symmetry; exact I].
Qed.

Lemma upload_counts_witness :
  exists st,
    @upload_file reference_runtime reference_word (reads_as salary_and_coffee)
      30 [starbucks_rule] None [] [80; 75] None
    = Returned (Uploaded 2 st)
    /\ (inserted st + skipped st = 2)%nat
    /\ exists new, table st = [] ++ new /\ List.length new = inserted st.
Proof.
  eexists. split; [vm_compute; reflexivity|].
  eapply (@upload_counts reference_runtime reference_word
            (reads_as salary_and_coffee) 30 [starbucks_rule] None []
            [80; 75] None).
  vm_compute. reflexivity.
Defined.

(** X6.  An upload keeps the fingerprints of the table distinct: if no two
    rows of the table shared a fingerprint before, none do after. *)
Theorem upload_keeps_fingerprints_distinct `{PyRuntime} `{PyWord}
    (D : Decoders RawTable) (max_upload_mb : Z) (rules : list Rule)
    (branch_hint : option pystr) (db : list StoredTx) (content : list N)
    (filename : option pystr) (n : nat) (st : UploadState) :
  NoDup (map s_fingerprint db) ->
  upload_file D max_upload_mb rules branch_hint db content filename
  = Returned (Uploaded n st) ->
  NoDup (map s_fingerprint (table st)).
Proof.
  intros N E. apply upload_file_returned in E.
  destruct E as (raw_df & df & _ & _ & _ & _ & S1).
  apply store_rows_spec in S1.
  destruct S1 as (new & _ & _ & _ & _ & U & _). exact (U N).
Qed.

Lemma upload_keeps_fingerprints_distinct_witness :
  exists st,
    @upload_file reference_runtime reference_word (reads_as salary_and_coffee)
      30 [] (Some (u "본점")) [] [80; 75] (Some (u "a.xlsx"))
    = Returned (Uploaded 2 st)
    /\ NoDup (map s_fingerprint (table st)).
Proof.
  eexists. split; [vm_compute; reflexivity|].
  eapply (@upload_keeps_fingerprints_distinct reference_runtime reference_word
            (reads_as salary_and_coffee) 30 [] (Some (u "본점")) []
            [80; 75] (Some (u "a.xlsx"))).
  - constructor.
  - vm_compute. reflexivity.
Defined.

(** X7.  Uploading the same file again, with the same branch hint and
    whatever the rules have become, inserts nothing: the table is left as
    the first upload made it and every row is counted as skipped. *)
Theorem upload_again_inserts_nothing `{PyRuntime} `{PyWord}
    (D : Decoders RawTable) (max_upload_mb : Z) (rules rules' : list Rule)
    (branch_hint : option pystr) (db : list StoredTx) (content : list N)
    (filename : option pystr) (n : nat) (st : UploadState) :
  upload_file D max_upload_mb rules branch_hint db content filename
  = Returned (Uploaded n st) ->
  upload_file D max_upload_mb rules' branch_hint (table st) content filename
  = Returned (Uploaded n {| table := table st; inserted := 0; skipped := n |}).
Proof.
  intros E. apply upload_file_returned in E.
  destruct E as (raw_df & df & Sz & L & Un & -> & S1).
  apply store_rows_spec in S1.
  destruct S1 as (new & _ & _ & _ & _ & _ & K).
  unfold upload_file. cbv zeta. rewrite Sz, L. cbn [bind]. rewrite Un.
  rewrite (@store_rows_known _ _ rules' _ _ K 0%nat 0%nat). reflexivity.
Qed.

Lemma upload_again_inserts_nothing_witness :
  exists st,
    @upload_file reference_runtime reference_word (reads_as salary_and_coffee)
      30 [starbucks_rule] None [] [80; 75] None
    = Returned (Uploaded 2 st)
    /\ @upload_file reference_runtime reference_word
         (reads_as salary_and_coffee) 30 [] None (table st) [80; 75] None
       = Returned (Uploaded 2 {| table := table st; inserted := 0;
                                 skipped := 2 |}).
Proof.
  eexists. split; [vm_compute; reflexivity|].
  eapply (@upload_again_inserts_nothing reference_runtime reference_word
            (reads_as salary_and_coffee) 30 [starbucks_rule] [] None []
            [80; 75] None).
  vm_compute. reflexivity.
Defined.












(** ** Fingerprints, further *)

Lemma sha_round_length (st : list N) (kw : N * N) :
  List.length (sha_round st kw) = List.length st.
Proof.
  destruct st as [|a [|b [|c [|d [|e [|f [|g [|h [|i st]]]]]]]]]; reflexivity.
Qed.

Lemma compress_length (h block : list N) :
  List.length (compress h block) = List.length h.
Proof.
  unfold compress. rewrite length_map, length_combine.
  assert (E : forall l st, List.length (fold_left sha_round l st)
                           = List.length st).
  { intros l. induction l as [|kw l IH]; intros st; [reflexivity|].
    simpl. rewrite IH. apply sha_round_length. }
  rewrite E. apply Nat.min_id.
Qed.

Lemma sha256_length (msg : list N) : List.length (sha256 msg) = 8%nat.
Proof.
  unfold sha256. cbv zeta.
  generalize (blocks (List.length (words_of (List.length (sha_pad msg))
                                            (sha_pad msg)))
                     (words_of (List.length (sha_pad msg)) (sha_pad msg))).
  intros bl.
  assert (E : forall h, List.length (fold_left compress bl h) = List.length h).
  { induction bl as [|b bl IH]; intros h; [reflexivity|].
    simpl. rewrite IH. apply compress_length. }
  rewrite E. reflexivity.
Qed.

Lemma hex_digit_hex (x : N) : x < 16 -> hex_char (hex_digit x) = true.
Proof.
  intros L. unfold hex_char, hex_digit, is_digit.
  destruct (x <? 10) eqn:T.
  - apply N.ltb_lt in T. apply orb_true_iff. left.
    apply andb_true_iff. split; apply N.leb_le; lia.
  - apply N.ltb_ge in T. apply orb_true_iff. right.
    apply andb_true_iff. split; apply N.leb_le; lia.
Qed.

Lemma hexdigest_shape (ws : list N) :
  let digest :=
    flat_map
      (fun w => map (fun i => hex_digit (N.land (N.shiftr w (4 * N.of_nat i)) 15))
                    (rev (seq 0 8))) ws in
  List.length digest = (8 * List.length ws)%nat
  /\ forallb hex_char digest = true.
Proof.
  cbv zeta. induction ws as [|w ws [L F]]; [split; reflexivity|].
  cbn [flat_map]. rewrite length_app, forallb_app, L, F. split.
  - rewrite length_map, length_rev, length_seq. simpl. lia.
  - rewrite andb_true_r. apply forallb_forall. intros c C.
    apply in_map_iff in C. destruct C as (i & <- & _).
    apply hex_digit_hex. change 15 with (N.ones 4).
    rewrite N.land_ones. apply N.mod_lt. discriminate.
Qed.

(** X11.  A fingerprint that is returned is a text of 64 characters, each
    a digit or a letter from a to f in lower case. *)
Theorem fingerprint_is_hex `{PyRuntime} (tx_date : date) (amount : float)
    (description branch : option pystr) (balance : option float)
    (fp : pystr) :
  make_fingerprint tx_date amount description branch balance = Returned fp ->
  List.length fp = 64%nat /\ forallb hex_char fp = true.
Proof.
  unfold make_fingerprint.
  destruct (encode_utf8 _) as [bytes|e]; [|discriminate].
  cbn [bind]. intros E. injection E as <-. unfold sha256_hexdigest.
  destruct (hexdigest_shape (sha256 bytes)) as [L F].
  rewrite sha256_length in L. split; [exact L | exact F].
Qed.

Lemma fingerprint_is_hex_witness :
  exists fp,
    @make_fingerprint reference_runtime
      {| year := 2024; month := 1; day := 6 |} (float_of_Z (-4500))
      (Some (u "스타벅스")) None (Some (float_of_Z 120000))
    = Returned fp
    /\ List.length fp = 64%nat /\ forallb hex_char fp = true.
Proof.
  eexists. split; [vm_compute; reflexivity|].
  eapply (@fingerprint_is_hex reference_runtime
            {| year := 2024; month := 1; day := 6 |} (float_of_Z (-4500))
            (Some (u "스타벅스")) None (Some (float_of_Z 120000))).
  vm_compute. reflexivity.
Defined.

Lemma utf8_char_none (c : char) :
  utf8_char c = None <-> is_surrogate c = true.
Proof.
  unfold utf8_char, is_surrogate.
  destruct (c <? 128) eqn:A.
  - apply N.ltb_lt in A. split; [discriminate|].
    intros S. apply andb_prop in S. destruct S as [S _].
    apply N.leb_le in S. lia.
  - destruct (c <? 2048) eqn:B.
    + apply N.ltb_lt in B. split; [discriminate|].
      intros S. apply andb_prop in S. destruct S as [S _].
      apply N.leb_le in S. lia.
    + destruct ((55296 <=? c) && (c <=? 57343)); [split; reflexivity|].
      destruct (c <? 65536); split; discriminate.
Qed.

Lemma encode_utf8_raises_iff (s : pystr) :
  (exists e, encode_utf8 s = Raised e) <-> existsb is_surrogate s = true.
Proof.
  induction s as [|c s IH].
  - simpl. split; [intros [e E]; discriminate | discriminate].
  - simpl. destruct (utf8_char c) as [bs|] eqn:U.
    + assert (S : is_surrogate c = false).
      { destruct (is_surrogate c) eqn:S; [|reflexivity].
        apply utf8_char_none in S. congruence. }
      rewrite S. simpl. rewrite <- IH.
      destruct (encode_utf8 s) as [rest|e]; cbn [bind]; split.
      * intros [e E]. discriminate.
      * intros [e E]. discriminate.
      * intros _. exists e. reflexivity.
      * intros _. exists e. reflexivity.
    + apply utf8_char_none in U. rewrite U. simpl.
      split; [reflexivity|]. intros _. eexists. reflexivity.
Qed.

Lemma ascii_no_surrogate (s : pystr) :
  forallb is_ascii s = true -> existsb is_surrogate s = false.
Proof.
  induction s as [|c s IH]; [reflexivity|].
  simpl. intros A. apply andb_prop in A. destruct A as [A B].
  rewrite (IH B), orb_false_r. unfold is_ascii in A. apply N.ltb_lt in A.
  unfold is_surrogate. apply andb_false_iff. left. apply N.leb_gt. lia.
Qed.

Lemma decimal_ascii (n : N) : forallb is_ascii (decimal n) = true.
Proof.
  unfold decimal. generalize (N.to_uint n) as d. intros d.
  induction d; simpl; auto.
Qed.

Lemma zero_pad_ascii (width : nat) (n : N) :
  forallb is_ascii (zero_pad width n) = true.
Proof.
  unfold zero_pad. cbv zeta. rewrite forallb_app, decimal_ascii, andb_true_r.
  induction (width - List.length (decimal n))%nat as [|k IH]; [reflexivity|].
  simpl. exact IH.
Qed.

Lemma isoformat_ascii (d : date) : forallb is_ascii (isoformat d) = true.
Proof.
  unfold isoformat. rewrite !forallb_app, !zero_pad_ascii. reflexivity.
Qed.

Lemma format_fixed_ascii (k : nat) (x : float) :
  forallb is_ascii (format_fixed k x) = true.
Proof.
  assert (D : forall n, forallb is_ascii (fixed_digits k n) = true).
  { intros n. unfold fixed_digits. cbv zeta.
    rewrite forallb_app, decimal_ascii.
    destruct k; [reflexivity|]. simpl. apply zero_pad_ascii. }
  unfold format_fixed. destruct x as [s|s| |s m e]; try destruct s;
    try reflexivity; rewrite ?forallb_app, D; reflexivity.
Qed.

(** X12.  [make_fingerprint] raises exactly when the description or the
    branch, stripped and lowered, holds a surrogate code point: the date,
    the amount and the balance never stand in the way of the encoding. *)
Theorem fingerprint_raises_on_surrogates `{PyRuntime} (tx_date : date)
    (amount : float) (description branch : option pystr)
    (balance : option float) :
  (exists e,
     make_fingerprint tx_date amount description branch balance = Raised e)
  <-> existsb is_surrogate (py_lower (strip (or_text description [])))
      || existsb is_surrogate (py_lower (strip (or_text branch []))) = true.
Proof.
  assert (R : (exists e, make_fingerprint tx_date amount description branch
                           balance = Raised e)
              <-> exists e, encode_utf8 (fingerprint_text tx_date amount
                              description branch balance) = Raised e).
  { unfold make_fingerprint.
    destruct (encode_utf8 _) as [bytes|e]; cbn [bind]; split;
      intros [e' E]; try discriminate; exists e'; exact E. }
  rewrite R, encode_utf8_raises_iff. unfold fingerprint_text. cbv zeta.
  rewrite !existsb_app.
  rewrite (ascii_no_surrogate _ (isoformat_ascii tx_date)).
  rewrite (ascii_no_surrogate _ (format_fixed_ascii 2 amount)).
  change (existsb is_surrogate (u "|")) with false.
  destruct balance as [x|];
    rewrite ?(ascii_no_surrogate _ (format_fixed_ascii 0 x));
    cbn [existsb]; rewrite ?orb_false_l, ?orb_false_r; reflexivity.
Qed.

(** ** The window of a report *)

Ltac zbool :=
  repeat match goal with
         | H : (_ || _)%bool = true |- _ => apply orb_true_iff in H
         | H : (_ || _)%bool = false |- _ =>
           apply orb_false_iff in H; destruct H
         | H : (_ && _)%bool = true |- _ =>
           apply andb_true_iff in H; destruct H
         | H : (_ && _)%bool = false |- _ => apply andb_false_iff in H
         | H : negb _ = true |- _ => apply negb_true_iff in H
         | H : negb _ = false |- _ => apply negb_false_iff in H
         | H : (_ <? _)%Z = true |- _ => apply Z.ltb_lt in H
         | H : (_ <? _)%Z = false |- _ => apply Z.ltb_ge in H
         | H : (_ <=? _)%Z = true |- _ => apply Z.leb_le in H
         | H : (_ <=? _)%Z = false |- _ => apply Z.leb_gt in H
         | H : (_ =? _)%Z = true |- _ => apply Z.eqb_eq in H
         | H : (_ =? _)%Z = false |- _ => apply Z.eqb_neq in H
         | H : (_ <? _) = true |- _ => apply N.ltb_lt in H
         | H : (_ <? _) = false |- _ => apply N.ltb_ge in H
         | H : (_ =? _) = true |- _ => apply N.eqb_eq in H
         | H : (_ =? _) = false |- _ => apply N.eqb_neq in H
         | H : _ \/ _ |- _ => destruct H
         | H : _ /\ _ |- _ => destruct H
         end.

Lemma days_in_month_ge (y m : Z) : (28 <= days_in_month y m)%Z.
Proof.
  unfold days_in_month.
  destruct (m =? 2)%Z; [destruct (is_leap y); lia|].
  destruct ((m =? 4) || (m =? 6) || (m =? 9) || (m =? 11))%Z; lia.
Qed.

(** The first day of a month of the calendar is a date in the years 1 to
    9999, and in no other year. *)
Lemma new_date_first (y m : Z) :
  (1 <= m <= 12)%Z ->
  new_date y m 1
  = if ((y <? -2147483648) || (2147483647 <? y))%Z then inl DateOverflowError
    else if ((y <? 1) || (9999 <? y))%Z then inl DateValueError
    else inr {| year := Z.to_N y; month := Z.to_N m; day := 1 |}.
Proof.
  intros M. unfold new_date. cbv zeta.
  pose proof (days_in_month_ge y m) as G.
  destruct ((y <? -2147483648) || (2147483647 <? y))%Z eqn:O.
  - replace ((-2147483648 <=? y) && (y <=? 2147483647))%Z with false;
      [reflexivity|].
    symmetry. apply andb_false_iff. zbool; [left; apply Z.leb_gt|right; apply Z.leb_gt]; lia.
  - zbool.
    replace ((-2147483648 <=? y) && (y <=? 2147483647))%Z with true
      by (symmetry; apply andb_true_iff; split; apply Z.leb_le; lia).
    replace ((-2147483648 <=? m) && (m <=? 2147483647))%Z with true
      by (symmetry; apply andb_true_iff; split; apply Z.leb_le; lia).
    cbn [andb negb].
    destruct ((y <? 1) || (9999 <? y))%Z; [reflexivity|].
    replace ((m <? 1) || (12 <? m))%Z with false
      by (symmetry; apply orb_false_iff; split; apply Z.ltb_ge; lia).
    replace ((1 <? 1) || (days_in_month y m <? 1))%Z with false
      by (symmetry; apply orb_false_iff; split; apply Z.ltb_ge; lia).
    reflexivity.
Qed.

Lemma report_window_accepted (y sm em : Z) :
  (1 <= sm)%Z -> (sm <= em)%Z -> (em <= 12)%Z ->
  report_window y sm em
  = if ((y <? -2147483648) || (2147483647 <? y))%Z then inl DateOverflowError
    else if ((y <? 1) || (9999 <? y))%Z then inl DateValueError
    else if ((y =? 9999) && (em =? 12))%Z then inl DateValueError
    else inr (Window {| year := Z.to_N y; month := Z.to_N sm; day := 1 |}
                     (if (em =? 12)%Z
                      then {| year := Z.to_N (y + 1); month := 1; day := 1 |}
                      else {| year := Z.to_N y; month := Z.to_N (em + 1);
                              day := 1 |})).
Proof.
  intros A B C. unfold report_window.
  replace ((sm <? 1) || (12 <? em) || (em <? sm))%Z with false
    by (symmetry; rewrite !orb_false_iff; repeat split; apply Z.ltb_ge; lia).
  rewrite (new_date_first y (m := sm)) by lia.
  destruct ((y <? -2147483648) || (2147483647 <? y))%Z eqn:O; [reflexivity|].
  destruct ((y <? 1) || (9999 <? y))%Z eqn:V; [reflexivity|].
  zbool.
  destruct (em =? 12)%Z eqn:E.
  - rewrite (new_date_first (y + 1) (m := 1)) by lia.
    replace ((y + 1 <? -2147483648) || (2147483647 <? y + 1))%Z with false
      by (symmetry; apply orb_false_iff; split; apply Z.ltb_ge; lia).
    rewrite andb_true_r.
    destruct (y =? 9999)%Z eqn:Y; zbool.
    + replace ((y + 1 <? 1) || (9999 <? y + 1))%Z with true; [reflexivity|].
      symmetry. apply orb_true_iff. right. apply Z.ltb_lt. lia.
    + replace ((y + 1 <? 1) || (9999 <? y + 1))%Z with false; [reflexivity|].
      symmetry. apply orb_false_iff. split; apply Z.ltb_ge; lia.
  - zbool. rewrite (new_date_first y (m := em + 1)) by lia.
    replace ((y <? -2147483648) || (2147483647 <? y))%Z with false
      by (symmetry; apply orb_false_iff; split; apply Z.ltb_ge; lia).
    replace ((y <? 1) || (9999 <? y))%Z with false
      by (symmetry; apply orb_false_iff; split; apply Z.ltb_ge; lia).
    rewrite andb_false_r. reflexivity.
Qed.

(** X13.  What [reports] does with its year and months.  The request is
    refused as an invalid month range exactly when the first month is below
    1, the last above 12 or the first after the last.  A window is
    computed exactly when the months are in order within 1 to 12 and the
    year is from 1 to 9999, December of 9999 excepted: for a range that
    ends in December 9999 the last date cannot be made and a [ValueError]
    leaves the handler, whatever the first month. *)
Theorem report_window_outcomes (y sm em : Z) :
  (report_window y sm em = inr InvalidRange
   <-> (sm < 1 \/ 12 < em \/ em < sm)%Z)
  /\ ((exists start_date end_date,
         report_window y sm em = inr (Window start_date end_date))
      <-> (1 <= sm <= em /\ em <= 12 /\ 1 <= y <= 9999
           /\ ~ (y = 9999 /\ em = 12))%Z)
  /\ report_window 9999 sm 12
     = if ((sm <? 1) || (12 <? sm))%Z then inr InvalidRange
       else inl DateValueError.
Proof.
  assert (Bad : (sm < 1 \/ 12 < em \/ em < sm)%Z ->
                report_window y sm em = inr InvalidRange).
  { intros B. unfold report_window.
    replace ((sm <? 1) || (12 <? em) || (em <? sm))%Z with true; [reflexivity|].
    symmetry. rewrite !orb_true_iff.
    destruct B as [B|[B|B]]; [left; left|left; right|right];
      apply Z.ltb_lt; exact B. }
  split; [|split].
  - split; [|exact Bad].
    intros E.
    destruct (Z_lt_dec sm 1) as [?|A]; [lia|].
    destruct (Z_lt_dec 12 em) as [?|B]; [lia|].
    destruct (Z_lt_dec em sm) as [?|C]; [lia|].
    rewrite report_window_accepted in E by lia.
    destruct ((y <? -2147483648) || (2147483647 <? y))%Z; [discriminate|].
    destruct ((y <? 1) || (9999 <? y))%Z; [discriminate|].
    destruct ((y =? 9999) && (em =? 12))%Z; discriminate.
  - split.
    + intros (s & e & E).
      destruct (Z_lt_dec sm 1) as [L|A]; [rewrite Bad in E by lia; discriminate|].
      destruct (Z_lt_dec 12 em) as [L|B]; [rewrite Bad in E by lia; discriminate|].
      destruct (Z_lt_dec em sm) as [L|C]; [rewrite Bad in E by lia; discriminate|].
      rewrite report_window_accepted in E by lia.
      destruct ((y <? -2147483648) || (2147483647 <? y))%Z; [discriminate|].
      destruct ((y <? 1) || (9999 <? y))%Z eqn:V; [discriminate|].
      destruct ((y =? 9999) && (em =? 12))%Z eqn:Y; [discriminate|].
      zbool; lia.
    + intros (A & B & C & N).
      rewrite report_window_accepted by lia.
      replace ((y <? -2147483648) || (2147483647 <? y))%Z with false
        by (symmetry; apply orb_false_iff; split; apply Z.ltb_ge; lia).
      replace ((y <? 1) || (9999 <? y))%Z with false
        by (symmetry; apply orb_false_iff; split; apply Z.ltb_ge; lia).
      replace ((y =? 9999) && (em =? 12))%Z with false.
      * eexists. eexists. reflexivity.
      * symmetry. apply andb_false_iff.
        destruct (Z.eq_dec y 9999) as [->|Ny].
        -- right. apply Z.eqb_neq. intros ->. apply N. split; reflexivity.
        -- left. apply Z.eqb_neq. exact Ny.
  - destruct ((sm <? 1) || (12 <? sm))%Z eqn:S.
    + unfold report_window.
      replace ((sm <? 1) || (12 <? 12) || (12 <? sm))%Z with true; [reflexivity|].
      symmetry. rewrite !orb_true_iff. zbool; [left; left|right];
        apply Z.ltb_lt; lia.
    + zbool. rewrite report_window_accepted by lia. reflexivity.
Qed.

(** X14.  The window of a report holds the dates of the months asked for
    and no others: a date of the calendar lies from the first date on and
    before the last exactly when its year is the year of the report and
    its month is within the range. *)
Theorem report_window_exact (y sm em : Z) (start_date end_date d : date) :
  report_window y sm em = inr (Window start_date end_date) ->
  1 <= month d <= 12 -> 1 <= day d ->
  (in_window start_date end_date d = true
   <-> Z.of_N (year d) = y /\ (sm <= Z.of_N (month d) <= em)%Z).
Proof.
  intros E M D.
  destruct (Z_lt_dec sm 1) as [L|A];
    [unfold report_window in E;
     replace (sm <? 1)%Z with true in E by (symmetry; apply Z.ltb_lt; lia);
     discriminate|].
  destruct (Z_lt_dec 12 em) as [L|B];
    [unfold report_window in E;
     replace (12 <? em)%Z with true in E by (symmetry; apply Z.ltb_lt; lia);
     rewrite orb_true_r in E; discriminate|].
  destruct (Z_lt_dec em sm) as [L|C];
    [unfold report_window in E;
     replace (em <? sm)%Z with true in E by (symmetry; apply Z.ltb_lt; lia);
     rewrite orb_true_r in E; discriminate|].
  rewrite report_window_accepted in E by lia.
  destruct ((y <? -2147483648) || (2147483647 <? y))%Z; [discriminate|].
  destruct ((y <? 1) || (9999 <? y))%Z eqn:V; [discriminate|].
  destruct ((y =? 9999) && (em =? 12))%Z; [discriminate|].
  injection E as <- <-. zbool.
  unfold in_window, date_leb, date_ltb.
  destruct d as [dy dm dd]. cbn [year month day] in *.
  destruct (em =? 12)%Z eqn:E12; cbn [year month day]; zbool;
    repeat match goal with
           | |- context [?a <? ?b] => destruct (N.ltb_spec a b)
           | |- context [?a =? ?b] => destruct (N.eqb_spec a b)
           end;
    cbn [andb orb negb]; split; intros; try discriminate; try lia;
    try reflexivity.
Qed.

Lemma report_window_exact_witness :
  report_window 2024 1 3
  = inr (Window {| year := 2024; month := 1; day := 1 |}
                {| year := 2024; month := 4; day := 1 |})
  /\ (in_window {| year := 2024; month := 1; day := 1 |}
                {| year := 2024; month := 4; day := 1 |}
                {| year := 2024; month := 3; day := 31 |} = true
      <-> Z.of_N 2024 = 2024%Z /\ (1 <= Z.of_N 3 <= 3)%Z).
Proof.
  split; [vm_compute; reflexivity|].
  apply (@report_window_exact 2024 1 3
           {| year := 2024; month := 1; day := 1 |}
           {| year := 2024; month := 4; day := 1 |}
           {| year := 2024; month := 3; day := 31 |}).
  - vm_compute. reflexivity.
  - simpl. lia.
  - simpl. lia.
Defined.

(** ** Money parsing, further *)

Lemma digit_cases (c : char) :
  is_digit c = true ->
  c = 48 \/ c = 49 \/ c = 50 \/ c = 51 \/ c = 52 \/ c = 53 \/ c = 54
  \/ c = 55 \/ c = 56 \/ c = 57.
Proof.
  unfold is_digit. intros D. apply andb_prop in D. destruct D as [A B].
  apply N.leb_le in A, B. lia.
Qed.

Lemma skip_c_space_digits (s : pystr) :
  forallb is_digit s = true -> skip_c_space s = s.
Proof.
  destruct s as [|c s]; [reflexivity|]. simpl. intros D.
  apply andb_prop in D. destruct D as [D _].
  destruct (digit_cases c D) as [->|[->|[->|[->|[->|[->|[->|[->|[->| ->]]]]]]]]];
    reflexivity.
Qed.

Lemma forallb_rev {A} (f : A -> bool) (l : list A) :
  forallb f (rev l) = forallb f l.
Proof.
  induction l as [|a l IH]; [reflexivity|].
  simpl. rewrite forallb_app, IH. simpl. rewrite andb_true_r.
  apply andb_comm.
Qed.

Lemma drop_underscores_digits (s : pystr) :
  forallb is_digit s = true ->
  forall prev, prev <> 95 -> drop_underscores prev s = Some s.
Proof.
  induction s as [|c s IH]; intros D prev P.
  - simpl. destruct (N.eqb_spec prev 95); [contradiction | reflexivity].
  - simpl in D. apply andb_prop in D. destruct D as [D E].
    assert (C : c <> 95)
      by (destruct (digit_cases c D) as [->|[->|[->|[->|[->|[->|[->|[->|[->| ->]]]]]]]]];
          discriminate).
    simpl. destruct (N.eqb_spec c 95); [contradiction|].
    rewrite D. simpl negb. rewrite andb_false_r.
    rewrite (@IH E c C). reflexivity.
Qed.

Lemma span_digits_all (s : pystr) :
  forallb is_digit s = true -> span_digits s = (s, []).
Proof.
  induction s as [|c s IH]; [reflexivity|].
  simpl. intros D. apply andb_prop in D. destruct D as [D E].
  rewrite D, (IH E). reflexivity.
Qed.

Lemma decimal_to_float_integer (n : N) :
  decimal_to_float false n 0 = float_of_Z (Z.of_N n).
Proof.
  destruct n as [|p]; [reflexivity|].
  unfold decimal_to_float, float_of_Z, binary_normalize. simpl Z.leb.
  cbv iota. simpl Z.of_N. change (Z.to_pos (10 ^ 0)) with 1%positive.
  rewrite Pos.mul_1_r. reflexivity.
Qed.

Lemma ascii_float_digits (s : pystr) :
  s <> [] -> forallb is_digit s = true ->
  ascii_float s = Some (float_of_Z (Z.of_N (digits_value s))).
Proof.
  intros N D. unfold ascii_float.
  rewrite (skip_c_space_digits s D).
  rewrite (skip_c_space_digits (rev s)) by (rewrite forallb_rev; exact D).
  rewrite rev_involutive. rewrite (@drop_underscores_digits s D 0) by discriminate.
  assert (T : take_sign s = (false, s)
              /\ str_eqb (map ascii_lower_char s) (u "inf") = false
              /\ str_eqb (map ascii_lower_char s) (u "infinity") = false
              /\ str_eqb (map ascii_lower_char s) (u "nan") = false).
  { destruct s as [|c s]; [contradiction|]. simpl in D.
    apply andb_prop in D. destruct D as [D _].
    destruct (digit_cases c D) as [->|[->|[->|[->|[->|[->|[->|[->|[->| ->]]]]]]]]];
      repeat split; reflexivity. }
  destruct T as (-> & -> & -> & ->). cbn [orb].
  unfold parse_decimal. rewrite (span_digits_all s D).
  destruct s as [|c s]; [contradiction|].
  cbn [is_empty andb parse_exponent]. rewrite app_nil_r.
  cbn [List.length Z.of_nat Z.sub]. rewrite decimal_to_float_integer.
  reflexivity.
Qed.

(** X15.  An amount written with digits is read as the number the digits
    spell, rounded to the nearest float, whatever won signs, commas and
    blanks stand among them. *)
Theorem parse_money_reads_digits `{PyRuntime} (s : pystr) :
  money_rest s <> [] ->
  forallb is_digit (money_rest s) = true ->
  _parse_money (PyStr s)
  = Returned (float_of_Z (Z.of_N (digits_value (money_rest s)))).
Proof.
  intros N D. rewrite parse_money_returns. f_equal. unfold money.
  destruct (money_rest s) as [|c rest] eqn:E; [contradiction|].
  rewrite py_float_ascii.
  - rewrite (ascii_float_digits N D). reflexivity.
  - rewrite forallb_forall in D |- *. intros d I. specialize (D d I).
    unfold is_digit in D. apply andb_prop in D. destruct D as [_ D].
    apply N.leb_le in D. unfold is_ascii. apply N.ltb_lt. lia.
Qed.

Lemma parse_money_reads_digits_witness :
  @_parse_money reference_runtime (PyStr won_amount)
  = Returned (float_of_Z 1234567).
Proof.
  apply (@parse_money_reads_digits reference_runtime won_amount).
  - vm_compute. discriminate.
  - vm_compute. reflexivity.
Defined.

(** ** The detectors, further *)

(** X16.  A detector declines, so that the next reading is tried, in three
    cases only: the table has fewer than five columns, none of its first
    30 rows has the signature of the bank, or the first row that has it
    lacks a required label.  Once a header row with every label is found
    the detector returns its frame or raises; it does not decline. *)
Theorem detector_declines_iff `{PyRuntime} (raw : RawTable) :
  (parse_woori_excel raw = Returned None
   <-> (ncols raw < 5)%nat
       \/ first_row woori_signature (body raw) 30 0 = None
       \/ exists h,
            first_row woori_signature (body raw) 30 0 = Some h
            /\ forallb (fun c => label_in c (labels_at raw h)) woori_needed
               = false)
  /\ (parse_kb_excel raw = Returned None
      <-> (ncols raw < 5)%nat
          \/ first_row kb_signature (body raw) 30 0 = None
          \/ exists h,
               first_row kb_signature (body raw) 30 0 = Some h
               /\ forallb (fun c => label_in c (labels_at raw h)) kb_needed
                  = false).
Proof.
  destruct (detectors_decline raw) as (W1 & K1 & W2 & K2).
  split; split.
  - unfold parse_woori_excel.
    destruct (Nat.ltb_spec (ncols raw) 5) as [L|L]; [left; exact L|].
    destruct (first_row woori_signature (body raw) 30 0) as [h|] eqn:F;
      [|right; left; reflexivity].
    fold (labels_at raw h).
    destruct (forallb (fun c => label_in c (labels_at raw h)) woori_needed)
      eqn:A; [|right; right; exists h; split; [reflexivity | exact A]].
    cbn [negb]. intros E. bind_inv E. bind_inv E. bind_inv E. bind_inv E.
    discriminate E.
  - intros [L|[N|(h & F & A)]]; [|exact (W1 N)|exact (W2 h F A)].
    unfold parse_woori_excel. apply Nat.ltb_lt in L. rewrite L. reflexivity.
  - unfold parse_kb_excel.
    destruct (Nat.ltb_spec (ncols raw) 5) as [L|L]; [left; exact L|].
    destruct (first_row kb_signature (body raw) 30 0) as [h|] eqn:F;
      [|right; left; reflexivity].
    fold (labels_at raw h).
    destruct (forallb (fun c => label_in c (labels_at raw h)) kb_needed)
      eqn:A; [|right; right; exists h; split; [reflexivity | exact A]].
    cbn [negb]. intros E. bind_inv E. bind_inv E. bind_inv E. bind_inv E.
    discriminate E.
  - intros [L|[N|(h & F & A)]]; [|exact (K1 N)|exact (K2 h F A)].
    unfold parse_kb_excel. apply Nat.ltb_lt in L. rewrite L. reflexivity.
Qed.

(** ** The generic fallback, further *)

Lemma money_list_returns `{PyRuntime} (labels : list pystr)
    (data : list (list pyval)) (c : pystr) :
  exists values, money_list labels data c = Returned values.
Proof.
  destruct (money_list_length labels data c) as (values & E & _).
  exists values. exact E.
Qed.

(** X17.  On a labelled frame the generic fallback fails for missing
    columns exactly when no label is a date label or none a description
    label, and the error then lists the labels, whether or not there is an
    amount; the "no amount column" error is raised exactly when a date and
    a description label are there and no credit, debit or amount label
    is. *)
Theorem unify_labelled_errors `{PyRuntime} (cols : list pystr)
    (data : list (list pyval)) :
  (forall listed,
     unify_labelled cols data = Raised (MissingColumns listed)
     <-> listed = cols
         /\ (truthy (next_label kw_date cols) = false
             \/ truthy (next_label kw_desc cols) = false))
  /\ (unify_labelled cols data = Raised (ValueError (u "금액 컬럼 없음"))
      <-> truthy (next_label kw_date cols) = true
          /\ truthy (next_label kw_desc cols) = true
          /\ truthy (next_label kw_dep cols) = false
          /\ truthy (next_label kw_wd cols) = false
          /\ truthy (next_label kw_amt cols) = false).
Proof.
  assert (Rest : forall e,
             truthy (next_label kw_date cols) = true ->
             truthy (next_label kw_desc cols) = true ->
             unify_labelled cols data = Raised e ->
             (truthy (next_label kw_dep cols) = false
              /\ truthy (next_label kw_wd cols) = false
              /\ truthy (next_label kw_amt cols) = false
              /\ e = ValueError (u "금액 컬럼 없음"))
             \/ (exists a b, e = LengthMismatch a b)
             \/ e = CannotAssemble \/ e = NotOneDimensional).
  { intros e Dt Ds. unfold unify_labelled. rewrite Dt, Ds. cbn [negb orb].
    unfold amount_series.
    destruct (truthy (next_label kw_dep cols)) eqn:Dep;
      destruct (truthy (next_label kw_wd cols)) eqn:Wd;
      destruct (truthy (next_label kw_amt cols)) eqn:Amt; cbn [orb];
      repeat match goal with
             | |- context [money_list cols data ?c] =>
               let v := fresh "v" in let E := fresh "E" in
               destruct (money_list_returns cols data c) as [v E];
               rewrite E; clear E
             end;
      cbn [bind];
      try (intros E; injection E as <-; left; repeat split; reflexivity);
      match goal with
      | |- bind (build_out ?a ?b ?c ?d ?amounts) _ = _ -> _ =>
        unfold build_out;
        destruct (getitem a b c); cbn [bind];
        try (intros E; injection E as <-; right; right; left; reflexivity);
        destruct (negb (List.length amounts =? List.length b)%nat);
        try (intros E; injection E as <-; right; left; eexists; eexists;
             reflexivity);
        destruct (getitem a b d); cbn [bind];
        try (intros E; injection E as <-; right; right; right; reflexivity);
        unfold balance_block;
        destruct (find (fun c0 => label_in c0 a) balance_labels) as [bc|];
        cbn [bind]; try discriminate;
        destruct (money_list_returns a b bc) as [v' E']; rewrite E';
        cbn [bind]; unfold set_balance;
        repeat match goal with
               | |- context [match ?x with _ => _ end] => destruct x
               end;
        cbn [bind]; try discriminate;
        intros E; injection E as <-; right; left; eexists; eexists;
        reflexivity
      end. }
  split.
  - intros listed. split.
    + intros E.
      destruct (truthy (next_label kw_date cols)) eqn:Dt.
      * destruct (truthy (next_label kw_desc cols)) eqn:Ds.
        -- destruct (Rest _ eq_refl eq_refl E)
             as [(_ & _ & _ & X)|[(a & b & X)|[X|X]]]; discriminate X.
        -- unfold unify_labelled in E. rewrite Dt, Ds in E. cbn in E.
           injection E as <-. split; [reflexivity | right; reflexivity].
      * unfold unify_labelled in E. rewrite Dt in E. cbn in E.
        injection E as <-. split; [reflexivity | left; reflexivity].
    + intros (-> & [Dt|Ds]); unfold unify_labelled.
      * rewrite Dt. reflexivity.
      * rewrite Ds, orb_true_r. reflexivity.
  - split.
    + intros E.
      destruct (truthy (next_label kw_date cols)) eqn:Dt;
        [|unfold unify_labelled in E; rewrite Dt in E; discriminate E].
      destruct (truthy (next_label kw_desc cols)) eqn:Ds;
        [|unfold unify_labelled in E; rewrite Dt, Ds in E; discriminate E].
      destruct (Rest _ eq_refl eq_refl E)
        as [(A & B & C & _)|[(a & b & X)|[X|X]]]; try discriminate X.
      repeat split; assumption.
    + intros (Dt & Ds & Dep & Wd & Amt). unfold unify_labelled, amount_series.
      rewrite Dt, Ds, Dep, Wd, Amt. reflexivity.
Qed.

(** ** Uploads: the type of a stored row *)

Lemma woori_rows_typed (dates : list (option timestamp)) :
  forall types descs outs ins bals branches,
    Forall typed_by_amount
           (woori_rows dates types descs outs ins bals branches).
Proof.
  induction dates as [|d dates IH];
    intros [|t types] [|s descs] [|o outs] [|i ins] [|b bals] [|br branches];
    simpl; try constructor; [reflexivity | apply IH].
Qed.

Lemma kb_rows_typed (dates : list (option timestamp)) :
  forall descs outs ins bals,
    Forall typed_by_amount (kb_rows dates descs outs ins bals).
Proof.
  induction dates as [|d dates IH];
    intros [|s descs] [|o outs] [|i ins] [|b bals];
    simpl; try constructor; [reflexivity | apply IH].
Qed.

Lemma has_column_set_field (df : Frame) (c c' : string) (f : URow -> URow) :
  String.eqb c' c = false ->
  has_column (set_field df c f) c' = has_column df c'.
Proof.
  intros N. unfold has_column, set_field. cbn [f_columns].
  rewrite existsb_app. cbn [existsb]. rewrite N, !orb_false_r. reflexivity.
Qed.

(** After the backfill every row has the type its amount gives it, if the
    rows that came with a type had. *)
Lemma backfill_typed (df : Frame) :
  (has_column df "tx_type" = true -> Forall typed_by_amount (f_rows df)) ->
  Forall typed_by_amount (f_rows (backfill_columns df)).
Proof.
  assert (Keep : forall (d : Frame) c f,
             String.eqb "tx_type" c = false ->
             (forall r, r_tx_type (f r) = r_tx_type r
                        /\ r_amount (f r) = r_amount r) ->
             (has_column d "tx_type" = true ->
              Forall typed_by_amount (f_rows d)) ->
             has_column (set_field d c f) "tx_type" = true ->
             Forall typed_by_amount (f_rows (set_field d c f))).
  { intros d c f N Same P Has. rewrite has_column_set_field in Has by exact N.
    cbn [set_field f_rows]. apply Forall_map.
    eapply Forall_impl; [|exact (P Has)]. intros r. unfold typed_by_amount.
    destruct (Same r) as [-> ->]. auto. }
  intros P. unfold backfill_columns.
  set (f1 := fun r : URow => _).
  match goal with
  | |- context [set_field _ "branch" ?f] => set (f2 := f)
  end.
  match goal with
  | |- context [set_field _ "tx_type" ?f] => set (f3 := f)
  end.
  set (d1 := if has_column df "balance" then df else set_field df "balance" f1).
  set (d2 := if has_column d1 "branch" then d1 else set_field d1 "branch" f2).
  assert (P1 : has_column d1 "tx_type" = true ->
               Forall typed_by_amount (f_rows d1)).
  { unfold d1. destruct (has_column df "balance"); [exact P|].
    apply Keep; [reflexivity | intros r; split; reflexivity | exact P]. }
  assert (P2 : has_column d2 "tx_type" = true ->
               Forall typed_by_amount (f_rows d2)).
  { unfold d2. destruct (has_column d1 "branch"); [exact P1|].
    apply Keep; [reflexivity | intros r; split; reflexivity | exact P1]. }
  destruct (has_column d2 "tx_type") eqn:T; [exact (P2 eq_refl)|].
  cbn [set_field f_rows]. apply Forall_map. apply Forall_forall.
  intros r _. reflexivity.
Qed.

Lemma unify_backfill_typed `{PyRuntime} (raw : RawTable) (df : Frame) :
  unify_columns raw = Returned df ->
  Forall typed_by_amount (f_rows (backfill_columns df)).
Proof.
  intros E. apply backfill_typed. unfold unify_columns in E.
  bind_inv E. destruct a as [frame|].
  - injection E as <-. intros _. revert E0. unfold parse_woori_excel.
    destruct (ncols raw <? 5)%nat; [discriminate|].
    destruct (first_row woori_signature (body raw) 30 0); [|discriminate].
    destruct (negb _); [discriminate|].
    intros E. bind_inv E. bind_inv E. bind_inv E. bind_inv E.
    injection E as <-. apply woori_rows_typed.
  - bind_inv E. destruct a as [frame|].
    + injection E as <-. intros _. revert E1. unfold parse_kb_excel.
      destruct (ncols raw <? 5)%nat; [discriminate|].
      destruct (first_row kb_signature (body raw) 30 0); [|discriminate].
      destruct (negb _); [discriminate|].
      intros E. bind_inv E. bind_inv E. bind_inv E. bind_inv E.
      injection E as <-. apply kb_rows_typed.
    + apply unify_generic_columns in E. unfold has_column. rewrite E.
      discriminate.
Qed.

Lemma prepare_rows_typed `{PyRuntime} `{PyWord} (hint : option pystr)
    (rows : list URow) :
  Forall typed_by_amount rows ->
  Forall (fun p => p_tx_type p = tx_type_of (p_amount p))
         (prepare_rows hint rows).
Proof.
  induction 1 as [|r rows T _ IH]; [constructor|].
  cbn [prepare_rows]. destruct (r_date r); [|exact IH].
  constructor; [|exact IH].
  unfold prepare_row. cbn [p_tx_type p_amount]. rewrite T.
  destruct (r_amount r) as [s|s| |s m e]; reflexivity.
Qed.

(** X18.  Every row an upload adds is stored as IN or OUT by its amount
    alone, IN when the amount is above zero and OUT otherwise, whichever
    reading produced the frame; an amount that is zero or not a number is
    stored as OUT. *)
Theorem upload_types_by_amount `{PyRuntime} `{PyWord} (D : Decoders RawTable)
    (max_upload_mb : Z) (rules : list Rule) (branch_hint : option pystr)
    (db : list StoredTx) (content : list N) (filename : option pystr)
    (n : nat) (st : UploadState) :
  upload_file D max_upload_mb rules branch_hint db content filename
  = Returned (Uploaded n st) ->
  exists new,
    table st = db ++ new
    /\ Forall (fun t => p_tx_type (s_tx t)
                        = if fpos (p_amount (s_tx t)) then IN else OUT) new.
Proof.
  intros E. apply upload_file_returned in E.
  destruct E as (raw_df & df & _ & _ & Un & _ & S1).
  apply store_rows_spec in S1.
  destruct S1 as (new & T & _ & _ & A & _). simpl in T.
  exists new. split; [exact T|].
  pose proof (prepare_rows_typed branch_hint (unify_backfill_typed _ Un)) as B.
  rewrite Forall_forall in A, B |- *. intros t I. exact (B _ (A t I)).
Qed.

Lemma upload_types_by_amount_witness :
  exists st,
    @upload_file reference_runtime reference_word (reads_as woori_statement)
      30 [] None [] [80; 75] None
    = Returned (Uploaded 2 st)
    /\ exists new,
         table st = [] ++ new
         /\ Forall (fun t => p_tx_type (s_tx t)
                             = if fpos (p_amount (s_tx t)) then IN else OUT)
                   new.
Proof.
  eexists. split; [vm_compute; reflexivity|].
  eapply (@upload_types_by_amount reference_runtime reference_word
            (reads_as woori_statement) 30 [] None [] [80; 75] None).
  vm_compute. reflexivity.
Defined.

(** ** The loader, further *)

Lemma first_success_in {T} (chain : list (pystr * decoded T))
    (label : pystr) (t : T) :
  In (label, Decoded t) chain -> exists t', first_success chain = Some t'.
Proof.
  induction chain as [|[l [t0|e]] rest IH]; simpl; [contradiction| |].
  - intros _. exists t0. reflexivity.
  - intros [X|I]; [discriminate X | exact (IH I)].
Qed.

(** X19.  Whatever the file is called, the loader returns a table whenever
    one of its two last resorts, the conversion by [xlsx2csv] or the
    reading of the bytes as text, can read the content: none of the
    decoders chosen by the extension can make it fail then. *)
Theorem load_spreadsheet_last_resorts `{PyRuntime} {T} (D : Decoders T)
    (content : list N) (filename : option pystr) (t : T) :
  xlsx2csv D content = Decoded t \/ read_csv_text D content = Decoded t ->
  exists t', load_spreadsheet D content filename = Returned t'.
Proof.
  intros R. rewrite load_runs_chain, run_chain_spec.
  assert (S : exists t',
             first_success (candidate_chain D (file_ext filename) content)
             = Some t').
  { destruct R as [R|R].
    - apply (@first_success_in _ _ (u "xlsx2csv") t).
      unfold candidate_chain. rewrite !in_app_iff.
      do 4 right. left. rewrite R. reflexivity.
    - apply (@first_success_in _ _ (u "csv-final") t).
      unfold candidate_chain. rewrite !in_app_iff.
      do 4 right. right. left. rewrite R. reflexivity. }
  destruct S as [t' ->]. exists t'. reflexivity.
Qed.

Lemma load_spreadsheet_last_resorts_witness :
  exists t',
    @load_spreadsheet reference_runtime RawTable
      (only_sniffing salary_and_coffee) [49; 44; 50] (Some (u "statement.xls"))
    = Returned t'.
Proof.
  apply (@load_spreadsheet_last_resorts reference_runtime RawTable
           (only_sniffing salary_and_coffee) [49; 44; 50]
           (Some (u "statement.xls")) salary_and_coffee).
  right. reflexivity.
Defined.

(** X20.  A file whose name ends in .csv, in whatever case the runtime
    lowers to that, is never handed to an Excel engine: what the loader
    returns or raises for it is the same whatever [read_excel] would
    do. *)
Theorem load_spreadsheet_csv_skips_excel `{PyRuntime} {T} (D : Decoders T)
    (excel : engine -> list N -> decoded T) (content : list N)
    (filename : option pystr) :
  file_ext filename = u ".csv" ->
  load_spreadsheet (with_excel D excel) content filename
  = load_spreadsheet D content filename.
Proof.
  intros E. rewrite !load_runs_chain. unfold candidate_chain. rewrite E.
  reflexivity.
Qed.

Lemma load_spreadsheet_csv_skips_excel_witness :
  @load_spreadsheet reference_runtime RawTable
    (with_excel (only_sniffing salary_and_coffee)
                (fun _ _ => Decoded woori_statement))
    [49; 44; 50] (Some (u "Export.CSV"))
  = @load_spreadsheet reference_runtime RawTable
      (only_sniffing salary_and_coffee) [49; 44; 50] (Some (u "Export.CSV")).
Proof.
  apply (@load_spreadsheet_csv_skips_excel reference_runtime RawTable
           (only_sniffing salary_and_coffee)
           (fun _ _ => Decoded woori_statement) [49; 44; 50]
           (Some (u "Export.CSV"))).
  vm_compute. reflexivity.
Defined.
